(** * PUDL: the EPA CEMS hourly transform ([pudl/transform/epacems.py])

    A shallow embedding of the functions of [pudl.transform.epacems] and of
    the part of pandas they call, followed by the properties the
    specification states about them.

    Conventions of the embedding.
    - A pandas column is a [Series] tagged by its dtype; a [DataFrame] is an
      ordered list of named columns over a default [RangeIndex].
    - Instants ([datetime64[ns, UTC]]) and durations ([timedelta64[ns]]) are
      64-bit integers of nanoseconds, the least of which is [NaT].  A parsed
      date must be a valid [Timestamp]; the cast of hours to nanoseconds
      wraps around, as numpy's does; the sum of instants and durations is
      pandas' checked addition, which raises OverflowError.
    - [float64] values are the kernel's binary64 floats.
    - A Python exception is a value of [exn]; a function that may raise
      returns a [result].  [NotModelled] marks a use of pandas that is left
      out (a dtype the CEMS tables do not have, [isin] on integers with
      values of other kinds); no statement below reads it as the behaviour
      of the program. *)

From Stdlib Require Import ZArith List String Ascii Bool Lia.
From Stdlib Require Import PrimFloat.
From Stdlib Require Uint63.
From Stdlib Require Import DecimalString.
Import ListNotations.

Local Open Scope string_scope.
Local Open Scope list_scope.
Local Open Scope Z_scope.

(** ** Exceptions and results *)

Inductive exn : Type :=
| KeyError (key : string)
    (* df[key] or del df[key] on a column that is not there *)
| ValueError_time_data (s : string)
    (* to_datetime: s does not match the format, or is no calendar date *)
| OutOfBoundsDatetime (s : string)
    (* to_datetime: the date is outside the range of Timestamp *)
| ValueError_utc_offset_missing (plants : list Z)
    (* the ValueError fix_up_dates raises itself; its message ends with
       str(list(missing_plants)) *)
| UnknownTimeZoneError (tz : string)
    (* pytz.timezone on a name it does not know *)
| OverflowError
    (* datetime + timedelta: "Overflow in int64 addition" *)
| NotModelled.

Inductive result (A : Type) : Type :=
| Ok (a : A)
| Raise (e : exn).

Arguments Ok {A} a.
Arguments Raise {A} e.

Definition bind {A B : Type} (r : result A) (k : A -> result B) : result B :=
  match r with
  | Ok a => k a
  | Raise e => Raise e
  end.

Notation "x <- r ;; k" := (bind r (fun x => k))
  (at level 61, r at next level, right associativity).

(** [df.pipe(f)] is [f(df)]; a stage that cannot raise is lifted with [Ok]. *)
Definition pipe {A B : Type} (f : A -> B) (a : A) : result B := Ok (f a).

Fixpoint mapM {A B : Type} (f : A -> result B) (l : list A) : result (list B) :=
  match l with
  | [] => Ok []
  | a :: t => b <- f a ;; bs <- mapM f t ;; Ok (b :: bs)
  end.

(** ** The part of pandas the transform uses *)

Module Pandas.

(** A column: the constructor is the dtype.  [None] is the missing value of
    the dtype ([None]/[NaN] in an object column, [NaT], [pd.NA]); the missing
    value of [float64] is the float NaN; [int64] has none. *)
Inductive Series : Type :=
| int64 (l : list Z)
| float64 (l : list float)
| object (l : list (option string))
| datetime64_utc (l : list (option Z))
| timedelta64 (l : list (option Z))
| Int64 (l : list (option Z)).

Record DataFrame : Type := mkDataFrame {
  nrows : nat;                          (* df.shape[0] *)
  columns : list (string * Series)      (* df.columns, with the data *)
}.

(** [c in df.columns] *)
Definition contains (df : DataFrame) (c : string) : bool :=
  existsb (fun kv => String.eqb (fst kv) c) (columns df).

Fixpoint lookup (c : string) (cols : list (string * Series)) : option Series :=
  match cols with
  | [] => None
  | (k, s) :: t => if String.eqb k c then Some s else lookup c t
  end.

(** [df[c]] *)
Definition getitem (df : DataFrame) (c : string) : result Series :=
  match lookup c (columns df) with
  | Some s => Ok s
  | None => Raise (KeyError c)
  end.

Fixpoint replace (c : string) (s : Series) (cols : list (string * Series))
  : list (string * Series) :=
  match cols with
  | [] => []
  | (k, s0) :: t =>
      if String.eqb k c then (k, s) :: t else (k, s0) :: replace c s t
  end.

(** [df[c] = s]: a column that exists keeps its place, a new one goes last. *)
Definition setitem (df : DataFrame) (c : string) (s : Series) : DataFrame :=
  if contains df c
  then mkDataFrame (nrows df) (replace c s (columns df))
  else mkDataFrame (nrows df) (columns df ++ [(c, s)]).

(** [del df[c]] *)
Definition delitem (df : DataFrame) (c : string) : result DataFrame :=
  if contains df c
  then Ok (mkDataFrame (nrows df)
             (filter (fun kv => negb (String.eqb (fst kv) c)) (columns df)))
  else Raise (KeyError c).

(** *** fillna *)

Inductive fill_value : Type :=
| fill_float (f : float)
| fill_str (s : string).

Definition hasnans (s : Series) : bool :=
  match s with
  | int64 _ => false
  | float64 l => existsb PrimFloat.is_nan l
  | object l => existsb (fun x => match x with None => true | _ => false end) l
  | datetime64_utc l | timedelta64 l | Int64 l =>
      existsb (fun x => match x with None => true | _ => false end) l
  end.

(** [s.fillna(v)].  A fill value of the column's own kind replaces the
    missing entries; a column without missing entries comes back as it is. *)
Definition Series_fillna (v : fill_value) (s : Series) : result Series :=
  if negb (hasnans s) then Ok s
  else
    match s, v with
    | float64 l, fill_float f =>
        Ok (float64 (map (fun x => if PrimFloat.is_nan x then f else x) l))
    | object l, fill_str t =>
        Ok (object (map (fun x => match x with None => Some t | _ => x end) l))
    | _, _ => Raise NotModelled
    end.

(** [df.fillna(value)] with a dict: [for k, v in value.items(): if k not in
    result: continue; result[k].fillna(v, inplace=True)]. *)
Fixpoint fillna (value : list (string * fill_value)) (df : DataFrame)
  : result DataFrame :=
  match value with
  | [] => Ok df
  | (k, v) :: rest =>
      if contains df k
      then s <- getitem df k ;;
           s' <- Series_fillna v s ;;
           fillna rest (setitem df k s')
      else fillna rest df
  end.

(** *** Calendar *)

Definition ns_per_second : Z := 1000000000.
Definition ns_per_hour : Z := 3600 * ns_per_second.
Definition ns_per_day : Z := 24 * ns_per_hour.

Definition is_leap (y : Z) : bool :=
  ((y mod 4 =? 0) && negb (y mod 100 =? 0)) || (y mod 400 =? 0).

Definition days_in_month (y m : Z) : Z :=
  if m =? 2 then (if is_leap y then 29 else 28)
  else if (m =? 4) || (m =? 6) || (m =? 9) || (m =? 11) then 30
  else 31.

(** Days from 1970-01-01 to the day [y-m-d] of the proleptic Gregorian
    calendar. *)
Definition days_from_civil (y m d : Z) : Z :=
  let y' := if m <=? 2 then y - 1 else y in
  let era := y' / 400 in
  let yoe := y' - era * 400 in
  let mp := if 2 <? m then m - 3 else m + 9 in
  let doy := (153 * mp + 2) / 5 + d - 1 in
  let doe := yoe * 365 + yoe / 4 - yoe / 100 + doy in
  era * 146097 + doe - 719468.

(** The instant [y-m-d T hh:mi:ss Z], in nanoseconds since the epoch. *)
Definition utc (y m d hh mi ss : Z) : Z :=
  days_from_civil y m d * ns_per_day + hh * ns_per_hour
  + mi * 60 * ns_per_second + ss * ns_per_second.

(** Timestamp.min.value and Timestamp.max.value *)
Definition Timestamp_min : Z := - (2 ^ 63 - 1).
Definition Timestamp_max : Z := 2 ^ 63 - 1.

(** *** to_datetime(format="%m-%d-%Y", exact=True, utc=True) *)

Definition digit (c : ascii) : option Z :=
  let n := Z.of_nat (nat_of_ascii c) in
  if (48 <=? n) && (n <=? 57) then Some (n - 48) else None.

Definition digit_in (lo hi : Z) (c : ascii) : option Z :=
  match digit c with
  | Some n => if (lo <=? n) && (n <=? hi) then Some n else None
  | None => None
  end.

(** The directive [%m]: [1[0-2]|0[1-9]|[1-9]], alternatives tried in order. *)
Definition directive_m (s : string) : option (Z * string) :=
  match s with
  | String a r =>
      let two :=
        match r with
        | String b r' =>
            match digit_in 1 1 a, digit_in 0 2 b with
            | Some _, Some n => Some (10 + n, r')
            | _, _ =>
                match digit_in 0 0 a, digit_in 1 9 b with
                | Some _, Some n => Some (n, r')
                | _, _ => None
                end
            end
        | EmptyString => None
        end in
      match two with
      | Some x => Some x
      | None =>
          match digit_in 1 9 a with
          | Some n => Some (n, r)
          | None => None
          end
      end
  | EmptyString => None
  end.

(** The directive [%d]: [3[0-1]|[1-2]\d|0[1-9]|[1-9]| [1-9]]. *)
Definition directive_d (s : string) : option (Z * string) :=
  match s with
  | String a r =>
      let two :=
        match r with
        | String b r' =>
            match digit_in 3 3 a, digit_in 0 1 b with
            | Some _, Some n => Some (30 + n, r')
            | _, _ =>
                match digit_in 1 2 a, digit b with
                | Some t, Some n => Some (10 * t + n, r')
                | _, _ =>
                    match digit_in 0 0 a, digit_in 1 9 b with
                    | Some _, Some n => Some (n, r')
                    | _, _ => None
                    end
                end
            end
        | EmptyString => None
        end in
      match two with
      | Some x => Some x
      | None =>
          match digit_in 1 9 a with
          | Some n => Some (n, r)
          | None =>
              match r with
              | String b r' =>
                  if Ascii.eqb a " "%char
                  then match digit_in 1 9 b with
                       | Some n => Some (n, r')
                       | None => None
                       end
                  else None
              | EmptyString => None
              end
          end
      end
  | EmptyString => None
  end.

(** The directive [%Y]: four digits. *)
Definition directive_Y (s : string) : option (Z * string) :=
  match s with
  | String a (String b (String c (String d r))) =>
      match digit a, digit b, digit c, digit d with
      | Some x, Some y, Some z, Some w =>
          Some (1000 * x + 100 * y + 10 * z + w, r)
      | _, _, _, _ => None
      end
  | _ => None
  end.

Definition literal (c : ascii) (s : string) : option string :=
  match s with
  | String a r => if Ascii.eqb a c then Some r else None
  | EmptyString => None
  end.

(** The month, day and year the format [%m-%d-%Y] reads in the whole of [s]. *)
Definition match_format (s : string) : option (Z * Z * Z) :=
  match directive_m s with
  | Some (m, r1) =>
      match literal "-"%char r1 with
      | Some r2 =>
          match directive_d r2 with
          | Some (d, r3) =>
              match literal "-"%char r3 with
              | Some r4 =>
                  match directive_Y r4 with
                  | Some (y, EmptyString) => Some (m, d, y)
                  | _ => None
                  end
              | None => None
              end
          | None => None
          end
      | None => None
      end
  | None => None
  end.

Definition nat_strings : list string :=
  ["NaT"; "nat"; "NAT"; "nan"; "NaN"; "NAN"].

(** One entry of the column: a missing entry and the strings pandas reads as
    missing give NaT; any other string must match the format, name a day of
    the calendar, and fall in the range of Timestamp. *)
Definition strptime (v : option string) : result (option Z) :=
  match v with
  | None => Ok None
  | Some s =>
      if existsb (String.eqb s) nat_strings then Ok None
      else
        match match_format s with
        | None => Raise (ValueError_time_data s)
        | Some (m, d, y) =>
            if (1 <=? y) && (d <=? days_in_month y m)
            then
              let t := days_from_civil y m d * ns_per_day in
              if (Timestamp_min <=? t) && (t <=? Timestamp_max)
              then Ok (Some t)
              else Raise (OutOfBoundsDatetime s)
            else Raise (ValueError_time_data s)
        end
  end.

Definition to_datetime (s : Series) : result Series :=
  match s with
  | object l => l' <- mapM strptime l ;; Ok (datetime64_utc l')
  | _ => Raise NotModelled
  end.

(** *** int64 nanoseconds *)

Definition int64_min : Z := - 2 ^ 63.
Definition int64_max : Z := 2 ^ 63 - 1.

(** The bit pattern of NaT. *)
Definition iNaT : Z := int64_min.

(** A product kept to 64 bits. *)
Definition wrap (z : Z) : Z := (z + 2 ^ 63) mod 2 ^ 64 - 2 ^ 63.

(** An int64 read as an instant or a duration. *)
Definition view (v : Z) : option Z := if v =? iNaT then None else Some v.

(** *** to_timedelta(unit="h") *)

(** The hours are viewed as [timedelta64[h]] and cast to [timedelta64[ns]]:
    NaT stays NaT, any other value is multiplied, without a check. *)
Definition hours (h : Z) : option Z :=
  if h =? iNaT then None else view (wrap (h * ns_per_hour)).

Definition to_timedelta_h (s : Series) : result Series :=
  match s with
  | int64 l => Ok (timedelta64 (map hours l))
  | _ => Raise NotModelled
  end.

(** *** datetime + timedelta, entry by entry; NaT on either side gives NaT *)

(** [checked_add_with_arr]: a sum of two entries, neither of them NaT, that
    leaves the int64 range. *)
Definition overflows (a b : option Z) : bool :=
  match a, b with
  | Some x, Some y => (x + y <? int64_min) || (int64_max <? x + y)
  | _, _ => false
  end.

Definition overflow (x y : list (option Z)) : bool :=
  existsb (fun p => overflows (fst p) (snd p)) (combine x y).

Definition add_ns (a b : option Z) : option Z :=
  match a, b with
  | Some x, Some y => view (x + y)
  | _, _ => None
  end.

Definition add (a b : Series) : result Series :=
  match a, b with
  | datetime64_utc x, timedelta64 y =>
      if overflow x y then Raise OverflowError
      else
        Ok (datetime64_utc (map (fun p => add_ns (fst p) (snd p)) (combine x y)))
  | _, _ => Raise NotModelled
  end.

(** *** unique: the values in the order they first appear *)

Fixpoint unique (l : list Z) : list Z :=
  match l with
  | [] => []
  | x :: t => x :: filter (fun y => negb (y =? x)) (unique t)
  end.

(** *** merge(how="left", on="plant_id_eia") with the table of offsets *)

(** The right-hand table: the rows (plant_id_eia, utc_offset) of the frame
    [_load_plant_utc_offset] returns, the offset in nanoseconds. *)
Definition offsets : Type := list (Z * Z).

(** The offsets of the rows of the table whose key is [p], in table order. *)
Definition matches (t : offsets) (p : Z) : list Z :=
  map snd (filter (fun r => fst r =? p) t).

(** A left row is kept once when no row of the table has its key, and once
    per such row otherwise. *)
Definition copies (t : offsets) (p : Z) : nat :=
  match matches t p with
  | [] => 1%nat
  | ms => List.length ms
  end.

Definition joined (t : offsets) (p : Z) : list (option Z) :=
  match matches t p with
  | [] => [None]
  | ms => map Some ms
  end.

Definition expand {A : Type} (n : list nat) (l : list A) : list A :=
  flat_map (fun kx => repeat (snd kx) (fst kx)) (combine n l).

Definition Series_expand (n : list nat) (s : Series) : Series :=
  match s with
  | int64 l => int64 (expand n l)
  | float64 l => float64 (expand n l)
  | object l => object (expand n l)
  | datetime64_utc l => datetime64_utc (expand n l)
  | timedelta64 l => timedelta64 (expand n l)
  | Int64 l => Int64 (expand n l)
  end.

(** The left frame's columns come first, then [utc_offset]; a column of the
    left frame already named [utc_offset] makes pandas suffix both. *)
Definition merge_left (df : DataFrame) (t : offsets) : result DataFrame :=
  key <- getitem df "plant_id_eia" ;;
  match key with
  | int64 ps =>
      let n := map (copies t) ps in
      let right := timedelta64 (flat_map (joined t) ps) in
      let left := map (fun kv => (fst kv, Series_expand n (snd kv))) (columns df) in
      let clash := contains df "utc_offset" in
      let left' :=
        map (fun kv => if String.eqb (fst kv) "utc_offset"
                       then ("utc_offset_x", snd kv) else kv) left in
      Ok (mkDataFrame (List.length (flat_map (joined t) ps))
            (left' ++ [(if clash then "utc_offset_y" else "utc_offset", right)]))
  | _ => Raise NotModelled
  end.

(** *** isin *)

(** A Python value of the kinds a set of allowed values holds. *)
Inductive scalar : Type :=
| Str (s : string)
| Int (z : Z).

(** [a == b]: a string and an integer are never equal. *)
Definition scalar_eqb (a b : scalar) : bool :=
  match a, b with
  | Str s, Str s' => String.eqb s s'
  | Int z, Int z' => z =? z'
  | _, _ => false
  end.

(** [len(series)] *)
Definition len (s : Series) : nat :=
  match s with
  | int64 l => List.length l
  | float64 l => List.length l
  | object l => List.length l
  | datetime64_utc l => List.length l
  | timedelta64 l => List.length l
  | Int64 l => List.length l
  end.

(** [series[series.notna()]] *)
Definition notna (s : Series) : Series :=
  let some (x : option Z) := match x with Some _ => true | None => false end in
  match s with
  | int64 l => int64 l
  | float64 l => float64 (filter (fun x => negb (PrimFloat.is_nan x)) l)
  | object l =>
      object (filter (fun x => match x with Some _ => true | None => false end) l)
  | datetime64_utc l => datetime64_utc (filter some l)
  | timedelta64 l => timedelta64 (filter some l)
  | Int64 l => Int64 (filter some l)
  end.

(** The integers [values] holds, when it holds nothing else. *)
Fixpoint integers (values : list scalar) : option (list Z) :=
  match values with
  | [] => Some []
  | Int z :: rest =>
      match integers rest with
      | Some zs => Some (z :: zs)
      | None => None
      end
  | Str _ :: _ => None
  end.

(** [series.isin(values)].  The entries of an object column are compared
    with the values as Python compares them.  For an int64 column pandas
    first casts the values to int64, strings included; that is modelled for
    values that are all integers, where the cast changes nothing. *)
Definition isin (s : Series) (values : list scalar) : result (list bool) :=
  match s with
  | object l =>
      Ok (map (fun x => match x with
                        | Some v => existsb (scalar_eqb (Str v)) values
                        | None => false
                        end) l)
  | int64 l =>
      match integers values with
      | Some zs => Ok (map (fun z => existsb (Z.eqb z) zs) l)
      | None => Raise NotModelled
      end
  | _ => Raise NotModelled
  end.

(** *** astype(float64) of an int64: the nearest float, ties to even *)

Definition float_of_int64 (z : Z) : float :=
  let m := Z.abs z in
  let f := if m <? 2 ^ 63 then PrimFloat.of_uint63 (Uint63.of_Z m)
           else 0x1p63%float in
  if z <? 0 then PrimFloat.opp f else f.

End Pandas.

(** ** Generators

    What a consumer that exhausts a generator sees: the values it yielded, in
    order, and the exception that ended it, if one did. *)

Record gen (Y : Type) : Type := mkGen {
  yielded : list Y;
  raised : option exn
}.

Arguments mkGen {Y} yielded raised.
Arguments yielded {Y} g.
Arguments raised {Y} g.

Definition yield {Y : Type} (y : Y) : gen Y := mkGen [y] None.

Definition throw {Y : Type} (e : exn) : gen Y := mkGen [] (Some e).

(** Run [g], then [h] unless [g] raised. *)
Definition andThen {Y : Type} (g h : gen Y) : gen Y :=
  match raised g with
  | Some e => g
  | None => mkGen (yielded g ++ yielded h) (raised h)
  end.

(** [for x in l: body(x)] *)
Fixpoint for_each {X Y : Type} (l : list X) (body : X -> gen Y) : gen Y :=
  match l with
  | [] => mkGen [] None
  | x :: t => andThen (body x) (for_each t body)
  end.

(** ** pudl.transform.epacems *)

Module Epacems.

Import Pandas.

(** Some of the timezones in the plants_entity_eia table may be missing, but
    none of the CEMS plants should be: [isna] rows of the merged frame. *)
Definition missing_plants (plant_id_eia : list Z) (utc_offset : list (option Z))
  : list Z :=
  unique
    (map fst
       (filter (fun pr => match snd pr with None => true | Some _ => false end)
          (combine plant_id_eia utc_offset))).

Definition notna_all (l : list (option Z)) : bool :=
  forallb (fun x => match x with Some _ => true | None => false end) l.

(** The source adds [op_datetime_naive] to the frame it was given before the
    merge makes a new one; here every step returns its frame. *)
Definition fix_up_dates (df : DataFrame) (plant_utc_offset : offsets)
  : result DataFrame :=
  op_date <- getitem df "op_date" ;;
  midnight <- to_datetime op_date ;;
  op_hour <- getitem df "op_hour" ;;
  hours <- to_timedelta_h op_hour ;;
  op_datetime_naive <- add midnight hours ;;
  let df := setitem df "op_datetime_naive" op_datetime_naive in
  df <- merge_left df plant_utc_offset ;;
  utc_offset <- getitem df "utc_offset" ;;
  match utc_offset with
  | timedelta64 offs =>
      if negb (notna_all offs)
      then
        plant_id_eia <- getitem df "plant_id_eia" ;;
        match plant_id_eia with
        | int64 ps => Raise (ValueError_utc_offset_missing (missing_plants ps offs))
        | _ => Raise NotModelled
        end
      else
        op_datetime_naive <- getitem df "op_datetime_naive" ;;
        operating_datetime_utc <- add op_datetime_naive utc_offset ;;
        let df := setitem df "operating_datetime_utc" operating_datetime_utc in
        df <- delitem df "op_date" ;;
        df <- delitem df "op_hour" ;;
        df <- delitem df "op_datetime_naive" ;;
        df <- delitem df "utc_offset" ;;
        Ok df
  | _ => Raise NotModelled
  end.

(** NOT YET IMPLEMENTED in the source: returns its argument. *)
Definition harmonize_eia_epa_orispl (df : DataFrame) : DataFrame := df.

Definition add_facility_id_unit_id_epa (df : DataFrame) : DataFrame :=
  if negb (contains df "facility_id") || negb (contains df "unit_id_epa")
  then
    let na_col := Int64 (repeat None (nrows df)) in
    let df :=
      if negb (contains df "facility_id")
      then setitem df "facility_id" na_col else df in
    let df :=
      if negb (contains df "unit_id_epa")
      then setitem df "unit_id_epa" na_col else df in
    df
  else df.

(** [bad = df["gross_load_mw"] > 2000]; a comparison with NaN is False.  On
    an int64 column the quotients are floats, and assigning them makes the
    whole column float64; a column without a bad value is left as it is. *)
Definition correct_gross_load_mw (df : DataFrame) : result DataFrame :=
  gross_load_mw <- getitem df "gross_load_mw" ;;
  match gross_load_mw with
  | float64 l =>
      let bad := map (fun g => PrimFloat.ltb 2000%float g) l in
      if existsb (fun b => b) bad
      then
        let fixed :=
          map (fun bg : bool * float =>
                 if fst bg then PrimFloat.div (snd bg) 1000%float else snd bg)
            (combine bad l) in
        Ok (setitem df "gross_load_mw" (float64 fixed))
      else Ok df
  | int64 l =>
      let bad := map (fun g => 2000 <? g) l in
      if existsb (fun b => b) bad
      then
        let fixed :=
          map (fun bg : bool * Z =>
                 if fst bg
                 then PrimFloat.div (float_of_int64 (snd bg)) 1000%float
                 else float_of_int64 (snd bg))
            (combine bad l) in
        Ok (setitem df "gross_load_mw" (float64 fixed))
      else Ok df
  | _ => Raise NotModelled
  end.

(** Test whether every element in the series is either missing or in
    [values]. *)
Definition _all_na_or_values (series : Series) (values : list scalar)
  : result bool :=
  let series_excl_na := notna series in
  if (len series_excl_na =? 0)%nat then Ok true
  else
    mask <- isin series_excl_na values ;;
    if forallb (fun b => b) mask then Ok true
    else Ok false.

(** The table plants_entity_eia as [read_sql] returns it, cut to the two
    columns the function keeps; SQL NULL is [None]. *)
Record plants_entity_eia : Type := mkPlant {
  plant_id_eia : option Z;
  timezone : option string
}.

(** A naive [datetime]: year, month, day (the time of day is midnight). *)
Definition jan1 : Z * Z * Z := (2011, 1, 1).   (* year doesn't matter *)

Section WithEnvironment.

(** The tz database behind pytz: [pytz.timezone(name)] raises
    UnknownTimeZoneError on a name it does not have, and
    [zone.localize(dt).utcoffset()] is a duration, here in nanoseconds. *)
Variable tzinfo : Type.
Variable pytz_timezone : string -> option tzinfo.
Variable localize_utcoffset : tzinfo -> Z * Z * Z -> Z.

(** [pc.epacems_columns_fill_na_dict], a constant of pudl.constants. *)
Variable epacems_columns_fill_na_dict : list (string * fill_value).

(** The key of a raw frame in its dict: a (year, state) pair. *)
Variable yr_st : Type.

Definition utc_offset_of (tz : string) : result Z :=
  match pytz_timezone tz with
  | Some zone => Ok (localize_utcoffset zone jan1)
  | None => Raise (UnknownTimeZoneError tz)
  end.

(** [[["plant_id_eia", "timezone"]].dropna()] *)
Definition dropna (rows : list plants_entity_eia) : list (Z * string) :=
  flat_map
    (fun r =>
       match plant_id_eia r, timezone r with
       | Some p, Some tz => [(p, tz)]
       | _, _ => []
       end)
    rows.

Definition _load_plant_utc_offset (pudl_engine : list plants_entity_eia)
  : result offsets :=
  let timezones := dropna pudl_engine in
  mapM (fun r : Z * string =>
          utc_offset <- utc_offset_of (snd r) ;; Ok (fst r, utc_offset))
    timezones.

(** The generator [transform].  [pudl_engine] stands for the table it reads;
    [epacems_raw_dfs], a generator of dicts in the source, is the finite list
    of the dicts it produces, a dict being the list of its items.  The
    message printed under [verbose] is left out. *)
Definition transform (pudl_engine : list plants_entity_eia)
    (epacems_raw_dfs : list (list (yr_st * DataFrame)))
  : gen (list (yr_st * DataFrame)) :=
  match _load_plant_utc_offset pudl_engine with
  | Raise e => throw e
  | Ok plant_utc_offset =>
      for_each epacems_raw_dfs (fun raw_df_dict =>
        for_each raw_df_dict (fun item =>
          let raw_df := snd item in
          match
            df <- fillna epacems_columns_fill_na_dict raw_df ;;
            df <- pipe harmonize_eia_epa_orispl df ;;
            df <- fix_up_dates df plant_utc_offset ;;
            df <- pipe add_facility_id_unit_id_epa df ;;
            correct_gross_load_mw df
          with
          | Ok df => yield [(fst item, df)]
          | Raise e => throw e
          end))
  end.

End WithEnvironment.

End Epacems.

(** ** Python exceptions of the output class and of the scripts *)

Inductive exception : Type :=
| ValueError (msg : string)
    (* int() on a string that is no integer literal *)
| KeyError_ (key : string)
    (* d[key] on a dict without the key *)
| Library (e : exn).
    (* raised inside a function of pudl.output or pudl.analysis *)

Inductive outcome (A : Type) : Type :=
| Return (a : A)
| Except (e : exception).

Arguments Return {A} a.
Arguments Except {A} e.

Definition obind {A B : Type} (r : outcome A) (k : A -> outcome B) : outcome B :=
  match r with
  | Return a => k a
  | Except e => Except e
  end.

Notation "x <~ r ;; k" := (obind r (fun x => k))
  (at level 61, r at next level, right associativity).

(** A dict with string keys: its items in insertion order. *)
Definition dict (V : Type) : Type := list (string * V).

(** [d[k]]; [None] stands for the KeyError. *)
Fixpoint dict_get {V : Type} (k : string) (d : dict V) : option V :=
  match d with
  | [] => None
  | (k', v) :: rest => if String.eqb k' k then Some v else dict_get k rest
  end.

(** [d[k] = v]: a key that is there keeps its place, a new one goes last. *)
Fixpoint dict_set {V : Type} (k : string) (v : V) (d : dict V) : dict V :=
  match d with
  | [] => [(k, v)]
  | (k', v') :: rest =>
      if String.eqb k' k then (k', v) :: rest else (k', v') :: dict_set k v rest
  end.

(** ** pudl.output.pudltabl *)

Module Pudltabl.

Import Pandas.

(** The attributes of a [PudlTabl] object.  [start_date] and [end_date] are
    what [pd.to_datetime] made of the arguments of [__init__]; a cached
    table that has not been pulled is [None]. *)
Record PudlTabl : Type := mkPudlTabl {
  freq : option string;
  testing : bool;
  start_date : Z;
  end_date : Z;
  _dfs : dict (option DataFrame)
}.

Definition set_dfs (self : PudlTabl) (k : string) (df : DataFrame) : PudlTabl :=
  mkPudlTabl (freq self) (testing self) (start_date self) (end_date self)
    (dict_set k (Some df) (_dfs self)).

(** The library of dataframes [__init__] creates. *)
Definition empty_dfs : dict (option DataFrame) :=
  map (fun k => (k, None))
    ["pu_eia"; "pu_ferc1";
     "utils_eia860"; "bga_eia860"; "plants_eia860"; "gens_eia860"; "own_eia860";
     "gf_eia923"; "frc_eia923"; "bf_eia923"; "gen_eia923";
     "plants_steam_ferc1"; "fuel_ferc1";
     "bga"; "hr_by_unit"; "hr_by_gen"; "fuel_cost"; "capacity_factor"; "mcoe"].

(** The body every method shares:
    [if update or self._dfs[k] is None: self._dfs[k] = pull(self)]
    [return self._dfs[k]].
    [pull] returns the object too: the functions of pudl.analysis are given
    [self] and may call its methods. *)
Definition cached (k : string)
    (pull : PudlTabl -> outcome DataFrame * PudlTabl)
    (self : PudlTabl) (update : bool) : outcome DataFrame * PudlTabl :=
  let stale :=
    if update then Return true
    else match dict_get k (_dfs self) with
         | None => Except (KeyError_ k)
         | Some None => Return true
         | Some (Some _) => Return false
         end in
  match stale with
  | Except e => (Except e, self)
  | Return true =>
      match pull self with
      | (Return df, self') =>
          let self'' := set_dfs self' k df in
          match dict_get k (_dfs self'') with
          | Some (Some df') => (Return df', self'')
          | _ => (Except (KeyError_ k), self'')
          end
      | (Except e, self') => (Except e, self')
      end
  | Return false =>
      match dict_get k (_dfs self) with
      | Some (Some df) => (Return df, self)
      | _ => (Except (KeyError_ k), self)
      end
  end.

(** An argument that is a date or a string. *)
Inductive date_arg : Type :=
| a_date (t : Z)
| a_string (s : string).

Definition py_min (l : list Z) : outcome Z :=
  match l with
  | [] => Except (ValueError "min() arg is an empty sequence")
  | x :: t => Return (fold_left Z.min t x)
  end.

Definition py_max (l : list Z) : outcome Z :=
  match l with
  | [] => Except (ValueError "max() arg is an empty sequence")
  | x :: t => Return (fold_left Z.max t x)
  end.

(** ['{}'.format(n)] for an integer. *)
Definition format_int (n : Z) : string := NilZero.string_of_int (Z.to_int n).

Section Init.

(** [pd.to_datetime] on a string, and [pc.working_years['eia923']]. *)
Variable to_datetime_str : string -> outcome Z.
Variable working_years_eia923 : list Z.

Definition to_datetime_arg (d : date_arg) : outcome Z :=
  match d with
  | a_date t => Return t
  | a_string s => to_datetime_str s
  end.

Definition __init__ (freq : option string) (testing : bool)
    (start_date end_date : option date_arg) : outcome PudlTabl :=
  start <~ match start_date with
           | None =>
               y <~ py_min working_years_eia923 ;;
               to_datetime_str (format_int y ++ "-01-01")
           | Some d => to_datetime_arg d
           end ;;
  stop <~ match end_date with
          | None =>
              y <~ py_max working_years_eia923 ;;
              to_datetime_str (format_int y ++ "-12-31")
          | Some d => to_datetime_arg d
          end ;;
  Return (mkPudlTabl freq testing start stop empty_dfs).

End Init.

Section WithDatabases.

(** The databases as they are when a method runs, and the functions of
    pudl.output and pudl.analysis that read them. *)
Variable world : Type.

Variable eia860_plants_utils_eia860 : world -> Z -> Z -> bool -> outcome DataFrame.
Variable ferc1_plants_utils_ferc1 : world -> bool -> outcome DataFrame.
Variable eia860_utilities_eia860 : world -> Z -> Z -> bool -> outcome DataFrame.
Variable eia860_boiler_generator_assn_eia860 :
  world -> Z -> Z -> bool -> outcome DataFrame.
Variable eia860_plants_eia860 : world -> Z -> Z -> bool -> outcome DataFrame.
Variable eia860_generators_eia860 : world -> Z -> Z -> bool -> outcome DataFrame.
Variable eia860_ownership_eia860 : world -> Z -> Z -> bool -> outcome DataFrame.
Variable eia923_generation_fuel_eia923 :
  world -> option string -> Z -> Z -> bool -> outcome DataFrame.
Variable eia923_fuel_receipts_costs_eia923 :
  world -> option string -> Z -> Z -> bool -> outcome DataFrame.
Variable eia923_boiler_fuel_eia923 :
  world -> option string -> Z -> Z -> bool -> outcome DataFrame.
Variable eia923_generation_eia923 :
  world -> option string -> Z -> Z -> bool -> outcome DataFrame.
Variable ferc1_plants_steam_ferc1 : world -> bool -> outcome DataFrame.
Variable ferc1_fuel_ferc1 : world -> bool -> outcome DataFrame.
Variable glue_boiler_generator_assn : world -> Z -> Z -> bool -> outcome DataFrame.
Variable mcoe_heat_rate_by_gen :
  world -> PudlTabl -> bool -> outcome DataFrame * PudlTabl.
Variable mcoe_heat_rate_by_unit :
  world -> PudlTabl -> bool -> outcome DataFrame * PudlTabl.
Variable mcoe_fuel_cost :
  world -> PudlTabl -> bool -> outcome DataFrame * PudlTabl.
Variable mcoe_capacity_factor :
  world -> PudlTabl -> bool -> outcome DataFrame * PudlTabl.
Variable mcoe_mcoe :
  world -> PudlTabl -> bool -> float -> float -> float -> float ->
  outcome DataFrame * PudlTabl.

Variable w : world.

Definition pu_eia860 (self : PudlTabl) (update : bool) :=
  cached "pu_eia"
    (fun self => (eia860_plants_utils_eia860 w (start_date self)
                    (end_date self) (testing self), self))
    self update.

Definition pu_ferc1 (self : PudlTabl) (update : bool) :=
  cached "pu_ferc1"
    (fun self => (ferc1_plants_utils_ferc1 w (testing self), self))
    self update.

Definition utils_eia860 (self : PudlTabl) (update : bool) :=
  cached "utils_eia860"
    (fun self => (eia860_utilities_eia860 w (start_date self)
                    (end_date self) (testing self), self))
    self update.

Definition bga_eia860 (self : PudlTabl) (update : bool) :=
  cached "bga_eia860"
    (fun self => (eia860_boiler_generator_assn_eia860 w (start_date self)
                    (end_date self) (testing self), self))
    self update.

Definition plants_eia860 (self : PudlTabl) (update : bool) :=
  cached "plants_eia860"
    (fun self => (eia860_plants_eia860 w (start_date self)
                    (end_date self) (testing self), self))
    self update.

Definition gens_eia860 (self : PudlTabl) (update : bool) :=
  cached "gens_eia860"
    (fun self => (eia860_generators_eia860 w (start_date self)
                    (end_date self) (testing self), self))
    self update.

Definition own_eia860 (self : PudlTabl) (update : bool) :=
  cached "own_eia860"
    (fun self => (eia860_ownership_eia860 w (start_date self)
                    (end_date self) (testing self), self))
    self update.

Definition gf_eia923 (self : PudlTabl) (update : bool) :=
  cached "gf_eia923"
    (fun self => (eia923_generation_fuel_eia923 w (freq self)
                    (start_date self) (end_date self) (testing self), self))
    self update.

Definition frc_eia923 (self : PudlTabl) (update : bool) :=
  cached "frc_eia923"
    (fun self => (eia923_fuel_receipts_costs_eia923 w (freq self)
                    (start_date self) (end_date self) (testing self), self))
    self update.

Definition bf_eia923 (self : PudlTabl) (update : bool) :=
  cached "bf_eia923"
    (fun self => (eia923_boiler_fuel_eia923 w (freq self)
                    (start_date self) (end_date self) (testing self), self))
    self update.

Definition gen_eia923 (self : PudlTabl) (update : bool) :=
  cached "gen_eia923"
    (fun self => (eia923_generation_eia923 w (freq self)
                    (start_date self) (end_date self) (testing self), self))
    self update.

Definition plants_steam_ferc1 (self : PudlTabl) (update : bool) :=
  cached "plants_steam_ferc1"
    (fun self => (ferc1_plants_steam_ferc1 w (testing self), self))
    self update.

Definition fuel_ferc1 (self : PudlTabl) (update : bool) :=
  cached "fuel_ferc1"
    (fun self => (ferc1_fuel_ferc1 w (testing self), self))
    self update.

Definition bga (self : PudlTabl) (update : bool) :=
  cached "bga"
    (fun self => (glue_boiler_generator_assn w (start_date self)
                    (end_date self) (testing self), self))
    self update.

Definition heat_rate_by_gen (self : PudlTabl) (update verbose : bool) :=
  cached "hr_by_gen" (fun self => mcoe_heat_rate_by_gen w self verbose)
    self update.

Definition heat_rate_by_unit (self : PudlTabl) (update verbose : bool) :=
  cached "hr_by_unit" (fun self => mcoe_heat_rate_by_unit w self verbose)
    self update.

Definition fuel_cost (self : PudlTabl) (update verbose : bool) :=
  cached "fuel_cost" (fun self => mcoe_fuel_cost w self verbose) self update.

Definition capacity_factor (self : PudlTabl) (update verbose : bool) :=
  cached "capacity_factor" (fun self => mcoe_capacity_factor w self verbose)
    self update.

Definition mcoe (self : PudlTabl) (update : bool)
    (min_heat_rate min_fuel_cost_per_mwh min_cap_fact max_cap_fact : float)
    (verbose : bool) :=
  cached "mcoe"
    (fun self => mcoe_mcoe w self verbose min_heat_rate min_fuel_cost_per_mwh
                   min_cap_fact max_cap_fact)
    self update.

End WithDatabases.

End Pudltabl.

(** ** scripts/update_datastore.py *)

Module UpdateDatastore.

(** [int(s)] on a string of ASCII characters: blanks around, a sign, decimal
    digits, single underscores between digits.  Blanks are the space and
    the characters 9 to 13. *)
Definition is_space (c : ascii) : bool :=
  let n := nat_of_ascii c in
  ((9 <=? n) && (n <=? 13) || (n =? 32))%nat.

(** Characters left out of the model: those beyond ASCII, which Python reads
    as Unicode digits and blanks, and the separators 28 to 31. *)
Definition beyond (c : ascii) : bool :=
  let n := nat_of_ascii c in
  ((128 <=? n) || (28 <=? n) && (n <=? 31))%nat.

Fixpoint lstrip (l : list ascii) : list ascii :=
  match l with
  | c :: t => if is_space c then lstrip t else l
  | [] => []
  end.

Definition strip (l : list ascii) : list ascii :=
  rev (lstrip (rev (lstrip l))).

Definition digit (c : ascii) : option Z :=
  let n := Z.of_nat (nat_of_ascii c) in
  if (48 <=? n) && (n <=? 57) then Some (n - 48) else None.

(** The digits after the first: [acc] is the value read so far, [sep] says
    that the last character was an underscore. *)
Fixpoint digits (acc : Z) (sep : bool) (l : list ascii) : option Z :=
  match l with
  | [] => if sep then None else Some acc
  | c :: t =>
      match digit c with
      | Some d => digits (10 * acc + d) false t
      | None =>
          if Ascii.eqb c "_"%char && negb sep then digits acc true t else None
      end
  end.

Definition literal (l : list ascii) : option Z :=
  match l with
  | c :: t =>
      match digit c with
      | Some d => digits d false t
      | None => None
      end
  | [] => None
  end.

Definition int (s : string) : outcome Z :=
  let l := list_ascii_of_string s in
  if existsb beyond l
  then Except (Library NotModelled)
  else
    let body := strip l in
    let parsed :=
      match body with
      | c :: t =>
          if Ascii.eqb c "-"%char then option_map Z.opp (literal t)
          else if Ascii.eqb c "+"%char then literal t
          else literal body
      | [] => None
      end in
    match parsed with
    | Some n => Return n
    | None => Except (ValueError s)
    end.

(** The namespace [parse_command_line] returns. *)
Record arguments : Type := mkArguments {
  verbose : bool;
  unzip : bool;
  clobber : bool;
  datadir : string;
  sources : list string;
  years : list string;
  no_download : bool;
  states : list string
}.

(** What [main] does that can be seen from outside: the lines it prints and
    the calls of [pudl.datastore.update] it hands to the thread pool, in
    the order it does so. *)
Inductive event : Type :=
| Print (src : string) (bad_yrs : list Z)
    (* "Invalid {} years ignored: {}." *)
| Submit (src : string) (yr : Z) (states : list string)
    (clobber unzip verbose : bool) (datadir : string) (no_download : bool).

Section WithConstants.

(** [pc.data_years] *)
Variable data_years : dict (list Z).

Definition lookup_years (src : string) : outcome (list Z) :=
  match dict_get src data_years with
  | Some l => Return l
  | None => Except (KeyError_ src)
  end.

Definition mem (n : Z) (l : list Z) : bool := existsb (Z.eqb n) l.

(** [[int(yr) for yr in years if int(yr) in pc.data_years[src]]], or with
    [not in] when [keep] is [false]. *)
Fixpoint comprehension (keep : bool) (src : string) (years : list string)
  : outcome (list Z) :=
  match years with
  | [] => Return []
  | yr :: rest =>
      n <~ int yr ;;
      valid <~ lookup_years src ;;
      if Bool.eqb (mem n valid) keep
      then n' <~ int yr ;;
           tail <~ comprehension keep src rest ;;
           Return (n' :: tail)
      else comprehension keep src rest
  end.

(** The first loop: [yrs_by_src] and the lines printed, or the exception
    that stopped it with what was printed before. *)
Fixpoint years_by_source (args : arguments) (srcs : list string)
    (yrs_by_src : dict (list Z)) (printed : list event)
  : list event * outcome (dict (list Z)) :=
  match srcs with
  | [] => (printed, Return yrs_by_src)
  | src :: rest =>
      match years args with
      | [] =>
          match lookup_years src with
          | Return l =>
              years_by_source args rest (dict_set src l yrs_by_src) printed
          | Except e => (printed, Except e)
          end
      | _ =>
          match comprehension true src (years args) with
          | Return yrs =>
              match comprehension false src (years args) with
              | Return bad_yrs =>
                  years_by_source args rest (dict_set src yrs yrs_by_src)
                    (if verbose args && negb (List.length bad_yrs =? 0)%nat
                     then printed ++ [Print src bad_yrs] else printed)
              | Except e => (printed, Except e)
              end
          | Except e => (printed, Except e)
          end
      end
  end.

(** The second loop: the calls submitted, and the exception that stopped
    it, if one did. *)
Fixpoint submit_all (args : arguments) (srcs : list string)
    (yrs_by_src : dict (list Z)) : list event * option exception :=
  match srcs with
  | [] => ([], None)
  | src :: rest =>
      match dict_get src yrs_by_src with
      | Some yrs =>
          let later := submit_all args rest yrs_by_src in
          (map (fun yr =>
                  Submit src yr (states args) (clobber args) (unzip args)
                    (verbose args) (datadir args) (no_download args))
             yrs ++ fst later, snd later)
      | None => ([], Some (KeyError_ src))
      end
  end.

(** [main], from the parsed arguments on: the events in order, and the
    exception that ended it, if one did. *)
Definition main (args : arguments) : list event * option exception :=
  match years_by_source args (sources args) [] [] with
  | (printed, Except e) => (printed, Some e)
  | (printed, Return yrs_by_src) =>
      let submitted := submit_all args (sources args) yrs_by_src in
      (printed ++ fst submitted, snd submitted)
  end.

End WithConstants.

End UpdateDatastore.

(** * Notions the statements use *)

Import Pandas Epacems.

(** The column [pd.array(np.full(df.shape[0], np.NaN), dtype="Int64")]. *)
Definition na_col (df : DataFrame) : Series := Int64 (repeat None (nrows df)).

(** What the correction does to one value. *)
Definition scaled (g : float) : float :=
  if PrimFloat.ltb 2000%float g then PrimFloat.div g 1000%float else g.

(** [p] is the key of a row of the table of offsets. *)
Definition registered (t : offsets) (p : Z) : bool :=
  existsb (fun r => fst r =? p) t.

Definition drop (c : string) (cols : list (string * Series))
  : list (string * Series) :=
  filter (fun kv => negb (String.eqb (fst kv) c)) cols.

(** The columns and frames [fix_up_dates] computes on the way, from the
    parsed dates [mid], the hours [hs] and the plant ids [ps] of the frame. *)
Definition op_datetime_naive (mid : list (option Z)) (hs : list Z)
  : list (option Z) :=
  map (fun p => add_ns (fst p) (snd p)) (combine mid (map hours hs)).

Definition merged_frame (df : DataFrame) (t : offsets) (ps : list Z)
    (mid : list (option Z)) (hs : list Z) : DataFrame :=
  mkDataFrame (List.length (flat_map (joined t) ps))
    (map (fun kv => (fst kv, Series_expand (map (copies t) ps) (snd kv)))
       (columns (setitem df "op_datetime_naive"
                   (datetime64_utc (op_datetime_naive mid hs))))
     ++ [("utc_offset", timedelta64 (flat_map (joined t) ps))]).

Definition operating_datetime_utc (t : offsets) (ps : list Z)
    (mid : list (option Z)) (hs : list Z) : list (option Z) :=
  map (fun p => add_ns (fst p) (snd p))
    (combine (expand (map (copies t) ps) (op_datetime_naive mid hs))
       (flat_map (joined t) ps)).

Definition resolved_frame (df : DataFrame) (t : offsets) (ps : list Z)
    (mid : list (option Z)) (hs : list Z) : DataFrame :=
  mkDataFrame (nrows (merged_frame df t ps mid hs))
    (drop "utc_offset"
       (drop "op_datetime_naive"
          (drop "op_hour"
             (drop "op_date"
                (columns
                   (setitem (merged_frame df t ps mid hs)
                      "operating_datetime_utc"
                      (datetime64_utc (operating_datetime_utc t ps mid hs)))))))).

(** [v] is the value of a [Timestamp]: an int64 other than NaT. *)
Definition in_bounds (v : Z) : bool :=
  (Timestamp_min <=? v) && (v <=? Timestamp_max).

(** One row of a raw frame: the plant, the day its [op_date] string names,
    and the hour. *)
Record reading : Type := mkReading {
  r_plant_id_eia : Z;
  r_op_date : string;
  r_year : Z;
  r_month : Z;
  r_day : Z;
  r_op_hour : Z
}.

Definition midnight (r : reading) : Z :=
  utc (r_year r) (r_month r) (r_day r) 0 0 0.

(** A few zones of the tz database with the offset from UTC, in hours, that
    they have on the first of January. *)
Definition january_offsets : list (string * Z) :=
  [("UTC", 0);
   ("America/New_York", -5);
   ("America/Chicago", -6);
   ("America/Denver", -7);
   ("America/Los_Angeles", -8)].

Fixpoint january_zone (zones : list (string * Z)) (name : string) : option Z :=
  match zones with
  | [] => None
  | (k, h) :: rest => if String.eqb k name then Some h else january_zone rest name
  end.

(** Enough of pytz to run the loader on these zones: a zone is its January
    offset, and that is its offset at [jan1]. *)
Definition sample_timezone : string -> option Z := january_zone january_offsets.
Definition sample_utcoffset (hours : Z) (dt : Z * Z * Z) : Z := hours * ns_per_hour.

(** The rows [dropna] keeps. *)
Definition kept (rows : list plants_entity_eia) : list plants_entity_eia :=
  filter
    (fun r => match plant_id_eia r, timezone r with
              | Some _, Some _ => true
              | _, _ => false
              end)
    rows.

(** [out] is what the five stages, in their order, make of [raw_df]. *)
Definition cleaned (epacems_columns_fill_na_dict : list (string * fill_value))
    (plant_utc_offset : offsets) (raw_df out : DataFrame) : Prop :=
  exists filled resolved,
    fillna epacems_columns_fill_na_dict raw_df = Ok filled
    /\ fix_up_dates (harmonize_eia_epa_orispl filled) plant_utc_offset
       = Ok resolved
    /\ correct_gross_load_mw (add_facility_id_unit_id_epa resolved) = Ok out.

(** The number of entries of a column, and the names of the columns of a
    frame, in order. *)
Definition size (s : Series) : nat :=
  match s with
  | int64 l => List.length l
  | float64 l => List.length l
  | object l => List.length l
  | datetime64_utc l => List.length l
  | timedelta64 l => List.length l
  | Int64 l => List.length l
  end.


(** Every column of the frame has as many entries as the frame has rows. *)
Definition rectangular (df : DataFrame) : Prop :=
  forall c s, lookup c (columns df) = Some s -> size s = nrows df.

(** The columns [fix_up_dates] removes. *)
Definition consumed (c : string) : bool :=
  existsb (String.eqb c) ["op_date"; "op_hour"; "op_datetime_naive"].

(** The stages [transform] runs on one raw frame. *)
Definition stages (epacems_columns_fill_na_dict : list (string * fill_value))
    (plant_utc_offset : offsets) (raw_df : DataFrame) : result DataFrame :=
  df <- fillna epacems_columns_fill_na_dict raw_df ;;
  df <- pipe harmonize_eia_epa_orispl df ;;
  df <- fix_up_dates df plant_utc_offset ;;
  df <- pipe add_facility_id_unit_id_epa df ;;
  correct_gross_load_mw df.

(** One row of a raw frame as it is read: the plant, the entry of
    [op_date], which may be missing, and the hour. *)
Record entry : Type := mkEntry {
  e_plant_id_eia : Z;
  e_op_date : option string;
  e_op_hour : Z
}.

(** What [to_datetime] makes of an entry that it accepts. *)
Definition parsed (v : option string) : option Z :=
  match strptime v with
  | Ok t => t
  | Raise _ => None
  end.

(** The methods of [PudlTabl], each with the key of [_dfs] it uses.  A call
    is given the databases as they are at that time and the arguments some
    of the methods take besides [update]: [verbose] and the four bounds of
    [mcoe]. *)
Section Methods.

Import Pudltabl.

Variable world : Type.
Variable eia860_plants_utils_eia860 : world -> Z -> Z -> bool -> outcome DataFrame.
Variable ferc1_plants_utils_ferc1 : world -> bool -> outcome DataFrame.
Variable eia860_utilities_eia860 : world -> Z -> Z -> bool -> outcome DataFrame.
Variable eia860_boiler_generator_assn_eia860 :
  world -> Z -> Z -> bool -> outcome DataFrame.
Variable eia860_plants_eia860 : world -> Z -> Z -> bool -> outcome DataFrame.
Variable eia860_generators_eia860 : world -> Z -> Z -> bool -> outcome DataFrame.
Variable eia860_ownership_eia860 : world -> Z -> Z -> bool -> outcome DataFrame.
Variable eia923_generation_fuel_eia923 :
  world -> option string -> Z -> Z -> bool -> outcome DataFrame.
Variable eia923_fuel_receipts_costs_eia923 :
  world -> option string -> Z -> Z -> bool -> outcome DataFrame.
Variable eia923_boiler_fuel_eia923 :
  world -> option string -> Z -> Z -> bool -> outcome DataFrame.
Variable eia923_generation_eia923 :
  world -> option string -> Z -> Z -> bool -> outcome DataFrame.
Variable ferc1_plants_steam_ferc1 : world -> bool -> outcome DataFrame.
Variable ferc1_fuel_ferc1 : world -> bool -> outcome DataFrame.
Variable glue_boiler_generator_assn : world -> Z -> Z -> bool -> outcome DataFrame.
Variable mcoe_heat_rate_by_gen :
  world -> PudlTabl -> bool -> outcome DataFrame * PudlTabl.
Variable mcoe_heat_rate_by_unit :
  world -> PudlTabl -> bool -> outcome DataFrame * PudlTabl.
Variable mcoe_fuel_cost :
  world -> PudlTabl -> bool -> outcome DataFrame * PudlTabl.
Variable mcoe_capacity_factor :
  world -> PudlTabl -> bool -> outcome DataFrame * PudlTabl.
Variable mcoe_mcoe :
  world -> PudlTabl -> bool -> float -> float -> float -> float ->
  outcome DataFrame * PudlTabl.

Record extra : Type := mkExtra {
  x_verbose : bool;
  x_min_heat_rate : float;
  x_min_fuel_cost_per_mwh : float;
  x_min_cap_fact : float;
  x_max_cap_fact : float
}.

Definition method : Type :=
  world -> extra -> PudlTabl -> bool -> outcome DataFrame * PudlTabl.

(** The methods that pull a table from pudl.output. *)
Definition output_methods : list (string * method) :=
  [("pu_eia", fun w _ => pu_eia860 world eia860_plants_utils_eia860 w);
   ("pu_ferc1", fun w _ => pu_ferc1 world ferc1_plants_utils_ferc1 w);
   ("utils_eia860", fun w _ => utils_eia860 world eia860_utilities_eia860 w);
   ("bga_eia860",
    fun w _ => bga_eia860 world eia860_boiler_generator_assn_eia860 w);
   ("plants_eia860", fun w _ => plants_eia860 world eia860_plants_eia860 w);
   ("gens_eia860", fun w _ => gens_eia860 world eia860_generators_eia860 w);
   ("own_eia860", fun w _ => own_eia860 world eia860_ownership_eia860 w);
   ("gf_eia923", fun w _ => gf_eia923 world eia923_generation_fuel_eia923 w);
   ("frc_eia923",
    fun w _ => frc_eia923 world eia923_fuel_receipts_costs_eia923 w);
   ("bf_eia923", fun w _ => bf_eia923 world eia923_boiler_fuel_eia923 w);
   ("gen_eia923", fun w _ => gen_eia923 world eia923_generation_eia923 w);
   ("plants_steam_ferc1",
    fun w _ => plants_steam_ferc1 world ferc1_plants_steam_ferc1 w);
   ("fuel_ferc1", fun w _ => fuel_ferc1 world ferc1_fuel_ferc1 w);
   ("bga", fun w _ => bga world glue_boiler_generator_assn w)].

(** The methods that compute a table in pudl.analysis. *)
Definition analysis_methods : list (string * method) :=
  [("hr_by_gen",
    fun w x self update =>
      heat_rate_by_gen world mcoe_heat_rate_by_gen w self update (x_verbose x));
   ("hr_by_unit",
    fun w x self update =>
      heat_rate_by_unit world mcoe_heat_rate_by_unit w self update
        (x_verbose x));
   ("fuel_cost",
    fun w x self update =>
      fuel_cost world mcoe_fuel_cost w self update (x_verbose x));
   ("capacity_factor",
    fun w x self update =>
      capacity_factor world mcoe_capacity_factor w self update (x_verbose x));
   ("mcoe",
    fun w x self update =>
      mcoe world mcoe_mcoe w self update (x_min_heat_rate x)
        (x_min_fuel_cost_per_mwh x) (x_min_cap_fact x) (x_max_cap_fact x)
        (x_verbose x))].

End Methods.

(** Stand-ins for the tables of the databases, to run the methods on: the
    world is a version number, and every pull returns a frame that holds
    it. *)
Definition sample_table (w : Z) : DataFrame :=
  mkDataFrame 1 [("version", int64 [w])].

Definition sample_outputs : list (string * method Z) :=
  output_methods Z
    (fun w _ _ _ => Return (sample_table w))
    (fun w _ => Return (sample_table w))
    (fun w _ _ _ => Return (sample_table w))
    (fun w _ _ _ => Return (sample_table w))
    (fun w _ _ _ => Return (sample_table w))
    (fun w _ _ _ => Return (sample_table w))
    (fun w _ _ _ => Return (sample_table w))
    (fun w _ _ _ _ => Return (sample_table w))
    (fun w _ _ _ _ => Return (sample_table w))
    (fun w _ _ _ _ => Return (sample_table w))
    (fun w _ _ _ _ => Return (sample_table w))
    (fun w _ => Return (sample_table w))
    (fun w _ => Return (sample_table w))
    (fun w _ _ _ => Return (sample_table w)).

Definition sample_analyses : list (string * method Z) :=
  analysis_methods Z
    (fun w self _ => (Return (sample_table w), self))
    (fun w self _ => (Return (sample_table w), self))
    (fun w self _ => (Return (sample_table w), self))
    (fun w self _ => (Return (sample_table w), self))
    (fun w self _ _ _ _ _ => (Return (sample_table w), self)).

Definition sample_extra : extra :=
  mkExtra false 5.5%float 0%float 0%float 1.5%float.

Definition sample_object : Pudltabl.PudlTabl :=
  Pudltabl.mkPudlTabl None false (utc 2009 1 1 0 0 0) (utc 2016 12 31 0 0 0)
    Pudltabl.empty_dfs.

(** A stand-in for [pd.to_datetime] on the strings ["Y-01-01"] and
    ["Y-12-31"] of a few years. *)
Definition sample_to_datetime (s : string) : outcome Z :=
  if String.eqb s "2009-01-01" then Return (utc 2009 1 1 0 0 0)
  else if String.eqb s "2016-12-31" then Return (utc 2016 12 31 0 0 0)
  else Except (Library (ValueError_time_data s)).

(** What [main] does for one source when every year on the command line is
    an integer literal, [numbers] being their values and [valid] the years
    of the source: the years it asks for, the years it sets aside, and the
    line it prints about them. *)
Definition wanted (args : UpdateDatastore.arguments) (numbers valid : list Z)
  : list Z :=
  match UpdateDatastore.years args with
  | [] => valid
  | _ => filter (fun n => UpdateDatastore.mem n valid) numbers
  end.

Definition ignored (args : UpdateDatastore.arguments) (numbers valid : list Z)
  : list Z :=
  match UpdateDatastore.years args with
  | [] => []
  | _ => filter (fun n => negb (UpdateDatastore.mem n valid)) numbers
  end.

Definition warning (args : UpdateDatastore.arguments) (src : string)
    (numbers valid : list Z) : list UpdateDatastore.event :=
  match ignored args numbers valid with
  | [] => []
  | bad_yrs =>
      if UpdateDatastore.verbose args
      then [UpdateDatastore.Print src bad_yrs] else []
  end.

Definition submissions (args : UpdateDatastore.arguments) (src : string)
    (yrs : list Z) : list UpdateDatastore.event :=
  map (fun yr =>
         UpdateDatastore.Submit src yr (UpdateDatastore.states args)
           (UpdateDatastore.clobber args) (UpdateDatastore.unzip args)
           (UpdateDatastore.verbose args) (UpdateDatastore.datadir args)
           (UpdateDatastore.no_download args))
    yrs.

(** * Properties *)

(** ** Columns of a frame *)

Section Columns.

Implicit Types (df : DataFrame) (c k : string) (s : Series)
  (cols : list (string * Series)).

Lemma contains_lookup df c :
  contains df c =
  match lookup c (columns df) with Some _ => true | None => false end.
Proof.
  unfold contains. induction (columns df) as [|[k s] cols IH]; simpl.
  - reflexivity.
  - destruct (String.eqb k c); simpl; [reflexivity | exact IH].
Qed.

Lemma lookup_replace_same c s cols :
  lookup c cols <> None -> lookup c (replace c s cols) = Some s.
Proof.
  induction cols as [|[k s0] cols IH]; simpl; intros H.
  - congruence.
  - destruct (String.eqb k c) eqn:E; simpl; rewrite E; auto.
Qed.

Lemma lookup_replace_other c k s cols :
  k <> c -> lookup k (replace c s cols) = lookup k cols.
Proof.
  intros Hne. induction cols as [|[k0 s0] cols IH]; simpl.
  - reflexivity.
  - destruct (String.eqb k0 c) eqn:E; simpl.
    + apply String.eqb_eq in E. subst k0.
      destruct (String.eqb c k) eqn:E'; [|reflexivity].
      apply String.eqb_eq in E'. congruence.
    + destruct (String.eqb k0 k); [reflexivity | exact IH].
Qed.

Lemma lookup_app c cols cols' :
  lookup c (cols ++ cols') =
  match lookup c cols with Some s => Some s | None => lookup c cols' end.
Proof.
  induction cols as [|[k s0] cols IH]; simpl.
  - reflexivity.
  - destruct (String.eqb k c); [reflexivity | exact IH].
Qed.

Lemma replace_names c s cols : map fst (replace c s cols) = map fst cols.
Proof.
  induction cols as [|[k s0] cols IH]; simpl.
  - reflexivity.
  - destruct (String.eqb k c); simpl; [reflexivity | now rewrite IH].
Qed.

Lemma replace_same c s cols :
  lookup c cols = Some s -> replace c s cols = cols.
Proof.
  induction cols as [|[k s0] cols IH]; simpl; intros H.
  - reflexivity.
  - destruct (String.eqb k c); [congruence | now rewrite IH].
Qed.

Lemma lookup_setitem_same df c s :
  lookup c (columns (setitem df c s)) = Some s.
Proof.
  unfold setitem. rewrite contains_lookup.
  destruct (lookup c (columns df)) eqn:E; simpl.
  - apply lookup_replace_same. congruence.
  - rewrite lookup_app, E. simpl. now rewrite String.eqb_refl.
Qed.

Lemma lookup_setitem_other df c k s :
  k <> c -> lookup k (columns (setitem df c s)) = lookup k (columns df).
Proof.
  intros Hne. unfold setitem. destruct (contains df c); simpl.
  - now apply lookup_replace_other.
  - rewrite lookup_app. destruct (lookup k (columns df)); [reflexivity|].
    simpl. destruct (String.eqb c k) eqn:E; [|reflexivity].
    apply String.eqb_eq in E. congruence.
Qed.

Lemma nrows_setitem df c s : nrows (setitem df c s) = nrows df.
Proof. unfold setitem. now destruct (contains df c). Qed.

Lemma contains_setitem_same df c s : contains (setitem df c s) c = true.
Proof. now rewrite contains_lookup, lookup_setitem_same. Qed.

Lemma contains_setitem_other df c k s :
  k <> c -> contains (setitem df c s) k = contains df k.
Proof.
  intros Hne. now rewrite !contains_lookup, lookup_setitem_other.
Qed.

Lemma setitem_same df c s :
  lookup c (columns df) = Some s -> setitem df c s = df.
Proof.
  intros H. unfold setitem. rewrite contains_lookup, H.
  rewrite (replace_same _ _ _ H). now destruct df.
Qed.

Lemma lookup_filter_other c k cols :
  k <> c ->
  lookup k (filter (fun kv => negb (String.eqb (fst kv) c)) cols) =
  lookup k cols.
Proof.
  intros Hne. induction cols as [|[k0 s0] cols IH]; simpl.
  - reflexivity.
  - destruct (String.eqb k0 c) eqn:E; simpl.
    + apply String.eqb_eq in E. subst k0.
      destruct (String.eqb c k) eqn:E'; [|exact IH].
      apply String.eqb_eq in E'. congruence.
    + destruct (String.eqb k0 k); [reflexivity | exact IH].
Qed.

Lemma lookup_filter_same c cols :
  lookup c (filter (fun kv => negb (String.eqb (fst kv) c)) cols) = None.
Proof.
  induction cols as [|[k0 s0] cols IH]; simpl.
  - reflexivity.
  - destruct (String.eqb k0 c) eqn:E; simpl; [exact IH | now rewrite E].
Qed.

End Columns.

(** ** Schema harmonization *)

Lemma harmonized_columns (df : DataFrame) :
  columns (add_facility_id_unit_id_epa df) =
  columns df
  ++ (if contains df "facility_id" then [] else [("facility_id", na_col df)])
  ++ (if contains df "unit_id_epa" then [] else [("unit_id_epa", na_col df)]).
Proof.
  assert (Hne : "unit_id_epa" <> "facility_id") by discriminate.
  unfold add_facility_id_unit_id_epa, na_col.
  destruct (contains df "facility_id") eqn:Ef;
    destruct (contains df "unit_id_epa") eqn:Eu; simpl.
  - now rewrite List.app_nil_r.
  - unfold setitem. now rewrite Eu.
  - rewrite contains_setitem_other, Eu by exact Hne. simpl.
    unfold setitem. now rewrite Ef.
  - rewrite contains_setitem_other, Eu by exact Hne. simpl.
    unfold setitem at 1.
    rewrite contains_setitem_other, Eu by exact Hne. simpl.
    unfold setitem. rewrite Ef. simpl. now rewrite <- List.app_assoc.
Qed.

Lemma harmonized_nrows (df : DataFrame) :
  nrows (add_facility_id_unit_id_epa df) = nrows df.
Proof.
  unfold add_facility_id_unit_id_epa.
  repeat match goal with
         | |- context [if ?b then _ else _] => destruct b
         end; now rewrite ?nrows_setitem.
Qed.

Lemma harmonized_lookup (df : DataFrame) (c : string) :
  lookup c (columns (add_facility_id_unit_id_epa df)) =
  match lookup c (columns df) with
  | Some s => Some s
  | None =>
      if String.eqb c "facility_id" || String.eqb c "unit_id_epa"
      then Some (na_col df) else None
  end.
Proof.
  rewrite harmonized_columns, lookup_app.
  destruct (lookup c (columns df)) eqn:E; [reflexivity|].
  rewrite lookup_app, !contains_lookup.
  destruct (String.eqb c "facility_id") eqn:Ef.
  - apply String.eqb_eq in Ef. subst c. rewrite E. reflexivity.
  - assert (Hf : lookup c
       (if match lookup "facility_id" (columns df) with
           | Some _ => true | None => false end
        then [] else [("facility_id", na_col df)]) = None).
    { destruct (lookup "facility_id" (columns df)); cbn [lookup]; auto.
      rewrite String.eqb_sym, Ef. reflexivity. }
    rewrite Hf. cbn [orb].
    destruct (String.eqb c "unit_id_epa") eqn:Eu.
    + apply String.eqb_eq in Eu. subst c. rewrite E. reflexivity.
    + destruct (lookup "unit_id_epa" (columns df)); cbn [lookup]; auto.
      rewrite String.eqb_sym, Eu. reflexivity.
Qed.

(** C5.  [add_facility_id_unit_id_epa] is a total function of the frame,
    whatever its columns.  Its result has both the [facility_id] and the
    [unit_id_epa] column; a column of the two that the input lacks is the
    nullable-integer ([Int64]) column with the missing value in every row; the
    columns of the input, among them a [facility_id] or [unit_id_epa] it
    already has, stay as they are and where they are, the added ones follow
    them; the number of rows is the same. *)
Theorem add_facility_id_unit_id_epa_total (df : DataFrame) :
  let out := add_facility_id_unit_id_epa df in
  contains out "facility_id" = true
  /\ contains out "unit_id_epa" = true
  /\ (contains df "facility_id" = false ->
      lookup "facility_id" (columns out) = Some (na_col df))
  /\ (contains df "unit_id_epa" = false ->
      lookup "unit_id_epa" (columns out) = Some (na_col df))
  /\ (forall c, contains df c = true ->
      lookup c (columns out) = lookup c (columns df))
  /\ columns out =
       columns df
       ++ (if contains df "facility_id" then [] else [("facility_id", na_col df)])
       ++ (if contains df "unit_id_epa" then [] else [("unit_id_epa", na_col df)])
  /\ nrows out = nrows df.
Proof.
  cbv zeta. rewrite !(contains_lookup (add_facility_id_unit_id_epa df)).
  rewrite !harmonized_lookup. simpl.
  repeat split.
  - now destruct (lookup "facility_id" (columns df)).
  - now destruct (lookup "unit_id_epa" (columns df)).
  - rewrite contains_lookup.
    now destruct (lookup "facility_id" (columns df)).
  - rewrite contains_lookup.
    now destruct (lookup "unit_id_epa" (columns df)).
  - intros c. rewrite contains_lookup, harmonized_lookup.
    now destruct (lookup c (columns df)).
  - apply harmonized_columns.
  - apply harmonized_nrows.
Qed.

(** C6.  Harmonizing twice is harmonizing once; a frame that has both
    columns is returned as it is. *)
Theorem add_facility_id_unit_id_epa_idempotent (df : DataFrame) :
  add_facility_id_unit_id_epa (add_facility_id_unit_id_epa df)
  = add_facility_id_unit_id_epa df
  /\ (contains df "facility_id" = true -> contains df "unit_id_epa" = true ->
      add_facility_id_unit_id_epa df = df).
Proof.
  assert (Hstable : forall d, contains d "facility_id" = true ->
            contains d "unit_id_epa" = true ->
            add_facility_id_unit_id_epa d = d).
  { intros d Hf Hu. unfold add_facility_id_unit_id_epa. now rewrite Hf, Hu. }
  split; [|apply Hstable].
  apply Hstable; rewrite contains_lookup, harmonized_lookup; simpl.
  - now destruct (lookup "facility_id" (columns df)).
  - now destruct (lookup "unit_id_epa" (columns df)).
Qed.

(** ** Gross load *)

Lemma scaled_combine (l : list float) :
  map (fun bg : bool * float =>
         if fst bg then PrimFloat.div (snd bg) 1000%float else snd bg)
    (combine (map (fun g => PrimFloat.ltb 2000%float g) l) l)
  = map scaled l.
Proof.
  induction l as [|g l IH]; simpl; [reflexivity|].
  now rewrite IH.
Qed.

Lemma scaled_none_bad (l : list float) :
  existsb (fun b => b) (map (fun g => PrimFloat.ltb 2000%float g) l) = false ->
  map scaled l = l.
Proof.
  induction l as [|g l IH]; simpl; [reflexivity|].
  intros H. apply orb_false_iff in H. destruct H as [Hg Hl].
  unfold scaled at 1. now rewrite Hg, IH.
Qed.

Lemma correct_gross_load_mw_run (df : DataFrame) (l : list float) :
  lookup "gross_load_mw" (columns df) = Some (float64 l) ->
  correct_gross_load_mw df =
  Ok (setitem df "gross_load_mw" (float64 (map scaled l))).
Proof.
  intros H. unfold correct_gross_load_mw, getitem. rewrite H. simpl.
  destruct (existsb _ _) eqn:E.
  - now rewrite scaled_combine.
  - rewrite (scaled_none_bad _ E). now rewrite setitem_same.
Qed.

(** C4.  On a frame whose [gross_load_mw] column holds floats,
    [correct_gross_load_mw] returns the frame in which every value [g] of
    that column that exceeds 2000 is [g / 1000] and every other value is [g];
    the other columns, the order of the columns and the number of rows are
    those of the input.  A column [25000, 1500] becomes [25.0, 1500]. *)
Theorem correct_gross_load_mw_divides_above_2000
    (df : DataFrame) (l : list float) :
  lookup "gross_load_mw" (columns df) = Some (float64 l) ->
  (exists out,
      correct_gross_load_mw df = Ok out
      /\ lookup "gross_load_mw" (columns out) =
         Some (float64
                 (map (fun g => if PrimFloat.ltb 2000%float g
                                then PrimFloat.div g 1000%float else g) l))
      /\ (forall c, c <> "gross_load_mw" ->
          lookup c (columns out) = lookup c (columns df))
      /\ map fst (columns out) = map fst (columns df)
      /\ nrows out = nrows df)
  /\ correct_gross_load_mw
       (mkDataFrame 2 [("gross_load_mw", float64 [25000%float; 1500%float])])
     = Ok (mkDataFrame 2 [("gross_load_mw", float64 [25%float; 1500%float])]).
Proof.
  intros H. split; [|reflexivity].
  exists (setitem df "gross_load_mw" (float64 (map scaled l))).
  split; [now apply correct_gross_load_mw_run|].
  split; [apply lookup_setitem_same|].
  split; [intros c Hc; now apply lookup_setitem_other|].
  split; [|apply nrows_setitem].
  unfold setitem. rewrite contains_lookup, H. simpl. apply replace_names.
Qed.

Lemma correct_gross_load_mw_divides_above_2000_witness :
  let df := mkDataFrame 3
              [("plant_id_eia", int64 [3; 3; 9]);
               ("gross_load_mw",
                float64 [25000%float; 1500%float; 2000%float])] in
  exists out,
    correct_gross_load_mw df = Ok out
    /\ lookup "gross_load_mw" (columns out) =
       Some (float64 [25%float; 1500%float; 2000%float])
    /\ lookup "plant_id_eia" (columns out) = Some (int64 [3; 3; 9]).
Proof.
  intros df.
  destruct (correct_gross_load_mw_divides_above_2000 df
              [25000%float; 1500%float; 2000%float] eq_refl)
    as [[out (Hrun & Hcol & Hrest & _)] _].
  exists out. split; [exact Hrun|]. split; [exact Hcol|].
  rewrite Hrest; [reflexivity | discriminate].
Defined.

(** C9.  [correct_gross_load_mw] divides once per pass and is not
    idempotent: 2500001 becomes 2500.001, which still exceeds 2000, and a
    second pass on the corrected frame changes it again. *)
Theorem correct_gross_load_mw_not_idempotent :
  let b := mkDataFrame 1 [("gross_load_mw", float64 [2500001%float])] in
  exists b1 b2 g1,
    correct_gross_load_mw b = Ok b1
    /\ columns b1 = [("gross_load_mw", float64 [g1])]
    /\ g1 = PrimFloat.div 2500001%float 1000%float
    /\ PrimFloat.ltb 2000%float g1 = true
    /\ correct_gross_load_mw b1 = Ok b2
    /\ b2 <> b1.
Proof.
  intros b.
  exists (mkDataFrame 1
            [("gross_load_mw",
              float64 [PrimFloat.div 2500001%float 1000%float])]).
  exists (mkDataFrame 1
            [("gross_load_mw",
              float64 [PrimFloat.div (PrimFloat.div 2500001%float 1000%float)
                         1000%float])]).
  exists (PrimFloat.div 2500001%float 1000%float).
  repeat split; try reflexivity.
  intros Heq.
  assert (Hb : forall d,
             match columns d with
             | [(_, float64 [g])] => PrimFloat.ltb 2000%float g
             | _ => false
             end = true ->
             d <> mkDataFrame 1
                    [("gross_load_mw",
                      float64 [PrimFloat.div
                                 (PrimFloat.div 2500001%float 1000%float)
                                 1000%float])]).
  { intros d Hd ->. vm_compute in Hd. discriminate. }
  symmetry in Heq. revert Heq. apply Hb. reflexivity.
Qed.

(** ** Timestamps *)

Section Resolution.

Variables (df : DataFrame) (t : offsets).
Variables (ps : list Z) (ds : list (option string)) (hs : list Z).
Variable mid : list (option Z).

Hypothesis Hplant : lookup "plant_id_eia" (columns df) = Some (int64 ps).
Hypothesis Hdate : lookup "op_date" (columns df) = Some (object ds).
Hypothesis Hhour : lookup "op_hour" (columns df) = Some (int64 hs).
Hypothesis Hfree : contains df "utc_offset" = false.
Hypothesis Hmid : mapM strptime ds = Ok mid.

Local Abbreviation naive := (op_datetime_naive mid hs).
Local Abbreviation merged := (merged_frame df t ps mid hs).
Local Abbreviation stamped := (operating_datetime_utc t ps mid hs).
Local Abbreviation resolved := (resolved_frame df t ps mid hs).

Lemma lookup_map_values (f : Series -> Series) c cols :
  lookup c (map (fun kv => (fst kv, f (snd kv))) cols) =
  option_map f (lookup c cols).
Proof.
  induction cols as [|[k s] cols IH]; simpl; [reflexivity|].
  destruct (String.eqb k c); [reflexivity | exact IH].
Qed.

Lemma rename_noop cols :
  lookup "utc_offset" cols = None ->
  map (fun kv : string * Series =>
         if String.eqb (fst kv) "utc_offset"
         then ("utc_offset_x", snd kv) else kv) cols = cols.
Proof.
  induction cols as [|[k s] cols IH]; cbn [map lookup fst snd];
    [reflexivity|].
  destruct (String.eqb k "utc_offset"); [discriminate|].
  intros H. now rewrite IH.
Qed.

Lemma merge_left_run :
  merge_left (setitem df "op_datetime_naive" (datetime64_utc naive)) t
  = Ok merged.
Proof.
  unfold merge_left, getitem.
  rewrite lookup_setitem_other, Hplant by discriminate. cbn [bind].
  rewrite contains_setitem_other, Hfree by discriminate.
  rewrite rename_noop; [reflexivity|].
  rewrite lookup_map_values, lookup_setitem_other by discriminate.
  rewrite contains_lookup in Hfree.
  now destruct (lookup "utc_offset" (columns df)).
Qed.

Lemma merged_lookup c :
  c <> "utc_offset" -> c <> "op_datetime_naive" ->
  lookup c (columns merged) =
  option_map (Series_expand (map (copies t) ps)) (lookup c (columns df)).
Proof.
  intros H1 H2. cbn [merged_frame columns].
  rewrite lookup_app, lookup_map_values, lookup_setitem_other by exact H2.
  destruct (lookup c (columns df)); cbn [option_map lookup]; [reflexivity|].
  destruct (String.eqb "utc_offset" c) eqn:E; [|reflexivity].
  apply String.eqb_eq in E. congruence.
Qed.

Lemma merged_utc_offset :
  lookup "utc_offset" (columns merged) =
  Some (timedelta64 (flat_map (joined t) ps)).
Proof.
  cbn [merged_frame columns].
  rewrite lookup_app, lookup_map_values, lookup_setitem_other by discriminate.
  rewrite contains_lookup in Hfree.
  destruct (lookup "utc_offset" (columns df)); [discriminate|].
  cbn [option_map lookup]. now rewrite String.eqb_refl.
Qed.

Lemma merged_naive :
  lookup "op_datetime_naive" (columns merged) =
  Some (datetime64_utc (expand (map (copies t) ps) naive)).
Proof.
  cbn [merged_frame columns].
  now rewrite lookup_app, lookup_map_values, lookup_setitem_same.
Qed.

Lemma delitem_run (d : DataFrame) c s :
  lookup c (columns d) = Some s ->
  delitem d c = Ok (mkDataFrame (nrows d) (drop c (columns d))).
Proof.
  intros H. unfold delitem. now rewrite contains_lookup, H.
Qed.

(** The run of [fix_up_dates] on a frame with the three columns it reads,
    whose dates all parse: the sum of dates and hours is checked first, then
    the offsets are looked up, then the sum with the offsets is checked. *)
Lemma fix_up_dates_run :
  fix_up_dates df t =
  if overflow mid (map hours hs) then Raise OverflowError
  else if notna_all (flat_map (joined t) ps)
  then
    if overflow (expand (map (copies t) ps) naive) (flat_map (joined t) ps)
    then Raise OverflowError
    else Ok resolved
  else Raise (ValueError_utc_offset_missing
                (missing_plants (expand (map (copies t) ps) ps)
                   (flat_map (joined t) ps))).
Proof.
  unfold fix_up_dates, getitem.
  rewrite Hdate. cbn [bind to_datetime]. rewrite Hmid. cbn [bind].
  rewrite Hhour. cbn [bind to_timedelta_h add].
  destruct (overflow mid (map hours hs)); [reflexivity|]. cbn [bind].
  fold naive. rewrite merge_left_run. cbn [bind].
  rewrite merged_utc_offset. cbn [bind].
  destruct (notna_all (flat_map (joined t) ps)); cbn [negb].
  - rewrite merged_naive. cbn [bind add].
    destruct (overflow _ (flat_map (joined t) ps)); [reflexivity|].
    cbn [bind]. fold stamped.
    set (d := setitem merged "operating_datetime_utc" (datetime64_utc stamped)).
    assert (Hd : forall c, c <> "operating_datetime_utc" ->
              lookup c (columns d) = lookup c (columns merged)).
    { intros c Hc. now apply lookup_setitem_other. }
    erewrite (delitem_run d "op_date");
      [|rewrite Hd, merged_lookup, Hdate by discriminate; reflexivity].
    cbn [bind].
    erewrite delitem_run;
      [|cbn [columns]; unfold drop; rewrite lookup_filter_other, Hd,
          merged_lookup, Hhour by discriminate; reflexivity].
    cbn [bind nrows columns].
    erewrite delitem_run;
      [|cbn [columns]; unfold drop; rewrite !lookup_filter_other, Hd,
          merged_naive by discriminate; reflexivity].
    cbn [bind nrows columns].
    erewrite delitem_run;
      [|cbn [columns]; unfold drop; rewrite !lookup_filter_other, Hd,
          merged_utc_offset by discriminate; reflexivity].
    cbn [bind nrows columns]. unfold resolved_frame. subst d.
    now rewrite nrows_setitem.
  - rewrite merged_lookup, Hplant by discriminate. reflexivity.
Qed.

Lemma resolved_operating_datetime_utc :
  lookup "operating_datetime_utc" (columns resolved) =
  Some (datetime64_utc stamped).
Proof.
  cbn [resolved_frame columns]. unfold drop.
  rewrite !lookup_filter_other by discriminate.
  apply lookup_setitem_same.
Qed.

End Resolution.

(** ** The join with the table of offsets *)

Section Join.

Variable t : offsets.

Lemma matches_registered p :
  registered t p = negb (match matches t p with [] => true | _ => false end).
Proof.
  unfold registered, matches.
  induction t as [|r t' IH]; simpl; [reflexivity|].
  destruct (fst r =? p); simpl; [reflexivity | exact IH].
Qed.

Lemma registered_In p : registered t p = true <-> In p (map fst t).
Proof.
  unfold registered. rewrite existsb_exists, in_map_iff.
  split; intros [r Hr]; exists r.
  - destruct Hr as [Hin Heq]. apply Z.eqb_eq in Heq. now split.
  - destruct Hr as [Heq Hin]. split; [exact Hin | now apply Z.eqb_eq].
Qed.

Lemma notna_all_Some (ms : list Z) : notna_all (map Some ms) = true.
Proof. induction ms; simpl; auto. Qed.

Lemma notna_all_app a b : notna_all (a ++ b) = notna_all a && notna_all b.
Proof. apply forallb_app. Qed.

Lemma notna_all_joined ps :
  notna_all (flat_map (joined t) ps) = forallb (registered t) ps.
Proof.
  induction ps as [|p ps IH]; cbn [flat_map forallb]; [reflexivity|].
  rewrite notna_all_app, IH, matches_registered. f_equal.
  unfold joined. destruct (matches t p) as [|m ms]; [reflexivity|].
  apply (notna_all_Some (m :: ms)).
Qed.

Lemma expand_cons {A : Type} k ks (x : A) xs :
  expand (k :: ks) (x :: xs) = repeat x k ++ expand ks xs.
Proof. reflexivity. Qed.

Lemma combine_app {A B : Type} (a b : list A) (c d : list B) :
  List.length a = List.length c ->
  combine (a ++ b) (c ++ d) = combine a c ++ combine b d.
Proof.
  revert c. induction a as [|x a IH]; intros [|y c] H; simpl in *;
    try discriminate; [reflexivity|].
  f_equal. apply IH. now injection H.
Qed.

Lemma joined_length p : List.length (joined t p) = copies t p.
Proof.
  unfold joined, copies. destruct (matches t p) as [|m ms]; [reflexivity|].
  apply length_map.
Qed.

(** The rows of the merged frame that come from one left row. *)
Lemma combine_joined {A : Type} (x : A) p :
  combine (repeat x (copies t p)) (joined t p) =
  match matches t p with
  | [] => [(x, None)]
  | ms => map (fun off => (x, Some off)) ms
  end.
Proof.
  unfold joined, copies. destruct (matches t p) as [|m ms]; [reflexivity|].
  induction (m :: ms) as [|m' ms' IH]; simpl; [reflexivity|].
  now rewrite IH.
Qed.

Lemma merged_rows {R A : Type} (key : R -> Z) (val : R -> A) (rows : list R) :
  combine (expand (map (copies t) (map key rows)) (map val rows))
    (flat_map (joined t) (map key rows)) =
  flat_map
    (fun r => match matches t (key r) with
              | [] => [(val r, None)]
              | ms => map (fun off => (val r, Some off)) ms
              end)
    rows.
Proof.
  induction rows as [|r rows IH]; [reflexivity|].
  cbn [map flat_map]. rewrite expand_cons, combine_app.
  - now rewrite IH, combine_joined.
  - now rewrite repeat_length, joined_length.
Qed.

Lemma missing_plants_joined ps :
  missing_plants (expand (map (copies t) ps) ps) (flat_map (joined t) ps) =
  unique (filter (fun p => negb (registered t p)) ps).
Proof.
  unfold missing_plants. f_equal.
  pose proof (merged_rows (fun p => p) (fun p => p) ps) as H.
  rewrite !map_id in H. rewrite H. clear H.
  induction ps as [|p ps IH]; [reflexivity|].
  cbn [flat_map filter]. rewrite filter_app, map_app, IH.
  rewrite matches_registered.
  destruct (matches t p) as [|m ms]; [reflexivity|].
  cbn [negb app].
  replace (filter _ (map _ (m :: ms))) with (@nil (Z * option Z));
    [reflexivity|].
  induction (m :: ms) as [|m' ms' IH']; simpl; auto.
Qed.

End Join.

Lemma unique_In (l : list Z) (x : Z) : In x (unique l) <-> In x l.
Proof.
  induction l as [|y l IH]; simpl; [tauto|].
  rewrite filter_In, IH. split.
  - intros [->|[H _]]; auto.
  - intros [->|H]; auto.
    destruct (Z.eq_dec y x) as [->|Hne]; auto.
    right. split; auto. apply negb_true_iff, Z.eqb_neq. congruence.
Qed.

Lemma unique_NoDup (l : list Z) : NoDup (unique l).
Proof.
  induction l as [|y l IH]; simpl; constructor.
  - rewrite filter_In. intros [_ H].
    now rewrite Z.eqb_refl in H.
  - now apply NoDup_filter.
Qed.

(** ** Sums within the 64-bit range *)

Lemma combine_map {A B C : Type} (f : A -> B) (g : A -> C) (l : list A) :
  combine (map f l) (map g l) = map (fun a => (f a, g a)) l.
Proof. induction l; simpl; [reflexivity | now rewrite IHl]. Qed.

Ltac bounds :=
  unfold in_bounds, Timestamp_min, Timestamp_max, iNaT, int64_min, int64_max,
    ns_per_hour, ns_per_second in *;
  change (2 ^ 63) with 9223372036854775808 in *;
  change (2 ^ 64) with 18446744073709551616 in *;
  repeat match goal with
         | H : _ && _ = true |- _ => apply andb_true_iff in H; destruct H
         | H : (_ <=? _) = true |- _ => apply Z.leb_le in H
         end.

Lemma wrap_small (v : Z) : int64_min <= v <= int64_max -> wrap v = v.
Proof.
  intros H. unfold wrap. bounds. rewrite Z.mod_small by lia. lia.
Qed.

Lemma view_in_bounds (v : Z) : in_bounds v = true -> view v = Some v.
Proof.
  intros H. unfold view. destruct (Z.eqb_spec v iNaT) as [E|E]; [|reflexivity].
  bounds. lia.
Qed.

Lemma hours_in_bounds (h : Z) :
  in_bounds (h * ns_per_hour) = true -> hours h = Some (h * ns_per_hour).
Proof.
  intros H. unfold hours.
  destruct (Z.eqb_spec h iNaT) as [E|E].
  - bounds. lia.
  - rewrite wrap_small; [now apply view_in_bounds|]. bounds. lia.
Qed.

Lemma overflows_in_bounds (x y : Z) :
  in_bounds (x + y) = true -> overflows (Some x) (Some y) = false.
Proof.
  intros H. cbn [overflows]. apply orb_false_iff.
  split; apply Z.ltb_ge; bounds; lia.
Qed.

Lemma add_ns_in_bounds (x y : Z) :
  in_bounds (x + y) = true -> add_ns (Some x) (Some y) = Some (x + y).
Proof. intros H. cbn [add_ns]. now apply view_in_bounds. Qed.

Lemma existsb_map {A B : Type} (f : B -> bool) (g : A -> B) (l : list A) :
  existsb f (map g l) = existsb (fun a => f (g a)) l.
Proof. induction l as [|a l IH]; [reflexivity | cbn; now rewrite IH]. Qed.

Lemma existsb_flat_map {A B : Type} (f : B -> bool) (g : A -> list B)
    (l : list A) :
  existsb f (flat_map g l) = existsb (fun a => existsb f (g a)) l.
Proof.
  induction l as [|a l IH]; [reflexivity|].
  cbn [flat_map existsb]. now rewrite existsb_app, IH.
Qed.

Lemma existsb_false {A : Type} (f : A -> bool) (l : list A) :
  (forall a, In a l -> f a = false) -> existsb f l = false.
Proof.
  intros H. apply not_true_is_false. intros E.
  apply existsb_exists in E. destruct E as (a & Ha & Hf).
  rewrite (H a Ha) in Hf. discriminate.
Qed.

(** The two sums of [fix_up_dates], row by row: [day] is the parsed date of
    a row, [hour] its hour and [key] its plant. *)
Section Rows.

Variables (R : Type) (key : R -> Z) (day : R -> option Z) (hour : R -> Z).
Variables (rows : list R) (t : offsets).

Local Abbreviation local :=
  (fun r : R => match day r with
                | Some d => Some (d + hour r * ns_per_hour)
                | None => None
                end).

Hypothesis Hlocal :
  forall r d, In r rows -> day r = Some d ->
    in_bounds (hour r * ns_per_hour) = true
    /\ in_bounds (d + hour r * ns_per_hour) = true.

Lemma naive_fits :
  overflow (map day rows) (map hours (map hour rows)) = false.
Proof.
  unfold overflow. rewrite map_map, combine_map, existsb_map.
  apply existsb_false. intros r Hr. cbn [fst snd].
  destruct (day r) as [d|] eqn:E; [|reflexivity].
  destruct (Hlocal r d Hr E) as [Hh Hs].
  rewrite (hours_in_bounds _ Hh). now apply overflows_in_bounds.
Qed.

Lemma naive_rows :
  op_datetime_naive (map day rows) (map hour rows) = map local rows.
Proof.
  unfold op_datetime_naive. rewrite map_map, combine_map, map_map.
  apply map_ext_in. intros r Hr. cbn [fst snd].
  destruct (day r) as [d|] eqn:E; [|reflexivity].
  destruct (Hlocal r d Hr E) as [Hh Hs].
  rewrite (hours_in_bounds _ Hh). now apply add_ns_in_bounds.
Qed.

Hypothesis Hreg : forall r, In r rows -> In (key r) (map fst t).

Hypothesis Hutc :
  forall r d off, In r rows -> day r = Some d -> In off (matches t (key r)) ->
    in_bounds (d + hour r * ns_per_hour + off) = true.

Lemma stamped_fits :
  overflow
    (expand (map (copies t) (map key rows))
       (op_datetime_naive (map day rows) (map hour rows)))
    (flat_map (joined t) (map key rows)) = false.
Proof.
  unfold overflow. rewrite naive_rows, (merged_rows t key local rows).
  rewrite existsb_flat_map. apply existsb_false. intros r Hr.
  destruct (matches t (key r)) as [|m ms] eqn:Em;
    [cbn [existsb fst snd]; now destruct (day r)|].
  rewrite existsb_map. apply existsb_false. intros off Hoff. cbn [fst snd].
  destruct (day r) as [d|] eqn:E; [|reflexivity].
  apply overflows_in_bounds, (Hutc r d off Hr E). now rewrite Em.
Qed.

Lemma stamped_rows :
  operating_datetime_utc t (map key rows) (map day rows) (map hour rows) =
  flat_map
    (fun r =>
       map (fun off =>
              match day r with
              | Some d => Some (d + hour r * ns_per_hour + off)
              | None => None
              end)
         (matches t (key r)))
    rows.
Proof.
  unfold operating_datetime_utc.
  rewrite naive_rows, (merged_rows t key local rows).
  clear Hlocal. induction rows as [|r rest IH]; [reflexivity|].
  cbn [flat_map]. rewrite map_app.
  rewrite IH by (intros; (apply Hreg || eapply Hutc); eauto; now right).
  f_equal.
  pose proof (Hreg r (or_introl eq_refl)) as Hin. apply registered_In in Hin.
  rewrite matches_registered in Hin.
  destruct (matches t (key r)) as [|m ms] eqn:Em; [discriminate|].
  rewrite map_map. apply map_ext_in. intros off Hoff. cbn [fst snd].
  destruct (day r) as [d|] eqn:E; [|reflexivity].
  apply add_ns_in_bounds, (Hutc r d off (or_introl eq_refl) E). now rewrite Em.
Qed.

End Rows.

Lemma parsed_rows {R : Type} (date : R -> option string) (rows : list R) :
  (forall r, In r rows -> exists v, strptime (date r) = Ok v) ->
  mapM strptime (map date rows) = Ok (map (fun r => parsed (date r)) rows).
Proof.
  induction rows as [|r rows IH]; intros H; cbn [map mapM]; [reflexivity|].
  destruct (H r (or_introl eq_refl)) as [v Hv].
  unfold parsed at 1. rewrite Hv. cbn [bind].
  rewrite IH; [reflexivity|]. intros; apply H; now right.
Qed.

(** ** The offset invariant *)

(** C1, as the code has it.  Take a frame with the integer columns
    [plant_id_eia] and [op_hour], the string column [op_date] and no column
    named [utc_offset], in which every entry of [op_date] parses and the
    local time of every reading, its date plus its hour, is within the
    bounds of [Timestamp].  If every plant id of the frame is a key of the
    table of offsets and the local times plus the offsets are within the
    bounds too, [fix_up_dates] returns a frame.  If some plant id is not a
    key, it raises the error that carries the plant ids of the frame that are
    not keys of the table, each once, in the order they first appear, and
    returns no frame. *)
Theorem fix_up_dates_offset_invariant
    (df : DataFrame) (t : offsets) (rows : list entry) :
  lookup "plant_id_eia" (columns df) = Some (int64 (map e_plant_id_eia rows)) ->
  lookup "op_date" (columns df) = Some (object (map e_op_date rows)) ->
  lookup "op_hour" (columns df) = Some (int64 (map e_op_hour rows)) ->
  contains df "utc_offset" = false ->
  (forall r, In r rows -> exists v, strptime (e_op_date r) = Ok v) ->
  (forall r day, In r rows -> parsed (e_op_date r) = Some day ->
     in_bounds (e_op_hour r * ns_per_hour) = true
     /\ in_bounds (day + e_op_hour r * ns_per_hour) = true) ->
  ((forall r, In r rows -> In (e_plant_id_eia r) (map fst t)) ->
   (forall r day utc_offset,
      In r rows -> parsed (e_op_date r) = Some day ->
      In utc_offset (matches t (e_plant_id_eia r)) ->
      in_bounds (day + e_op_hour r * ns_per_hour + utc_offset) = true) ->
   exists out, fix_up_dates df t = Ok out)
  /\ ((exists r, In r rows /\ ~ In (e_plant_id_eia r) (map fst t)) ->
      exists missing,
        fix_up_dates df t = Raise (ValueError_utc_offset_missing missing)
        /\ missing =
           unique (filter (fun p => negb (registered t p))
                     (map e_plant_id_eia rows))
        /\ NoDup missing
        /\ (forall p, In p missing <->
                      In p (map e_plant_id_eia rows) /\ ~ In p (map fst t))).
Proof.
  intros Hplant Hdate Hhour Hfree Hparse Hlocal.
  pose proof (fix_up_dates_run df t _ _ _ _
                Hplant Hdate Hhour Hfree (parsed_rows e_op_date rows Hparse))
    as Hrun.
  rewrite (naive_fits entry (fun r => parsed (e_op_date r)) e_op_hour rows Hlocal)
    in Hrun.
  rewrite notna_all_joined, missing_plants_joined in Hrun.
  split.
  - intros Hall Hutc.
    assert (Hb : forallb (registered t) (map e_plant_id_eia rows) = true).
    { apply forallb_forall. intros p Hp. apply registered_In.
      apply in_map_iff in Hp. destruct Hp as (r & <- & Hr). now apply Hall. }
    rewrite Hb in Hrun.
    rewrite (stamped_fits entry e_plant_id_eia (fun r => parsed (e_op_date r))
               e_op_hour rows t Hlocal Hutc) in Hrun.
    eauto.
  - intros (r & Hr & Hnot).
    assert (Hb : forallb (registered t) (map e_plant_id_eia rows) = false).
    { apply not_true_is_false. intros Hb.
      rewrite forallb_forall in Hb. apply Hnot, registered_In, Hb.
      now apply in_map. }
    rewrite Hb in Hrun. eexists. split; [exact Hrun|].
    split; [reflexivity|]. split; [apply unique_NoDup|].
    intros q. rewrite unique_In, filter_In, negb_true_iff.
    rewrite <- registered_In. now destruct (registered t q).
Qed.

Lemma fix_up_dates_offset_invariant_witness :
  let rows := [mkEntry 7 (Some "07-04-2016") 0; mkEntry 3 (Some "07-04-2016") 23;
               mkEntry 7 (Some "7-5-2016") 1; mkEntry 5 None 2] in
  let df := mkDataFrame 4
              [("plant_id_eia", int64 [7; 3; 7; 5]);
               ("op_date", object [Some "07-04-2016"; Some "07-04-2016";
                                   Some "7-5-2016"; None]);
               ("op_hour", int64 [0; 23; 1; 2])] in
  (exists out, fix_up_dates df [(3, 0); (5, 0); (7, - 5 * ns_per_hour)] = Ok out)
  /\ fix_up_dates df [(3, - 5 * ns_per_hour)]
     = Raise (ValueError_utc_offset_missing [7; 5]).
Proof.
  intros rows df.
  assert (Hparse : forall r, In r rows -> exists v, strptime (e_op_date r) = Ok v).
  { intros r [<-|[<-|[<-|[<-|[]]]]]; eexists; vm_compute; reflexivity. }
  assert (Hlocal : forall r day, In r rows -> parsed (e_op_date r) = Some day ->
            in_bounds (e_op_hour r * ns_per_hour) = true
            /\ in_bounds (day + e_op_hour r * ns_per_hour) = true).
  { intros r day [<-|[<-|[<-|[<-|[]]]]] H; vm_compute in H;
      try discriminate H; injection H as <-; split; vm_compute; reflexivity. }
  split.
  - apply (fix_up_dates_offset_invariant df
             [(3, 0); (5, 0); (7, - 5 * ns_per_hour)] rows
             eq_refl eq_refl eq_refl eq_refl Hparse Hlocal).
    + intros r [<-|[<-|[<-|[<-|[]]]]]; simpl; auto.
    + intros r day off [<-|[<-|[<-|[<-|[]]]]] H; vm_compute in H;
        try discriminate H; injection H as <-;
        intros [<-|[]]; vm_compute; reflexivity.
  - destruct (fix_up_dates_offset_invariant df [(3, - 5 * ns_per_hour)] rows
                eq_refl eq_refl eq_refl eq_refl Hparse Hlocal) as [_ H].
    destruct H as (missing & Hrun & Hmissing & _).
    + exists (mkEntry 7 (Some "07-04-2016") 0). split; [simpl; auto|].
      simpl. intros [H|[]]. discriminate.
    + rewrite Hrun, Hmissing. reflexivity.
Defined.

(** A batch at the end of the range of [Timestamp]: the reading of
    2262-04-11, hour 23, of a plant whose offset in the table is +1 hour.
    The date parses, the hour is an hour of the day and the plant is in the
    table; the local time is within bounds, the sum with the offset is not,
    and [fix_up_dates] raises OverflowError. *)
Lemma fix_up_dates_raises_on_overflow :
  let df := mkDataFrame 1
              [("plant_id_eia", int64 [1]);
               ("op_date", object [Some "04-11-2262"]);
               ("op_hour", int64 [23])] in
  let t := [(1, ns_per_hour)] in
  (forall p, In p [1] -> In p (map fst t))
  /\ strptime (Some "04-11-2262") = Ok (Some (utc 2262 4 11 0 0 0))
  /\ in_bounds (utc 2262 4 11 0 0 0 + 23 * ns_per_hour) = true
  /\ fix_up_dates df t = Raise OverflowError
  /\ ~ (exists out, fix_up_dates df t = Ok out).
Proof.
  intros df t.
  assert (H : fix_up_dates df t = Raise OverflowError)
    by (vm_compute; reflexivity).
  split; [|split; [|split; [|split]]].
  - intros p [<-|[]]. simpl. auto.
  - vm_compute. reflexivity.
  - vm_compute. reflexivity.
  - exact H.
  - intros [out Hout]. rewrite H in Hout. discriminate Hout.
Qed.

(** ** The timestamp *)

(** C2, on the code.  For the reading of 2016-07-04, hour 23, of a plant
    whose offset in the table is -5 hours, [fix_up_dates] adds the offset to
    the local time and gives 2016-07-04T18:00:00Z; the instant
    2016-07-05T04:00:00Z is ten hours later. *)
Theorem fix_up_dates_adds_the_offset :
  fix_up_dates
    (mkDataFrame 1
       [("plant_id_eia", int64 [1]);
        ("op_date", object [Some "07-04-2016"]);
        ("op_hour", int64 [23])])
    [(1, - 5 * ns_per_hour)]
  = Ok (mkDataFrame 1
          [("plant_id_eia", int64 [1]);
           ("operating_datetime_utc",
            datetime64_utc [Some (utc 2016 7 4 18 0 0)])])
  /\ utc 2016 7 5 4 0 0 = utc 2016 7 4 18 0 0 + 10 * ns_per_hour.
Proof. split; vm_compute; reflexivity. Qed.

(** C10.  The hour is not checked against the hours of a day.  For readings
    with any integer hours whose plants are keys of the table and whose
    dates parse, as long as the hours as a duration, the date plus the hours
    and that plus the offset are within the bounds of [Timestamp],
    [fix_up_dates] returns a frame, and its [operating_datetime_utc] is, for
    each reading and each row of the table with its plant, midnight of the
    date plus the hour times one hour plus the offset.  Hour 24 of
    2016-07-04 with offset 0 is 2016-07-05T00:00:00Z. *)
Theorem fix_up_dates_no_hour_check
    (df : DataFrame) (t : offsets) (rows : list reading) :
  lookup "plant_id_eia" (columns df) = Some (int64 (map r_plant_id_eia rows)) ->
  lookup "op_date" (columns df) =
    Some (object (map (fun r => Some (r_op_date r)) rows)) ->
  lookup "op_hour" (columns df) = Some (int64 (map r_op_hour rows)) ->
  contains df "utc_offset" = false ->
  (forall r, In r rows ->
     strptime (Some (r_op_date r)) = Ok (Some (midnight r))) ->
  (forall r, In r rows -> In (r_plant_id_eia r) (map fst t)) ->
  (forall r, In r rows ->
     in_bounds (r_op_hour r * ns_per_hour) = true
     /\ in_bounds (midnight r + r_op_hour r * ns_per_hour) = true) ->
  (forall r utc_offset,
     In r rows -> In utc_offset (matches t (r_plant_id_eia r)) ->
     in_bounds (midnight r + r_op_hour r * ns_per_hour + utc_offset) = true) ->
  (exists out,
     fix_up_dates df t = Ok out
     /\ lookup "operating_datetime_utc" (columns out) =
        Some (datetime64_utc
                (flat_map
                   (fun r =>
                      map (fun utc_offset =>
                             Some (midnight r + r_op_hour r * ns_per_hour
                                   + utc_offset))
                        (matches t (r_plant_id_eia r)))
                   rows)))
  /\ fix_up_dates
       (mkDataFrame 1
          [("plant_id_eia", int64 [1]);
           ("op_date", object [Some "07-04-2016"]);
           ("op_hour", int64 [24])])
       [(1, 0)]
     = Ok (mkDataFrame 1
             [("plant_id_eia", int64 [1]);
              ("operating_datetime_utc",
               datetime64_utc [Some (utc 2016 7 5 0 0 0)])]).
Proof.
  intros Hplant Hdate Hhour Hfree Hparse Hreg Hlocal Hutc.
  split; [|vm_compute; reflexivity].
  set (day := fun r : reading => Some (midnight r)).
  assert (Hmid : mapM strptime (map (fun r => Some (r_op_date r)) rows)
                 = Ok (map day rows)).
  { revert Hparse. clear.
    induction rows as [|r rows IH]; intros H; cbn [map mapM].
    - reflexivity.
    - rewrite (H r (or_introl eq_refl)). cbn [bind].
      rewrite IH; [reflexivity|]. intros; apply H; now right. }
  assert (Hlocal' : forall r d, In r rows -> day r = Some d ->
            in_bounds (r_op_hour r * ns_per_hour) = true
            /\ in_bounds (d + r_op_hour r * ns_per_hour) = true).
  { intros r d Hr [= <-]. now apply Hlocal. }
  assert (Hutc' : forall r d off, In r rows -> day r = Some d ->
            In off (matches t (r_plant_id_eia r)) ->
            in_bounds (d + r_op_hour r * ns_per_hour + off) = true).
  { intros r d off Hr [= <-]. now apply Hutc. }
  pose proof (fix_up_dates_run df t _ _ _ _
                Hplant Hdate Hhour Hfree Hmid) as Hrun.
  rewrite (naive_fits reading day r_op_hour rows Hlocal') in Hrun.
  rewrite notna_all_joined in Hrun.
  assert (Hb : forallb (registered t) (map r_plant_id_eia rows) = true).
  { apply forallb_forall. intros p Hp. apply registered_In.
    apply in_map_iff in Hp. destruct Hp as (r & <- & Hr). now apply Hreg. }
  rewrite Hb in Hrun.
  rewrite (stamped_fits reading r_plant_id_eia day r_op_hour rows t
             Hlocal' Hutc') in Hrun.
  eexists. split; [exact Hrun|].
  rewrite resolved_operating_datetime_utc.
  now rewrite (stamped_rows reading r_plant_id_eia day r_op_hour rows t
                 Hlocal' Hreg Hutc').
Qed.

Lemma fix_up_dates_no_hour_check_witness :
  let rows := [mkReading 3 "07-04-2016" 2016 7 4 24;
               mkReading 3 "12-31-2015" 2015 12 31 (-1)] in
  let df := mkDataFrame 2
              [("plant_id_eia", int64 [3; 3]);
               ("op_date", object [Some "07-04-2016"; Some "12-31-2015"]);
               ("op_hour", int64 [24; -1])] in
  exists out,
    fix_up_dates df [(3, 0)] = Ok out
    /\ lookup "operating_datetime_utc" (columns out) =
       Some (datetime64_utc
               [Some (utc 2016 7 5 0 0 0); Some (utc 2015 12 30 23 0 0)]).
Proof.
  intros rows df.
  assert (Hparse : forall r, In r rows ->
             strptime (Some (r_op_date r)) = Ok (Some (midnight r))).
  { intros r [<-|[<-|[]]]; vm_compute; reflexivity. }
  assert (Hreg : forall r, In r rows -> In (r_plant_id_eia r) (map fst [(3, 0)])).
  { intros r [<-|[<-|[]]]; simpl; auto. }
  assert (Hlocal : forall r, In r rows ->
            in_bounds (r_op_hour r * ns_per_hour) = true
            /\ in_bounds (midnight r + r_op_hour r * ns_per_hour) = true).
  { intros r [<-|[<-|[]]]; split; vm_compute; reflexivity. }
  assert (Hutc : forall r utc_offset,
            In r rows -> In utc_offset (matches [(3, 0)] (r_plant_id_eia r)) ->
            in_bounds (midnight r + r_op_hour r * ns_per_hour + utc_offset)
            = true).
  { intros r off [<-|[<-|[]]] [<-|[]]; vm_compute; reflexivity. }
  destruct (fix_up_dates_no_hour_check df [(3, 0)] rows
              eq_refl eq_refl eq_refl eq_refl Hparse Hreg Hlocal Hutc)
    as [(out & Hrun & Hcol) _].
  exists out. split; [exact Hrun|].
  rewrite Hcol. vm_compute. reflexivity.
Defined.

(** An hour that takes the local time out of the range: the reading of
    2016-07-04 at hour 2200000, some 251 years of hours, of a plant whose
    offset in the table is 0.  The date parses and the plant is in the
    table; [fix_up_dates] raises OverflowError and returns no frame. *)
Lemma fix_up_dates_raises_on_large_hour :
  let df := mkDataFrame 1
              [("plant_id_eia", int64 [1]);
               ("op_date", object [Some "07-04-2016"]);
               ("op_hour", int64 [2200000])] in
  let t := [(1, 0)] in
  strptime (Some "07-04-2016") = Ok (Some (utc 2016 7 4 0 0 0))
  /\ (forall p, In p [1] -> In p (map fst t))
  /\ in_bounds (utc 2016 7 4 0 0 0 + 2200000 * ns_per_hour) = false
  /\ fix_up_dates df t = Raise OverflowError
  /\ ~ (exists out, fix_up_dates df t = Ok out).
Proof.
  intros df t.
  assert (H : fix_up_dates df t = Raise OverflowError)
    by (vm_compute; reflexivity).
  split; [|split; [|split; [|split]]].
  - vm_compute. reflexivity.
  - intros p [<-|[]]. simpl. auto.
  - vm_compute. reflexivity.
  - exact H.
  - intros [out Hout]. rewrite H in Hout. discriminate Hout.
Qed.

(** ** The table of offsets *)

Section Registry.

Variable tzinfo : Type.
Variable pytz_timezone : string -> option tzinfo.
Variable localize_utcoffset : tzinfo -> Z * Z * Z -> Z.

Local Abbreviation load :=
  (_load_plant_utc_offset tzinfo pytz_timezone localize_utcoffset).

(** C7, as the code has it.  When every timezone name of a row that has a
    plant id is a name pytz knows, [_load_plant_utc_offset] returns a table.
    The table has one row for each row of plants_entity_eia that has both a
    plant id and a timezone, in the same order, and none for the others; the
    row holds that plant id and the offset from UTC its zone has on
    2011-01-01, whatever the date of the readings.  Distinct plant ids give
    distinct keys. *)
Theorem load_plant_utc_offset_known_zones (pudl_engine : list plants_entity_eia) :
  (forall r p tz, In r pudl_engine ->
     plant_id_eia r = Some p -> timezone r = Some tz ->
     pytz_timezone tz <> None) ->
  exists table,
    load pudl_engine = Ok table
    /\ Forall2
         (fun r entry =>
            plant_id_eia r = Some (fst entry)
            /\ exists tz zone,
                 timezone r = Some tz
                 /\ pytz_timezone tz = Some zone
                 /\ snd entry = localize_utcoffset zone (2011, 1, 1))
         (kept pudl_engine) table
    /\ (forall r, In r pudl_engine -> timezone r = None ->
        ~ In r (kept pudl_engine))
    /\ (NoDup (map plant_id_eia (kept pudl_engine)) -> NoDup (map fst table)).
Proof.
  intros Hknown.
  assert (Hmain : exists table,
             load pudl_engine = Ok table
             /\ Forall2
                  (fun r entry =>
                     plant_id_eia r = Some (fst entry)
                     /\ exists tz zone,
                          timezone r = Some tz
                          /\ pytz_timezone tz = Some zone
                          /\ snd entry = localize_utcoffset zone (2011, 1, 1))
                  (kept pudl_engine) table).
  { unfold _load_plant_utc_offset.
    induction pudl_engine as [|r rows IH]; cbn [dropna flat_map kept filter].
    - exists []. split; [reflexivity | constructor].
    - destruct IH as (table & Hrun & Hrel).
      { intros r' p tz Hin. apply Hknown. now right. }
      fold (dropna rows) in *. fold (kept rows).
      destruct (plant_id_eia r) as [p|] eqn:Ep;
        [destruct (timezone r) as [tz|] eqn:Etz|]; cbn [app].
      + cbn [mapM snd fst]. unfold utc_offset_of at 1.
        pose proof (Hknown r p tz (or_introl eq_refl) Ep Etz) as Hz.
        destruct (pytz_timezone tz) as [zone|] eqn:Ezone; [|congruence].
        cbn [bind]. rewrite Hrun. cbn [bind].
        eexists. split; [reflexivity|]. constructor; [|exact Hrel].
        cbn [fst snd]. split; [exact Ep|]. now exists tz, zone.
      + now exists table.
      + now exists table. }
  destruct Hmain as (table & Hrun & Hrel).
  exists table. split; [exact Hrun|]. split; [exact Hrel|]. split.
  - intros r _ Hnone Hin. apply filter_In in Hin. destruct Hin as [_ Hin].
    rewrite Hnone in Hin. now destruct (plant_id_eia r).
  - assert (Hkeys : map plant_id_eia (kept pudl_engine)
                    = map (fun e => Some (fst e)) table).
    { clear - Hrel. induction Hrel as [|r e l l' [He _] _ IH]; simpl.
      - reflexivity.
      - now rewrite He, IH. }
    rewrite Hkeys. clear. induction table as [|e table IH]; simpl; intros H.
    + constructor.
    + inversion H as [|x l Hnot Hrest]; subst. constructor; [|now apply IH].
      intros Hin. apply Hnot.
      now apply (in_map (fun z => Some z)) in Hin; rewrite map_map in Hin.
Qed.

End Registry.

Lemma load_plant_utc_offset_known_zones_witness :
  _load_plant_utc_offset Z sample_timezone sample_utcoffset
    [mkPlant (Some 3) (Some "America/New_York");
     mkPlant (Some 9) None;
     mkPlant None (Some "UTC");
     mkPlant (Some 5) (Some "America/Chicago")]
  = Ok [(3, - 5 * ns_per_hour); (5, - 6 * ns_per_hour)].
Proof.
  destruct (load_plant_utc_offset_known_zones Z sample_timezone sample_utcoffset
              [mkPlant (Some 3) (Some "America/New_York");
               mkPlant (Some 9) None;
               mkPlant None (Some "UTC");
               mkPlant (Some 5) (Some "America/Chicago")])
    as (table & Hrun & _).
  - intros r p tz [<-|[<-|[<-|[<-|[]]]]]; simpl; intros [= <-] [= <-];
      vm_compute; discriminate.
  - vm_compute in Hrun. injection Hrun as <-. vm_compute. reflexivity.
Defined.

(** A table with a timezone that is no zone of the tz database: pytz raises,
    and so does the loader. *)
Lemma load_plant_utc_offset_unknown_zone :
  _load_plant_utc_offset Z sample_timezone sample_utcoffset
    [mkPlant (Some 3) (Some "America/New_York");
     mkPlant (Some 4) (Some "Mars/Olympus_Mons")]
  = Raise (UnknownTimeZoneError "Mars/Olympus_Mons").
Proof. vm_compute. reflexivity. Qed.

(** ** The pipeline *)

Lemma for_each_yields {X Y : Type} (l : list X) (body : X -> gen Y) (f : X -> Y) :
  (forall x, In x l -> body x = yield (f x)) ->
  for_each l body = mkGen (map f l) None.
Proof.
  induction l as [|x l IH]; intros H; cbn [for_each map]; [reflexivity|].
  rewrite (H x (or_introl eq_refl)), IH by (intros; apply H; now right).
  reflexivity.
Qed.

Lemma for_each_nested {X Y : Type} (ls : list (list X))
    (inner : list X -> gen Y) (f : X -> Y) :
  (forall l, In l ls -> inner l = mkGen (map f l) None) ->
  for_each ls inner = mkGen (map f (List.concat ls)) None.
Proof.
  induction ls as [|l ls IH]; intros H; cbn [for_each List.concat]; [reflexivity|].
  rewrite (H l (or_introl eq_refl)), IH by (intros; apply H; now right).
  unfold andThen. cbn [raised yielded]. now rewrite map_app.
Qed.

Lemma concat_singletons {X : Type} (ls : list (list X)) :
  (forall l, In l ls -> List.length l = 1%nat) ->
  List.length (List.concat ls) = List.length ls.
Proof.
  induction ls as [|l ls IH]; intros H; cbn [List.concat]; [reflexivity|].
  rewrite length_app, (H l (or_introl eq_refl)), IH by (intros; apply H; now right).
  reflexivity.
Qed.

Lemma Forall2_map_r {X Y : Type} (P : X -> Y -> Prop) (f : X -> Y) (l : list X) :
  (forall x, In x l -> P x (f x)) -> Forall2 P l (map f l).
Proof.
  induction l as [|x l IH]; intros H; cbn [map]; constructor.
  - apply H. now left.
  - apply IH. intros; apply H; now right.
Qed.

(** A frame without missing values is its own [fillna]. *)
Lemma fillna_without_missing (value : list (string * fill_value)) (df : DataFrame) :
  forallb (fun kv => negb (hasnans (snd kv))) (columns df) = true ->
  fillna value df = Ok df.
Proof.
  intros H. induction value as [|[k v] rest IH]; cbn [fillna]; [reflexivity|].
  rewrite contains_lookup. unfold getitem.
  destruct (lookup k (columns df)) as [s|] eqn:E; [|exact IH].
  cbn [bind]. unfold Series_fillna.
  assert (Hs : hasnans s = false).
  { rewrite forallb_forall in H. clear - E H.
    induction (columns df) as [|[k0 s0] cols IHc]; [discriminate|].
    cbn [lookup] in E. destruct (String.eqb k0 k).
    - injection E as <-. apply negb_true_iff.
      apply (H (k0, s0)). now left.
    - apply IHc; [|exact E]. intros; apply H; now right. }
  rewrite Hs. cbn [negb bind]. now rewrite setitem_same.
Qed.

Section Pipeline.

Variable tzinfo : Type.
Variable pytz_timezone : string -> option tzinfo.
Variable localize_utcoffset : tzinfo -> Z * Z * Z -> Z.
Variable epacems_columns_fill_na_dict : list (string * fill_value).
Variable yr_st : Type.

Local Abbreviation load :=
  (_load_plant_utc_offset tzinfo pytz_timezone localize_utcoffset).
Local Abbreviation run :=
  (transform tzinfo pytz_timezone localize_utcoffset
     epacems_columns_fill_na_dict yr_st).
Local Abbreviation cleaned := (cleaned epacems_columns_fill_na_dict).

Lemma cleaned_of_run (plant_utc_offset : offsets) (raw_df out : DataFrame) :
  (df <- fillna epacems_columns_fill_na_dict raw_df ;;
   df <- pipe harmonize_eia_epa_orispl df ;;
   df <- fix_up_dates df plant_utc_offset ;;
   df <- pipe add_facility_id_unit_id_epa df ;;
   correct_gross_load_mw df) = Ok out ->
  cleaned plant_utc_offset raw_df out.
Proof.
  unfold cleaned.
  destruct (fillna epacems_columns_fill_na_dict raw_df) as [filled|];
    cbn [bind pipe]; [|discriminate].
  destruct (fix_up_dates (harmonize_eia_epa_orispl filled) plant_utc_offset)
    as [resolved'|] eqn:E; cbn [bind pipe]; [|discriminate].
  intros H. exists filled, resolved'. repeat split; assumption.
Qed.

(** C3.  When the table of offsets loads and no stage raises on any raw
    frame of the stream, [transform] ends without raising and yields one
    dict for each raw frame, in the order of the stream; the dict holds,
    under the key of the raw frame, the frame that [fillna], then
    [harmonize_eia_epa_orispl], then [fix_up_dates] with the table loaded
    once, then [add_facility_id_unit_id_epa], then [correct_gross_load_mw]
    make of it.  A stream of N dicts of one frame each yields N dicts. *)
Theorem transform_one_batch_per_input
    (pudl_engine : list plants_entity_eia)
    (epacems_raw_dfs : list (list (yr_st * DataFrame)))
    (plant_utc_offset : offsets) :
  load pudl_engine = Ok plant_utc_offset ->
  (forall item, In item (List.concat epacems_raw_dfs) ->
     exists out, cleaned plant_utc_offset (snd item) out) ->
  exists outs,
    run pudl_engine epacems_raw_dfs = mkGen outs None
    /\ Forall2
         (fun item yielded_dict =>
            exists out,
              cleaned plant_utc_offset (snd item) out
              /\ yielded_dict = [(fst item, out)])
         (List.concat epacems_raw_dfs) outs
    /\ List.length outs = List.length (List.concat epacems_raw_dfs)
    /\ ((forall d, In d epacems_raw_dfs -> List.length d = 1%nat) ->
        List.length outs = List.length epacems_raw_dfs).
Proof.
  intros Hload Hclean.
  set (stages := fun raw_df : DataFrame =>
         df <- fillna epacems_columns_fill_na_dict raw_df ;;
         df <- pipe harmonize_eia_epa_orispl df ;;
         df <- fix_up_dates df plant_utc_offset ;;
         df <- pipe add_facility_id_unit_id_epa df ;;
         correct_gross_load_mw df).
  set (f := fun item : yr_st * DataFrame =>
         match stages (snd item) with
         | Ok df => [(fst item, df)]
         | Raise _ => []
         end).
  assert (Hstages : forall item, In item (List.concat epacems_raw_dfs) ->
            exists out, cleaned plant_utc_offset (snd item) out
                        /\ stages (snd item) = Ok out).
  { intros item Hin. destruct (Hclean item Hin) as [out Hout].
    exists out. split; [exact Hout|].
    destruct Hout as (filled & resolved' & H1 & H2 & H3).
    unfold stages. rewrite H1. cbn [bind pipe]. rewrite H2. cbn [bind].
    exact H3. }
  exists (map f (List.concat epacems_raw_dfs)).
  split; [|split; [|split]].
  - unfold transform. rewrite Hload.
    apply for_each_nested. intros d Hd.
    apply for_each_yields. intros item Hitem.
    assert (Hin : In item (List.concat epacems_raw_dfs)).
    { apply in_concat. now exists d. }
    destruct (Hstages item Hin) as (out & _ & Hout).
    unfold f. fold (stages (snd item)). now rewrite Hout.
  - apply Forall2_map_r. intros item Hin.
    destruct (Hstages item Hin) as (out & Hc & Hout).
    exists out. split; [exact Hc|]. unfold f. now rewrite Hout.
  - apply length_map.
  - intros Hone. rewrite length_map. now apply concat_singletons.
Qed.

(** C8.  With the table of offsets {1: 0 h} and a raw frame of the one
    reading of plant 1 on 2015-01-01, hour 0, gross load 3200, without
    [facility_id] and [unit_id_epa], [transform] yields one dict and ends;
    its frame has plant 1, gross load 3.2, the instant 2015-01-01T00:00:00Z,
    and the missing value in [facility_id] and in [unit_id_epa]; it has
    neither [op_date] nor [op_hour]. *)
Theorem transform_end_to_end
    (pudl_engine : list plants_entity_eia) (key : yr_st) :
  load pudl_engine = Ok [(1, 0)] ->
  let raw_df :=
    mkDataFrame 1
      [("plant_id_eia", int64 [1]);
       ("op_date", object [Some "01-01-2015"]);
       ("op_hour", int64 [0]);
       ("gross_load_mw", float64 [3200%float])] in
  let out :=
    mkDataFrame 1
      [("plant_id_eia", int64 [1]);
       ("gross_load_mw", float64 [0x1.999999999999ap+1%float]);   (* 3.2 *)
       ("operating_datetime_utc", datetime64_utc [Some (utc 2015 1 1 0 0 0)]);
       ("facility_id", Int64 [None]);
       ("unit_id_epa", Int64 [None])] in
  run pudl_engine [[(key, raw_df)]] = mkGen [[(key, out)]] None
  /\ contains out "op_date" = false
  /\ contains out "op_hour" = false.
Proof.
  intros Hload raw_df out. split; [|split; reflexivity].
  unfold transform. rewrite Hload.
  cbn [for_each snd fst].
  rewrite fillna_without_missing by reflexivity.
  vm_compute. reflexivity.
Qed.

End Pipeline.

Lemma transform_one_batch_per_input_witness :
  let pudl_engine :=
    [mkPlant (Some 3) (Some "America/New_York");
     mkPlant (Some 9) None;
     mkPlant (Some 5) (Some "America/Chicago")] in
  let fill := [("gross_load_mw", fill_float 0%float)] in
  let batch (p : Z) (g : float) :=
    mkDataFrame 1
      [("plant_id_eia", int64 [p]);
       ("op_date", object [Some "08-01-2008"]);
       ("op_hour", int64 [12]);
       ("gross_load_mw", float64 [g])] in
  let epacems_raw_dfs :=
    [[((2008, "NY"), batch 3 PrimFloat.nan)];
     [((2008, "IL"), batch 5 2500%float)]] in
  exists outs,
    transform Z sample_timezone sample_utcoffset fill (Z * string)
      pudl_engine epacems_raw_dfs = mkGen outs None
    /\ List.length outs = 2%nat.
Proof.
  intros pudl_engine fill batch epacems_raw_dfs.
  destruct (transform_one_batch_per_input Z sample_timezone sample_utcoffset
              fill (Z * string) pudl_engine epacems_raw_dfs
              [(3, - 5 * ns_per_hour); (5, - 6 * ns_per_hour)])
    as (outs & Hrun & _ & _ & Hlen).
  - vm_compute. reflexivity.
  - intros item Hin.
    exists (match
              df <- fillna fill (snd item) ;;
              df <- pipe harmonize_eia_epa_orispl df ;;
              df <- fix_up_dates df
                      [(3, - 5 * ns_per_hour); (5, - 6 * ns_per_hour)] ;;
              df <- pipe add_facility_id_unit_id_epa df ;;
              correct_gross_load_mw df
            with
            | Ok df => df
            | Raise _ => snd item
            end).
    apply cleaned_of_run.
    destruct Hin as [<-|[<-|[]]]; vm_compute; reflexivity.
  - exists outs. split; [exact Hrun|].
    apply Hlen. intros d [<-|[<-|[]]]; reflexivity.
Defined.

Lemma transform_end_to_end_witness :
  transform Z sample_timezone sample_utcoffset
    [("gross_load_mw", fill_float 0%float)] (Z * string)
    [mkPlant (Some 1) (Some "UTC")]
    [[((2015, "CO"),
       mkDataFrame 1
         [("plant_id_eia", int64 [1]);
          ("op_date", object [Some "01-01-2015"]);
          ("op_hour", int64 [0]);
          ("gross_load_mw", float64 [3200%float])])]]
  = mkGen
      [[((2015, "CO"),
         mkDataFrame 1
           [("plant_id_eia", int64 [1]);
            ("gross_load_mw", float64 [0x1.999999999999ap+1%float]);
            ("operating_datetime_utc",
             datetime64_utc [Some (utc 2015 1 1 0 0 0)]);
            ("facility_id", Int64 [None]);
            ("unit_id_epa", Int64 [None])])]]
      None.
Proof.
  apply (transform_end_to_end Z sample_timezone sample_utcoffset
           [("gross_load_mw", fill_float 0%float)] (Z * string)
           [mkPlant (Some 1) (Some "UTC")] (2015, "CO")).
  vm_compute. reflexivity.
Defined.

(** * Further properties of the transform *)

(** ** Missing or allowed values *)

Lemma scalar_eqb_In (values : list scalar) (x : scalar) :
  existsb (scalar_eqb x) values = true <-> In x values.
Proof.
  rewrite existsb_exists. split.
  - intros (y & Hy & Heq). destruct x, y; simpl in Heq; try discriminate.
    + apply String.eqb_eq in Heq. now subst.
    + apply Z.eqb_eq in Heq. now subst.
  - intros H. exists x. split; [exact H|]. destruct x; simpl.
    + apply String.eqb_refl.
    + apply Z.eqb_refl.
Qed.

Lemma integers_map (zs : list Z) : integers (map Int zs) = Some zs.
Proof.
  induction zs as [|z zs IH]; [reflexivity|]. cbn [map integers]. now rewrite IH.
Qed.

Lemma all_na_or_values_run (mask : list bool) :
  (if (List.length mask =? 0)%nat then Ok true
   else if forallb (fun b => b) mask then Ok true else Ok false)
  = Ok (forallb (fun b => b) mask).
Proof.
  destruct mask as [|x l]; [reflexivity|].
  cbn [List.length Nat.eqb]. now destruct (forallb (fun b => b) (x :: l)).
Qed.

(** X1.  On a column of strings, [_all_na_or_values] answers True exactly
    when every entry that is not missing is one of [values]; on a column of
    integers and a set of integers, exactly when every entry is in the set.
    It answers True on an object or float column that is empty or all
    missing, whatever [values] is. *)
Theorem all_na_or_values_iff (values : list scalar) :
  (forall l : list (option string),
      exists b, _all_na_or_values (object l) values = Ok b
                /\ (b = true <-> forall v, In (Some v) l -> In (Str v) values))
  /\ (forall l allowed : list Z,
      exists b, _all_na_or_values (int64 l) (map Int allowed) = Ok b
                /\ (b = true <-> forall z, In z l -> In z allowed))
  /\ (forall n, _all_na_or_values (object (repeat None n)) values = Ok true)
  /\ (forall n, _all_na_or_values (float64 (repeat PrimFloat.nan n)) values
                = Ok true).
Proof.
  unfold _all_na_or_values. split; [|split; [|split]].
  - intros l. cbn [notna len isin bind].
    set (kept := filter _ l).
    rewrite <- (length_map
                  (fun x : option string =>
                     match x with
                     | Some v => existsb (scalar_eqb (Str v)) values
                     | None => false
                     end) kept).
    rewrite all_na_or_values_run. eexists. split; [reflexivity|].
    rewrite forallb_forall. split.
    + intros H v Hv. apply scalar_eqb_In. apply H.
      apply in_map_iff. exists (Some v). split; [reflexivity|].
      apply filter_In. now split.
    + intros H b Hb. apply in_map_iff in Hb. destruct Hb as ([v|] & <- & Hin);
        apply filter_In in Hin; destruct Hin as [Hin Hsome];
        [|discriminate Hsome].
      now apply scalar_eqb_In, H.
  - intros l allowed. cbn [notna len isin bind]. rewrite integers_map.
    cbn [bind].
    rewrite <- (length_map (fun z => existsb (Z.eqb z) allowed) l).
    rewrite all_na_or_values_run. eexists. split; [reflexivity|].
    rewrite forallb_forall. split.
    + intros H z Hz.
      assert (Hb : existsb (Z.eqb z) allowed = true)
        by (apply H, in_map_iff; now exists z).
      apply existsb_exists in Hb. destruct Hb as (y & Hy & Heq).
      apply Z.eqb_eq in Heq. now subst.
    + intros H b Hb. apply in_map_iff in Hb. destruct Hb as (z & <- & Hz).
      apply existsb_exists. exists z. split; [now apply H | apply Z.eqb_refl].
  - intros n. cbn [notna len].
    replace (filter _ (repeat None n)) with (@nil (option string));
      [reflexivity|].
    induction n as [|n IH]; [reflexivity | exact IH].
  - intros n. cbn [notna len].
    replace (filter _ (repeat PrimFloat.nan n)) with (@nil float);
      [reflexivity|].
    induction n as [|n IH]; [reflexivity | exact IH].
Qed.

(** ** What [fix_up_dates] raises, and when *)

Lemma mapM_first_error {A B : Type} (f : A -> result B)
    (good : list A) (bad : A) (rest : list A) (e : exn) :
  (forall a, In a good -> exists b, f a = Ok b) ->
  f bad = Raise e ->
  mapM f (good ++ bad :: rest) = Raise e.
Proof.
  intros Hgood Hbad. induction good as [|a good IH]; cbn [app mapM].
  - now rewrite Hbad.
  - destruct (Hgood a (or_introl eq_refl)) as [b Hb]. rewrite Hb. cbn [bind].
    rewrite IH; [reflexivity|]. intros; apply Hgood; now right.
Qed.

Lemma renamed_lookup (cols : list (string * Series)) :
  lookup "utc_offset"
    (map (fun kv : string * Series =>
            if String.eqb (fst kv) "utc_offset"
            then ("utc_offset_x", snd kv) else kv) cols) = None.
Proof.
  induction cols as [|[k s] cols IH]; [reflexivity|].
  cbn [map fst snd]. destruct (String.eqb k "utc_offset") eqn:E.
  - cbn [lookup]. exact IH.
  - cbn [lookup]. now rewrite E.
Qed.

Lemma fix_up_dates_clash (df : DataFrame) (t : offsets)
    (ps : list Z) (ds : list (option string)) (hs : list Z)
    (mid : list (option Z)) :
  lookup "plant_id_eia" (columns df) = Some (int64 ps) ->
  lookup "op_date" (columns df) = Some (object ds) ->
  lookup "op_hour" (columns df) = Some (int64 hs) ->
  mapM strptime ds = Ok mid ->
  contains df "utc_offset" = true ->
  fix_up_dates df t =
  if overflow mid (map hours hs) then Raise OverflowError
  else Raise (KeyError "utc_offset").
Proof.
  intros Hplant Hdate Hhour Hmid Hclash.
  unfold fix_up_dates, getitem.
  rewrite Hdate. cbn [bind to_datetime]. rewrite Hmid. cbn [bind].
  rewrite Hhour. cbn [bind to_timedelta_h add].
  destruct (overflow mid (map hours hs)); [reflexivity|]. cbn [bind].
  unfold merge_left, getitem.
  rewrite lookup_setitem_other, Hplant by discriminate. cbn [bind].
  rewrite contains_setitem_other, Hclash by discriminate.
  cbn [bind columns]. rewrite lookup_app, renamed_lookup. reflexivity.
Qed.

(** Every run of [fix_up_dates] that returns a frame is a run on a frame
    with the three columns, dates that parse and plants that are all in the
    table. *)
Lemma fix_up_dates_Ok_inv (df : DataFrame) (t : offsets) (out : DataFrame) :
  fix_up_dates df t = Ok out ->
  exists ps ds hs mid,
    lookup "plant_id_eia" (columns df) = Some (int64 ps)
    /\ lookup "op_date" (columns df) = Some (object ds)
    /\ lookup "op_hour" (columns df) = Some (int64 hs)
    /\ contains df "utc_offset" = false
    /\ mapM strptime ds = Ok mid
    /\ forallb (registered t) ps = true
    /\ out = resolved_frame df t ps mid hs.
Proof.
  intros H. pose proof H as H0.
  unfold fix_up_dates, getitem in H.
  destruct (lookup "op_date" (columns df)) as [[| |ds| | |]|] eqn:Hdate;
    try discriminate H.
  cbn [bind to_datetime] in H.
  destruct (mapM strptime ds) as [mid|] eqn:Hmid; [|discriminate H].
  cbn [bind] in H.
  destruct (lookup "op_hour" (columns df)) as [[hs| | | | |]|] eqn:Hhour;
    try discriminate H.
  cbn [bind to_timedelta_h add] in H.
  destruct (overflow mid (map hours hs)) eqn:Hsum; [discriminate H|].
  cbn [bind] in H. unfold merge_left, getitem in H.
  rewrite lookup_setitem_other in H by discriminate.
  destruct (lookup "plant_id_eia" (columns df)) as [[ps| | | | |]|] eqn:Hplant;
    try discriminate H.
  clear H.
  destruct (contains df "utc_offset") eqn:Hfree.
  - rewrite (fix_up_dates_clash df t ps ds hs mid), Hsum in H0 by assumption.
    discriminate H0.
  - rewrite (fix_up_dates_run df t ps ds hs mid), Hsum in H0 by assumption.
    rewrite notna_all_joined in H0.
    destruct (forallb (registered t) ps) eqn:Hreg; [|discriminate H0].
    destruct (overflow _ (flat_map (joined t) ps)); [discriminate H0|].
    exists ps, ds, hs, mid. injection H0 as <-. repeat split; assumption.
Qed.

(** X2.  [fix_up_dates] reads its columns in the order [op_date],
    [op_hour], [plant_id_eia]: a frame without [op_date] raises
    KeyError('op_date'); one whose dates parse but that has no [op_hour]
    raises KeyError('op_hour'); one that has both but no [plant_id_eia]
    raises OverflowError when the sum of a date and its hours leaves the
    64-bit range, and KeyError('plant_id_eia') otherwise; in each case
    whatever the table of offsets holds. *)
Theorem fix_up_dates_missing_column (df : DataFrame) (t : offsets) :
  (lookup "op_date" (columns df) = None ->
   fix_up_dates df t = Raise (KeyError "op_date"))
  /\ (forall ds mid,
        lookup "op_date" (columns df) = Some (object ds) ->
        mapM strptime ds = Ok mid ->
        lookup "op_hour" (columns df) = None ->
        fix_up_dates df t = Raise (KeyError "op_hour"))
  /\ (forall ds mid hs,
        lookup "op_date" (columns df) = Some (object ds) ->
        mapM strptime ds = Ok mid ->
        lookup "op_hour" (columns df) = Some (int64 hs) ->
        lookup "plant_id_eia" (columns df) = None ->
        fix_up_dates df t =
        if overflow mid (map hours hs) then Raise OverflowError
        else Raise (KeyError "plant_id_eia")).
Proof.
  unfold fix_up_dates, getitem. split; [|split].
  - intros ->. reflexivity.
  - intros ds mid -> Hmid ->. cbn [bind to_datetime]. now rewrite Hmid.
  - intros ds mid hs -> Hmid -> Hplant. cbn [bind to_datetime].
    rewrite Hmid. cbn [bind to_timedelta_h add].
    destruct (overflow mid (map hours hs)); [reflexivity|]. cbn [bind].
    unfold merge_left, getitem.
    now rewrite lookup_setitem_other, Hplant by discriminate.
Qed.

Lemma fix_up_dates_missing_column_witness :
  fix_up_dates
    (mkDataFrame 1 [("plant_id_eia", int64 [1]); ("op_hour", int64 [0])])
    [(1, 0)] = Raise (KeyError "op_date")
  /\ fix_up_dates
       (mkDataFrame 1
          [("plant_id_eia", int64 [1]); ("op_date", object [Some "1-1-2015"])])
       [] = Raise (KeyError "op_hour")
  /\ fix_up_dates
       (mkDataFrame 1
          [("op_date", object [Some "1-1-2015"]); ("op_hour", int64 [0])])
       [(1, 0)] = Raise (KeyError "plant_id_eia")
  /\ fix_up_dates
       (mkDataFrame 1
          [("op_date", object [Some "1-1-2015"]); ("op_hour", int64 [2200000])])
       [(1, 0)] = Raise OverflowError.
Proof.
  split; [|split; [|split]].
  - apply (fix_up_dates_missing_column _ [(1, 0)]). reflexivity.
  - apply (proj1 (proj2 (fix_up_dates_missing_column _ []))
             [Some "1-1-2015"] [Some (utc 2015 1 1 0 0 0)]);
      vm_compute; reflexivity.
  - rewrite (proj2 (proj2 (fix_up_dates_missing_column _ [(1, 0)]))
               [Some "1-1-2015"] [Some (utc 2015 1 1 0 0 0)] [0]);
      vm_compute; reflexivity.
  - rewrite (proj2 (proj2 (fix_up_dates_missing_column _ [(1, 0)]))
               [Some "1-1-2015"] [Some (utc 2015 1 1 0 0 0)] [2200000]);
      vm_compute; reflexivity.
Defined.

(** X3.  The dates are parsed before the table is consulted: when an entry
    of [op_date] does not parse and the entries before it do,
    [fix_up_dates] raises the error of that entry, whatever the other
    columns, the plant ids and the table are. *)
Theorem fix_up_dates_date_error_first
    (df : DataFrame) (t : offsets)
    (good : list (option string)) (bad : option string)
    (rest : list (option string)) (e : exn) :
  lookup "op_date" (columns df) = Some (object (good ++ bad :: rest)) ->
  (forall s, In s good -> exists v, strptime s = Ok v) ->
  strptime bad = Raise e ->
  fix_up_dates df t = Raise e.
Proof.
  intros Hdate Hgood Hbad. unfold fix_up_dates, getitem.
  rewrite Hdate. cbn [bind to_datetime].
  now rewrite (mapM_first_error strptime good bad rest e Hgood Hbad).
Qed.

Lemma fix_up_dates_date_error_first_witness :
  fix_up_dates
    (mkDataFrame 3
       [("plant_id_eia", int64 [8; 9; 9]);
        ("op_date", object [Some "02-28-2015"; Some "02-29-2015";
                            Some "2015"])])
    []
  = Raise (ValueError_time_data "02-29-2015").
Proof.
  apply (fix_up_dates_date_error_first _ []
           [Some "02-28-2015"] (Some "02-29-2015") [Some "2015"]).
  - reflexivity.
  - intros s [<-|[]]. eexists. vm_compute. reflexivity.
  - vm_compute. reflexivity.
Defined.

(** X4.  A frame that already has a column named [utc_offset] cannot be
    resolved: the merge renames that column, and [fix_up_dates] raises
    KeyError('utc_offset') even when every plant is in the table, unless
    the sum of a date and its hours has left the 64-bit range before, which
    raises OverflowError. *)
Theorem fix_up_dates_utc_offset_column
    (df : DataFrame) (t : offsets)
    (ps : list Z) (ds : list (option string)) (hs : list Z)
    (mid : list (option Z)) :
  lookup "plant_id_eia" (columns df) = Some (int64 ps) ->
  lookup "op_date" (columns df) = Some (object ds) ->
  lookup "op_hour" (columns df) = Some (int64 hs) ->
  mapM strptime ds = Ok mid ->
  contains df "utc_offset" = true ->
  fix_up_dates df t =
  if overflow mid (map hours hs) then Raise OverflowError
  else Raise (KeyError "utc_offset").
Proof. exact (fix_up_dates_clash df t ps ds hs mid). Qed.

Lemma fix_up_dates_utc_offset_column_witness :
  fix_up_dates
    (mkDataFrame 1
       [("plant_id_eia", int64 [1]);
        ("op_date", object [Some "01-01-2015"]);
        ("op_hour", int64 [0]);
        ("utc_offset", timedelta64 [Some 0])])
    [(1, 0)]
  = Raise (KeyError "utc_offset").
Proof.
  rewrite (fix_up_dates_utc_offset_column _ [(1, 0)]
             [1] [Some "01-01-2015"] [0] [Some (utc 2015 1 1 0 0 0)]);
    vm_compute; reflexivity.
Defined.

(** ** The frame [fix_up_dates] returns *)









(** ** Rows and pass-through columns *)

Lemma matches_absent (t : offsets) (p : Z) :
  ~ In p (map fst t) -> matches t p = [].
Proof.
  intros H. pose proof (matches_registered t p) as Hm.
  destruct (registered t p) eqn:E.
  - apply registered_In in E. contradiction.
  - now destruct (matches t p).
Qed.

Lemma matches_NoDup (t : offsets) (p : Z) :
  NoDup (map fst t) -> (List.length (matches t p) <= 1)%nat.
Proof.
  induction t as [|r t IH]; intros H; [simpl; lia|].
  cbn [map] in H. inversion H as [|k ks Hnot Hrest]; subst.
  unfold matches. cbn [filter]. destruct (fst r =? p) eqn:E.
  - apply Z.eqb_eq in E. subst p. cbn [map List.length].
    fold (matches t (fst r)). now rewrite (matches_absent t (fst r) Hnot).
  - now apply IH.
Qed.

Lemma copies_one (t : offsets) (p : Z) :
  NoDup (map fst t) -> copies t p = 1%nat.
Proof.
  intros H. pose proof (matches_NoDup t p H) as Hle. unfold copies.
  destruct (matches t p) as [|m [|m' ms]]; simpl in *; [reflexivity..|lia].
Qed.

Lemma expand_ones {A : Type} (t : offsets) (ps : list Z) (l : list A) :
  NoDup (map fst t) -> List.length l = List.length ps ->
  expand (map (copies t) ps) l = l.
Proof.
  intros H. revert l. induction ps as [|p ps IH]; intros [|x l] Hlen;
    try discriminate; [reflexivity|].
  cbn [map]. rewrite expand_cons, copies_one by exact H. cbn [repeat app].
  f_equal. apply IH. now injection Hlen.
Qed.

Lemma Series_expand_ones (t : offsets) (ps : list Z) (s : Series) :
  NoDup (map fst t) -> size s = List.length ps ->
  Series_expand (map (copies t) ps) s = s.
Proof.
  intros H Hlen. destruct s; cbn [Series_expand size] in *;
    now rewrite expand_ones.
Qed.

Lemma flat_map_length_sum {A B : Type} (f : A -> list B) (g : A -> nat)
    (l : list A) :
  (forall a, In a l -> List.length (f a) = g a) ->
  List.length (flat_map f l) = list_sum (map g l).
Proof.
  induction l as [|a l IH]; intros H; [reflexivity|].
  cbn [flat_map map list_sum]. rewrite length_app, (H a (or_introl eq_refl)).
  rewrite IH; [reflexivity|]. intros; apply H; now right.
Qed.

Lemma joined_rows_ones (t : offsets) (ps : list Z) :
  NoDup (map fst t) ->
  List.length (flat_map (joined t) ps) = List.length ps.
Proof.
  intros H. induction ps as [|p ps IH]; [reflexivity|].
  cbn [flat_map]. rewrite length_app, joined_length, copies_one, IH by exact H.
  reflexivity.
Qed.

Lemma resolved_lookup (df : DataFrame) (t : offsets) (ps : list Z)
    (mid : list (option Z)) (hs : list Z) (c : string) :
  consumed c = false -> c <> "operating_datetime_utc" -> c <> "utc_offset" ->
  lookup c (columns (resolved_frame df t ps mid hs)) =
  option_map (Series_expand (map (copies t) ps)) (lookup c (columns df)).
Proof.
  intros Hc Hne Hne'. unfold consumed in Hc. cbn [existsb] in Hc.
  apply orb_false_iff in Hc. destruct Hc as [Hd Hc].
  apply orb_false_iff in Hc. destruct Hc as [Hh Hc].
  apply orb_false_iff in Hc. destruct Hc as [Hn _].
  apply String.eqb_neq in Hd, Hh, Hn.
  cbn [resolved_frame columns]. unfold drop.
  rewrite !lookup_filter_other by assumption.
  rewrite lookup_setitem_other by assumption.
  now apply merged_lookup.
Qed.

(** X6.  When no plant id occurs twice in the table of offsets, a frame
    that [fix_up_dates] accepts keeps its rows: the result has as many rows
    as the input, and every column other than the date, the hour and the
    timestamp is returned entry for entry. *)
Theorem fix_up_dates_keeps_rows (df : DataFrame) (t : offsets) (out : DataFrame) :
  fix_up_dates df t = Ok out ->
  NoDup (map fst t) ->
  rectangular df ->
  nrows out = nrows df
  /\ (forall c, consumed c = false -> c <> "operating_datetime_utc" ->
      lookup c (columns out) = lookup c (columns df)).
Proof.
  intros H Hkeys Hrect.
  destruct (fix_up_dates_Ok_inv df t out H)
    as (ps & ds & hs & mid & Hplant & _ & _ & Hfree & _ & _ & ->).
  pose proof (Hrect _ _ Hplant) as Hlen. cbn [size] in Hlen.
  split.
  - cbn [resolved_frame nrows merged_frame].
    now rewrite joined_rows_ones, Hlen.
  - intros c Hc Hne.
    destruct (String.eqb c "utc_offset") eqn:E.
    + apply String.eqb_eq in E. subst c.
      cbn [resolved_frame columns]. unfold drop at 1.
      rewrite lookup_filter_same. rewrite contains_lookup in Hfree.
      now destruct (lookup "utc_offset" (columns df)).
    + apply String.eqb_neq in E. rewrite resolved_lookup by assumption.
      destruct (lookup c (columns df)) as [s|] eqn:Es; [|reflexivity].
      cbn [option_map]. f_equal. apply Series_expand_ones; [exact Hkeys|].
      now rewrite (Hrect _ _ Es), Hlen.
Qed.

Lemma fix_up_dates_keeps_rows_witness :
  let df := mkDataFrame 2
              [("state", object [Some "CO"; Some "NY"]);
               ("plant_id_eia", int64 [1; 2]);
               ("op_date", object [Some "01-01-2015"; Some "01-02-2015"]);
               ("op_hour", int64 [0; 5]);
               ("gross_load_mw", float64 [3200%float; 10%float])] in
  let out := mkDataFrame 2
               [("state", object [Some "CO"; Some "NY"]);
                ("plant_id_eia", int64 [1; 2]);
                ("gross_load_mw", float64 [3200%float; 10%float]);
                ("operating_datetime_utc",
                 datetime64_utc [Some (utc 2015 1 1 1 0 0);
                                 Some (utc 2015 1 2 5 0 0)])] in
  fix_up_dates df [(2, 0); (1, ns_per_hour)] = Ok out
  /\ nrows out = nrows df
  /\ lookup "state" (columns out) = lookup "state" (columns df).
Proof.
  intros df out.
  assert (H : fix_up_dates df [(2, 0); (1, ns_per_hour)] = Ok out)
    by (vm_compute; reflexivity).
  split; [exact H|].
  destruct (fix_up_dates_keeps_rows df [(2, 0); (1, ns_per_hour)] out H)
    as [Hrows Hcols].
  - repeat constructor; simpl; intuition discriminate.
  - intros c s. cbn [lookup columns df].
    repeat (destruct (String.eqb _ c);
            [intros [= <-]; reflexivity|]).
    discriminate.
  - split; [exact Hrows|]. apply Hcols; [reflexivity | discriminate].
Defined.

Lemma expand_copies (t : offsets) (ps : list Z) :
  forallb (registered t) ps = true ->
  expand (map (copies t) ps) ps =
  flat_map (fun p => map (fun _ => p) (matches t p)) ps
  /\ List.length (flat_map (joined t) ps) =
     List.length (flat_map (matches t) ps).
Proof.
  induction ps as [|p ps IH]; intros H; [split; reflexivity|].
  cbn [forallb] in H. apply andb_true_iff in H. destruct H as [Hp H].
  destruct (IH H) as [IH1 IH2]. cbn [map flat_map].
  rewrite expand_cons, IH1, !length_app, IH2.
  rewrite matches_registered in Hp. unfold copies, joined.
  destruct (matches t p) as [|m ms]; [discriminate|]. split.
  - f_equal. induction (m :: ms) as [|m' ms' IHm]; [reflexivity|].
    cbn [List.length repeat map]. now rewrite IHm.
  - now rewrite length_map.
Qed.

(** X7.  A plant id that occurs in several rows of the table of offsets
    multiplies its readings: the frame [fix_up_dates] returns has one row
    for each pair of a reading and a table row with the reading's plant id,
    the readings in their order. *)
Theorem fix_up_dates_one_row_per_match
    (df : DataFrame) (t : offsets) (out : DataFrame) (ps : list Z) :
  fix_up_dates df t = Ok out ->
  lookup "plant_id_eia" (columns df) = Some (int64 ps) ->
  nrows out = List.length (flat_map (matches t) ps)
  /\ lookup "plant_id_eia" (columns out) =
     Some (int64 (flat_map (fun p => map (fun _ => p) (matches t p)) ps)).
Proof.
  intros H Hplant.
  destruct (fix_up_dates_Ok_inv df t out H)
    as (ps' & ds & hs & mid & Hplant' & _ & _ & Hfree & _ & Hreg & ->).
  rewrite Hplant in Hplant'. injection Hplant' as <-.
  destruct (expand_copies t ps Hreg) as [Hexp Hlen]. split.
  - cbn [resolved_frame nrows merged_frame]. exact Hlen.
  - rewrite resolved_lookup, Hplant by (reflexivity || discriminate).
    cbn [option_map Series_expand]. now rewrite Hexp.
Qed.

Lemma fix_up_dates_one_row_per_match_witness :
  let df := mkDataFrame 2
              [("plant_id_eia", int64 [1; 2]);
               ("op_date", object [Some "01-01-2015"; Some "01-02-2015"]);
               ("op_hour", int64 [0; 5])] in
  let t := [(1, 0); (2, 0); (1, ns_per_hour)] in
  let out := mkDataFrame 3
               [("plant_id_eia", int64 [1; 1; 2]);
                ("operating_datetime_utc",
                 datetime64_utc [Some (utc 2015 1 1 0 0 0);
                                 Some (utc 2015 1 1 1 0 0);
                                 Some (utc 2015 1 2 5 0 0)])] in
  fix_up_dates df t = Ok out
  /\ nrows out = 3%nat
  /\ lookup "plant_id_eia" (columns out) = Some (int64 [1; 1; 2]).
Proof.
  intros df t out.
  assert (H : fix_up_dates df t = Ok out) by (vm_compute; reflexivity).
  split; [exact H|].
  exact (fix_up_dates_one_row_per_match df t out [1; 2] H eq_refl).
Defined.

(** X8.  A reading whose date is missing does not stop the batch and gets a
    missing timestamp.  On readings whose date entries [to_datetime]
    accepts, whose plants are in the table and whose sums, where the date is
    not missing, are within the bounds of [Timestamp], [fix_up_dates]
    returns a frame whose [operating_datetime_utc] holds, for each reading
    and each table row of its plant, the missing value when the date is
    missing and otherwise the parsed day plus the hour plus the offset. *)
Theorem fix_up_dates_missing_date
    (df : DataFrame) (t : offsets) (rows : list entry) :
  lookup "plant_id_eia" (columns df) = Some (int64 (map e_plant_id_eia rows)) ->
  lookup "op_date" (columns df) = Some (object (map e_op_date rows)) ->
  lookup "op_hour" (columns df) = Some (int64 (map e_op_hour rows)) ->
  contains df "utc_offset" = false ->
  (forall r, In r rows -> exists v, strptime (e_op_date r) = Ok v) ->
  (forall r, In r rows -> In (e_plant_id_eia r) (map fst t)) ->
  (forall r day, In r rows -> parsed (e_op_date r) = Some day ->
     in_bounds (e_op_hour r * ns_per_hour) = true
     /\ in_bounds (day + e_op_hour r * ns_per_hour) = true) ->
  (forall r day utc_offset,
     In r rows -> parsed (e_op_date r) = Some day ->
     In utc_offset (matches t (e_plant_id_eia r)) ->
     in_bounds (day + e_op_hour r * ns_per_hour + utc_offset) = true) ->
  exists out,
    fix_up_dates df t = Ok out
    /\ lookup "operating_datetime_utc" (columns out) =
       Some (datetime64_utc
               (flat_map
                  (fun r =>
                     map (fun utc_offset =>
                            match parsed (e_op_date r) with
                            | Some day =>
                                Some (day + e_op_hour r * ns_per_hour
                                      + utc_offset)
                            | None => None
                            end)
                       (matches t (e_plant_id_eia r)))
                  rows)).
Proof.
  intros Hplant Hdate Hhour Hfree Hparse Hreg Hlocal Hutc.
  pose proof (fix_up_dates_run df t _ _ _ _
                Hplant Hdate Hhour Hfree (parsed_rows e_op_date rows Hparse))
    as Hrun.
  rewrite (naive_fits entry (fun r => parsed (e_op_date r)) e_op_hour rows Hlocal)
    in Hrun.
  rewrite notna_all_joined in Hrun.
  assert (Hb : forallb (registered t) (map e_plant_id_eia rows) = true).
  { apply forallb_forall. intros p Hp. apply registered_In.
    apply in_map_iff in Hp. destruct Hp as (r & <- & Hr). now apply Hreg. }
  rewrite Hb in Hrun.
  rewrite (stamped_fits entry e_plant_id_eia (fun r => parsed (e_op_date r))
             e_op_hour rows t Hlocal Hutc) in Hrun.
  eexists. split; [exact Hrun|].
  rewrite resolved_operating_datetime_utc.
  now rewrite (stamped_rows entry e_plant_id_eia
                 (fun r => parsed (e_op_date r)) e_op_hour rows t
                 Hlocal Hreg Hutc).
Qed.

Lemma fix_up_dates_missing_date_witness :
  let rows := [mkEntry 3 None 4; mkEntry 3 (Some "NaT") 5;
               mkEntry 3 (Some "12-31-2015") 23] in
  let df := mkDataFrame 3
              [("plant_id_eia", int64 [3; 3; 3]);
               ("op_date", object [None; Some "NaT"; Some "12-31-2015"]);
               ("op_hour", int64 [4; 5; 23])] in
  exists out,
    fix_up_dates df [(3, ns_per_hour)] = Ok out
    /\ lookup "operating_datetime_utc" (columns out) =
       Some (datetime64_utc [None; None; Some (utc 2016 1 1 0 0 0)]).
Proof.
  intros rows df.
  destruct (fix_up_dates_missing_date df [(3, ns_per_hour)] rows
              eq_refl eq_refl eq_refl eq_refl)
    as (out & Hrun & Hcol).
  - intros r [<-|[<-|[<-|[]]]]; eexists; vm_compute; reflexivity.
  - intros r [<-|[<-|[<-|[]]]]; simpl; auto.
  - intros r day [<-|[<-|[<-|[]]]] H; vm_compute in H;
      try discriminate H; injection H as <-; split; vm_compute; reflexivity.
  - intros r day off [<-|[<-|[<-|[]]]] H; vm_compute in H;
      try discriminate H; injection H as <-;
      intros [<-|[]]; vm_compute; reflexivity.
  - exists out. split; [exact Hrun|]. rewrite Hcol. vm_compute. reflexivity.
Defined.

(** ** The table of offsets, further *)

Section Loader.

Variable tzinfo : Type.
Variable pytz_timezone : string -> option tzinfo.
Variable localize_utcoffset : tzinfo -> Z * Z * Z -> Z.

Local Abbreviation load :=
  (_load_plant_utc_offset tzinfo pytz_timezone localize_utcoffset).
Local Abbreviation offset_of :=
  (utc_offset_of tzinfo pytz_timezone localize_utcoffset).

Lemma dropna_app (a b : list plants_entity_eia) :
  dropna (a ++ b) = dropna a ++ dropna b.
Proof. apply flat_map_app. Qed.

Lemma mapM_app {A B : Type} (f : A -> result B) (a b : list A) :
  mapM f (a ++ b) = (x <- mapM f a ;; y <- mapM f b ;; Ok (x ++ y)).
Proof.
  induction a as [|h a IH]; cbn [app mapM bind].
  - now destruct (mapM f b).
  - destruct (f h); cbn [bind]; [|reflexivity].
    rewrite IH. destruct (mapM f a); cbn [bind]; [|reflexivity].
    now destruct (mapM f b).
Qed.

Lemma load_app (a b : list plants_entity_eia) :
  load (a ++ b) = (x <- load a ;; y <- load b ;; Ok (x ++ y)).
Proof. unfold _load_plant_utc_offset. now rewrite dropna_app, mapM_app. Qed.

Lemma dropna_In (rows : list plants_entity_eia) (p : Z) (tz : string) :
  In (p, tz) (dropna rows) <->
  exists r, In r rows /\ plant_id_eia r = Some p /\ timezone r = Some tz.
Proof.
  unfold dropna. rewrite in_flat_map. split.
  - intros (r & Hr & Hin). exists r. split; [exact Hr|].
    destruct (plant_id_eia r) as [q|]; [|destruct Hin].
    destruct (timezone r) as [z|]; [|destruct Hin].
    destruct Hin as [Hin|[]]. now injection Hin as -> ->.
  - intros (r & Hr & Hp & Htz). exists r. split; [exact Hr|].
    rewrite Hp, Htz. now left.
Qed.

Lemma load_first_unknown (pre post : list plants_entity_eia)
    (p : Z) (tz : string) :
  (forall r q z, In r pre -> plant_id_eia r = Some q -> timezone r = Some z ->
     pytz_timezone z <> None) ->
  pytz_timezone tz = None ->
  load (pre ++ mkPlant (Some p) (Some tz) :: post)
  = Raise (UnknownTimeZoneError tz).
Proof.
  intros Hpre Htz. unfold _load_plant_utc_offset.
  rewrite dropna_app. cbn [dropna flat_map plant_id_eia timezone app].
  fold (dropna post).
  apply mapM_first_error.
  - intros [q z] Hin. apply dropna_In in Hin.
    destruct Hin as (r & Hr & Hq & Hz). cbn [snd fst].
    pose proof (Hpre r q z Hr Hq Hz) as Hknown. unfold utc_offset_of.
    destruct (pytz_timezone z); [|congruence]. eexists. reflexivity.
  - cbn [snd]. unfold utc_offset_of. now rewrite Htz.
Qed.

Lemma load_keys (rows : list plants_entity_eia) (table : offsets) :
  load rows = Ok table -> map fst table = map fst (dropna rows).
Proof.
  unfold _load_plant_utc_offset. revert table.
  induction (dropna rows) as [|[q z] l IH]; intros table H; cbn [mapM] in H.
  - now injection H as <-.
  - cbn [snd fst] in H. destruct (offset_of z); [|discriminate].
    cbn [bind] in H. destruct (mapM _ l) as [tl|] eqn:E; [|discriminate].
    cbn [bind] in H. injection H as <-. cbn [map fst]. f_equal. now apply IH.
Qed.

(** X9.  [_load_plant_utc_offset] stops at the first row, among those with
    a plant id and a timezone, whose timezone pytz does not know, and raises
    UnknownTimeZoneError with that name; the rows after it are not looked
    at. *)
Theorem load_plant_utc_offset_first_unknown_zone
    (pre post : list plants_entity_eia) (p : Z) (tz : string) :
  (forall r q z, In r pre -> plant_id_eia r = Some q -> timezone r = Some z ->
     pytz_timezone z <> None) ->
  pytz_timezone tz = None ->
  load (pre ++ mkPlant (Some p) (Some tz) :: post)
  = Raise (UnknownTimeZoneError tz).
Proof. exact (load_first_unknown pre post p tz). Qed.

(** X10.  The table of a plants table made of two parts is the table of the
    first part followed by the table of the second; it fails as the first
    part does, or else as the second does. *)
Theorem load_plant_utc_offset_app (a b : list plants_entity_eia) :
  load (a ++ b) =
  match load a with
  | Raise e => Raise e
  | Ok x => match load b with
            | Raise e => Raise e
            | Ok y => Ok (x ++ y)
            end
  end.
Proof.
  rewrite load_app. destruct (load a); cbn [bind]; [|reflexivity].
  now destruct (load b).
Qed.

(** X11.  A plant without a timezone is found out when its readings come:
    if every row of the plants table with plant id [p] lacks a timezone and
    the table of offsets loads, then on any raw frame whose dates parse,
    whose sums of dates and hours stay in the 64-bit range and that has a
    reading of [p], [fix_up_dates] raises the missing-offset error, and [p]
    is in its list. *)
Theorem plant_without_timezone_fails_downstream
    (pudl_engine : list plants_entity_eia) (table : offsets) (p : Z)
    (df : DataFrame) (ps : list Z) (ds : list (option string)) (hs : list Z)
    (mid : list (option Z)) :
  load pudl_engine = Ok table ->
  (forall r, In r pudl_engine -> plant_id_eia r = Some p -> timezone r = None) ->
  lookup "plant_id_eia" (columns df) = Some (int64 ps) ->
  lookup "op_date" (columns df) = Some (object ds) ->
  lookup "op_hour" (columns df) = Some (int64 hs) ->
  contains df "utc_offset" = false ->
  mapM strptime ds = Ok mid ->
  overflow mid (map hours hs) = false ->
  In p ps ->
  exists missing,
    fix_up_dates df table = Raise (ValueError_utc_offset_missing missing)
    /\ In p missing.
Proof.
  intros Hload Hnone Hplant Hdate Hhour Hfree Hmid Hsum Hp.
  assert (Habsent : registered table p = false).
  { apply not_true_is_false. intros Hreg. apply registered_In in Hreg.
    rewrite (load_keys _ _ Hload) in Hreg. apply in_map_iff in Hreg.
    destruct Hreg as ([q z] & Hq & Hin). cbn [fst] in Hq. subst q.
    apply dropna_In in Hin. destruct Hin as (r & Hr & Hrp & Hrz).
    rewrite (Hnone r Hr Hrp) in Hrz. discriminate. }
  pose proof (fix_up_dates_run df table ps ds hs mid
                Hplant Hdate Hhour Hfree Hmid) as Hrun.
  rewrite Hsum, notna_all_joined, missing_plants_joined in Hrun.
  assert (Hb : forallb (registered table) ps = false).
  { apply not_true_is_false. intros Hb. rewrite forallb_forall in Hb.
    rewrite (Hb p Hp) in Habsent. discriminate. }
  rewrite Hb in Hrun. eexists. split; [exact Hrun|].
  apply unique_In, filter_In. split; [exact Hp|]. now rewrite Habsent.
Qed.

End Loader.

Lemma load_plant_utc_offset_first_unknown_zone_witness :
  _load_plant_utc_offset Z sample_timezone sample_utcoffset
    ([mkPlant (Some 3) (Some "America/New_York"); mkPlant None (Some "Nowhere")]
     ++ mkPlant (Some 4) (Some "Eastern Time")
        :: [mkPlant (Some 5) (Some "Atlantis")])
  = Raise (UnknownTimeZoneError "Eastern Time").
Proof.
  apply load_plant_utc_offset_first_unknown_zone.
  - intros r q z [<-|[<-|[]]]; simpl; intros [= <-] [= <-];
      vm_compute; discriminate.
  - reflexivity.
Defined.

Lemma plant_without_timezone_fails_downstream_witness :
  exists missing,
    fix_up_dates
      (mkDataFrame 2
         [("plant_id_eia", int64 [3; 9]);
          ("op_date", object [Some "01-01-2015"; Some "01-01-2015"]);
          ("op_hour", int64 [0; 0])])
      [(3, - 5 * ns_per_hour)]
    = Raise (ValueError_utc_offset_missing missing)
    /\ In 9 missing.
Proof.
  apply (plant_without_timezone_fails_downstream Z sample_timezone
           sample_utcoffset
           [mkPlant (Some 3) (Some "America/New_York"); mkPlant (Some 9) None]
           [(3, - 5 * ns_per_hour)] 9 _ [3; 9]
           [Some "01-01-2015"; Some "01-01-2015"] [0; 0]
           [Some (utc 2015 1 1 0 0 0); Some (utc 2015 1 1 0 0 0)]).
  - vm_compute. reflexivity.
  - intros r [<-|[<-|[]]]; simpl; [discriminate | reflexivity].
  - reflexivity.
  - reflexivity.
  - reflexivity.
  - reflexivity.
  - vm_compute. reflexivity.
  - vm_compute. reflexivity.
  - simpl. auto.
Defined.

(** ** The generator, further *)

Lemma andThen_assoc {Y : Type} (a b c : gen Y) :
  andThen (andThen a b) c = andThen a (andThen b c).
Proof.
  unfold andThen. destruct a as [ya [ea|]]; cbn [raised yielded]; [reflexivity|].
  destruct b as [yb [eb|]]; cbn [raised yielded]; [reflexivity|].
  now rewrite List.app_assoc.
Qed.

Lemma andThen_nil_l {Y : Type} (g : gen Y) : andThen (mkGen [] None) g = g.
Proof. now destruct g. Qed.

Lemma for_each_app {X Y : Type} (a b : list X) (body : X -> gen Y) :
  for_each (a ++ b) body = andThen (for_each a body) (for_each b body).
Proof.
  induction a as [|x a IH]; cbn [app for_each].
  - now rewrite andThen_nil_l.
  - now rewrite IH, andThen_assoc.
Qed.

Lemma for_each_flatten {X Y : Type} (ls : list (list X)) (body : X -> gen Y) :
  for_each ls (fun l => for_each l body) = for_each (List.concat ls) body.
Proof.
  induction ls as [|l ls IH]; cbn [for_each List.concat]; [reflexivity|].
  now rewrite IH, for_each_app.
Qed.

Lemma for_each_stops {X Y : Type} (good : list X) (bad : X) (rest : list X)
    (body : X -> gen Y) (f : X -> Y) (e : exn) :
  (forall x, In x good -> body x = yield (f x)) ->
  body bad = throw e ->
  for_each (good ++ bad :: rest) body = mkGen (map f good) (Some e).
Proof.
  intros Hgood Hbad.
  rewrite for_each_app, (for_each_yields good body f Hgood).
  cbn [for_each]. rewrite Hbad. unfold andThen, throw. cbn [raised yielded].
  now rewrite List.app_nil_r.
Qed.

Lemma for_each_yielded {X Y : Type} (l : list X) (body : X -> gen Y) (y : Y) :
  In y (yielded (for_each l body)) ->
  exists x, In x l /\ In y (yielded (body x)).
Proof.
  induction l as [|x l IH]; cbn [for_each yielded]; [intros []|].
  unfold andThen. destruct (raised (body x)) eqn:E.
  - intros H. exists x. split; [now left | exact H].
  - cbn [yielded]. intros H. apply in_app_or in H. destruct H as [H|H].
    + exists x. split; [now left | exact H].
    + destruct (IH H) as (x' & Hx' & Hy). exists x'. split; [now right | exact Hy].
Qed.

Section Stream.

Variable tzinfo : Type.
Variable pytz_timezone : string -> option tzinfo.
Variable localize_utcoffset : tzinfo -> Z * Z * Z -> Z.
Variable epacems_columns_fill_na_dict : list (string * fill_value).
Variable yr_st : Type.

Local Abbreviation load :=
  (_load_plant_utc_offset tzinfo pytz_timezone localize_utcoffset).
Local Abbreviation run :=
  (transform tzinfo pytz_timezone localize_utcoffset
     epacems_columns_fill_na_dict yr_st).
Local Abbreviation stages_of := (stages epacems_columns_fill_na_dict).

(** What the loop of [transform] does with one item of a dict. *)
Local Abbreviation step := (fun (plant_utc_offset : offsets)
                               (item : yr_st * DataFrame) =>
  match stages_of plant_utc_offset (snd item) with
  | Ok df => yield [(fst item, df)]
  | Raise e => throw e
  end).

Lemma transform_flat (pudl_engine : list plants_entity_eia)
    (epacems_raw_dfs : list (list (yr_st * DataFrame))) :
  run pudl_engine epacems_raw_dfs =
  match load pudl_engine with
  | Raise e => throw e
  | Ok plant_utc_offset =>
      for_each (List.concat epacems_raw_dfs) (step plant_utc_offset)
  end.
Proof.
  unfold transform. destruct (load pudl_engine); [|reflexivity].
  apply for_each_flatten.
Qed.

(** X12.  The plants table is read before the first raw frame: when a row
    with a plant id has a timezone pytz does not know (and the rows before
    it are sound), [transform] yields nothing and raises
    UnknownTimeZoneError, whatever the stream is, even an empty one or one
    that has no reading of that plant. *)
Theorem transform_unknown_zone_yields_nothing
    (pre post : list plants_entity_eia) (p : Z) (tz : string)
    (epacems_raw_dfs : list (list (yr_st * DataFrame))) :
  (forall r q z, In r pre -> plant_id_eia r = Some q -> timezone r = Some z ->
     pytz_timezone z <> None) ->
  pytz_timezone tz = None ->
  run (pre ++ mkPlant (Some p) (Some tz) :: post) epacems_raw_dfs
  = mkGen [] (Some (UnknownTimeZoneError tz)).
Proof.
  intros Hpre Htz. unfold transform.
  now rewrite (load_first_unknown tzinfo pytz_timezone localize_utcoffset
                 pre post p tz Hpre Htz).
Qed.

(** X13.  [transform] yields as it goes.  When the stages raise on a raw
    frame and not on the frames before it, the frames before it have been
    yielded, cleaned and in order, the exception ends the generator, and
    nothing is yielded for that frame or for any frame after it. *)
Theorem transform_stops_at_first_failure
    (pudl_engine : list plants_entity_eia)
    (epacems_raw_dfs : list (list (yr_st * DataFrame)))
    (plant_utc_offset : offsets)
    (good : list (yr_st * DataFrame)) (bad : yr_st * DataFrame)
    (rest : list (yr_st * DataFrame))
    (cleaned : yr_st * DataFrame -> DataFrame) (e : exn) :
  load pudl_engine = Ok plant_utc_offset ->
  List.concat epacems_raw_dfs = good ++ bad :: rest ->
  (forall item, In item good ->
     stages_of plant_utc_offset (snd item) = Ok (cleaned item)) ->
  stages_of plant_utc_offset (snd bad) = Raise e ->
  run pudl_engine epacems_raw_dfs =
  mkGen (map (fun item => [(fst item, cleaned item)]) good) (Some e).
Proof.
  intros Hload Hitems Hgood Hbad.
  rewrite transform_flat, Hload, Hitems.
  apply for_each_stops.
  - intros item Hin. now rewrite (Hgood item Hin).
  - now rewrite Hbad.
Qed.

(** X14.  No frame depends on another: the run on a stream made of two
    parts is the run on the first part followed, unless that raised, by the
    run on the second. *)
Theorem transform_app
    (pudl_engine : list plants_entity_eia)
    (a b : list (list (yr_st * DataFrame))) :
  run pudl_engine (a ++ b) =
  andThen (run pudl_engine a) (run pudl_engine b).
Proof.
  unfold transform. destruct (load pudl_engine); [|reflexivity].
  apply for_each_app.
Qed.

Lemma correct_gross_load_mw_Ok_inv (df out : DataFrame) :
  correct_gross_load_mw df = Ok out ->
  contains out "gross_load_mw" = true
  /\ (forall c, c <> "gross_load_mw" ->
      lookup c (columns out) = lookup c (columns df)).
Proof.
  unfold correct_gross_load_mw, getitem.
  destruct (lookup "gross_load_mw" (columns df)) as [s|] eqn:E;
    [|discriminate].
  assert (Hin : contains df "gross_load_mw" = true)
    by now rewrite contains_lookup, E.
  assert (Hset : forall s', contains (setitem df "gross_load_mw" s')
                              "gross_load_mw" = true
                            /\ (forall c, c <> "gross_load_mw" ->
                                lookup c (columns (setitem df "gross_load_mw" s'))
                                = lookup c (columns df))).
  { intros s'. split; [apply contains_setitem_same|].
    intros c Hc. now apply lookup_setitem_other. }
  cbn [bind]. destruct s as [l|l| | | |]; try discriminate.
  - destruct (existsb _ _); intros [= <-]; [apply Hset | now split].
  - destruct (existsb _ _); intros [= <-]; [apply Hset | now split].
Qed.

Lemma resolved_without (df : DataFrame) (t : offsets) (ps : list Z)
    (mid : list (option Z)) (hs : list Z) (c : string) :
  consumed c = true \/ c = "utc_offset" ->
  lookup c (columns (resolved_frame df t ps mid hs)) = None.
Proof.
  cbn [resolved_frame columns]. unfold drop, consumed. cbn [existsb].
  intros [H | ->]; [|apply lookup_filter_same].
  destruct (String.eqb c "op_date") eqn:E1.
  { apply String.eqb_eq in E1. subst c.
    rewrite !lookup_filter_other by discriminate. apply lookup_filter_same. }
  destruct (String.eqb c "op_hour") eqn:E2.
  { apply String.eqb_eq in E2. subst c.
    rewrite !lookup_filter_other by discriminate. apply lookup_filter_same. }
  destruct (String.eqb c "op_datetime_naive") eqn:E3; [|discriminate H].
  apply String.eqb_eq in E3. subst c.
  rewrite !lookup_filter_other by discriminate. apply lookup_filter_same.
Qed.

(** X15.  Every frame [transform] yields, also before a failure, has the
    columns [operating_datetime_utc], [facility_id], [unit_id_epa] and
    [gross_load_mw], and has none of [op_date], [op_hour],
    [op_datetime_naive] and [utc_offset]; and every dict it yields holds
    one frame. *)
Theorem transform_yields_uniform_frames
    (pudl_engine : list plants_entity_eia)
    (epacems_raw_dfs : list (list (yr_st * DataFrame)))
    (d : list (yr_st * DataFrame)) :
  In d (yielded (run pudl_engine epacems_raw_dfs)) ->
  exists key df,
    d = [(key, df)]
    /\ contains df "operating_datetime_utc" = true
    /\ contains df "facility_id" = true
    /\ contains df "unit_id_epa" = true
    /\ contains df "gross_load_mw" = true
    /\ contains df "op_date" = false
    /\ contains df "op_hour" = false
    /\ contains df "op_datetime_naive" = false
    /\ contains df "utc_offset" = false.
Proof.
  rewrite transform_flat. destruct (load pudl_engine) as [t|]; [|intros []].
  intros H. apply for_each_yielded in H. destruct H as (item & _ & H).
  unfold stages in H.
  destruct (fillna epacems_columns_fill_na_dict (snd item)) as [filled|];
    cbn [bind pipe] in H; [|destruct H].
  destruct (fix_up_dates (harmonize_eia_epa_orispl filled) t)
    as [res|] eqn:Hfix; cbn [bind] in H; [|destruct H].
  destruct (correct_gross_load_mw (add_facility_id_unit_id_epa res))
    as [df|] eqn:Hcorr; [|destruct H].
  destruct H as [<-|[]]. exists (fst item), df. split; [reflexivity|].
  destruct (fix_up_dates_Ok_inv _ _ _ Hfix)
    as (ps & ds & hs & mid & _ & _ & _ & _ & _ & _ & ->).
  destruct (correct_gross_load_mw_Ok_inv _ _ Hcorr) as (Hgross & Hother).
  set (res := resolved_frame (harmonize_eia_epa_orispl filled) t ps mid hs) in *.
  assert (Hlook : forall c, c <> "gross_load_mw" ->
            lookup c (columns df) =
            match lookup c (columns res) with
            | Some s => Some s
            | None =>
                if String.eqb c "facility_id" || String.eqb c "unit_id_epa"
                then Some (na_col res) else None
            end).
  { intros c Hc. now rewrite Hother, harmonized_lookup. }
  rewrite Hgross, !contains_lookup, !Hlook by discriminate.
  unfold res. rewrite resolved_operating_datetime_utc.
  rewrite (resolved_without _ _ _ _ _ "op_date") by (left; reflexivity).
  rewrite (resolved_without _ _ _ _ _ "op_hour") by (left; reflexivity).
  rewrite (resolved_without _ _ _ _ _ "op_datetime_naive")
    by (left; reflexivity).
  rewrite (resolved_without _ _ _ _ _ "utc_offset") by (right; reflexivity).
  cbn [orb].
  repeat split; try reflexivity.
  - now destruct (lookup "facility_id" _).
  - now destruct (lookup "unit_id_epa" _).
Qed.

End Stream.

Lemma transform_unknown_zone_yields_nothing_witness :
  transform Z sample_timezone sample_utcoffset [] (Z * string)
    ([mkPlant (Some 3) (Some "America/New_York")]
     ++ mkPlant (Some 4) (Some "Eastern Time") :: [])
    [[((2015, "NY"),
       mkDataFrame 1
         [("plant_id_eia", int64 [3]);
          ("op_date", object [Some "01-01-2015"]);
          ("op_hour", int64 [0]);
          ("gross_load_mw", float64 [10%float])])]]
  = mkGen [] (Some (UnknownTimeZoneError "Eastern Time")).
Proof.
  apply transform_unknown_zone_yields_nothing.
  - intros r q z [<-|[]]; simpl; intros [= <-] [= <-]; vm_compute; discriminate.
  - reflexivity.
Defined.

Lemma transform_stops_at_first_failure_witness :
  let batch (p : Z) :=
    mkDataFrame 1
      [("plant_id_eia", int64 [p]);
       ("op_date", object [Some "01-01-2015"]);
       ("op_hour", int64 [0]);
       ("gross_load_mw", float64 [10%float])] in
  exists first,
    transform Z sample_timezone sample_utcoffset [] (Z * string)
      [mkPlant (Some 3) (Some "UTC")]
      [[((2015, "NY"), batch 3)];
       [((2015, "CO"), batch 9); ((2015, "IL"), batch 3)]]
    = mkGen [[((2015, "NY"), first)]] (Some (ValueError_utc_offset_missing [9])).
Proof.
  intros batch. eexists.
  apply (transform_stops_at_first_failure Z sample_timezone sample_utcoffset
           [] (Z * string) _ _ [(3, 0)]
           [((2015, "NY"), batch 3)] ((2015, "CO"), batch 9)
           [((2015, "IL"), batch 3)]
           (fun item =>
              match stages [] [(3, 0)] (snd item) with
              | Ok df => df
              | Raise _ => snd item
              end)).
  - vm_compute. reflexivity.
  - reflexivity.
  - intros item [<-|[]]. vm_compute. reflexivity.
  - vm_compute. reflexivity.
Defined.

Lemma transform_yields_uniform_frames_witness :
  let out :=
    mkDataFrame 1
      [("plant_id_eia", int64 [3]);
       ("gross_load_mw", int64 [10]);
       ("operating_datetime_utc", datetime64_utc [Some (utc 2015 1 1 0 0 0)]);
       ("facility_id", Int64 [None]);
       ("unit_id_epa", Int64 [None])] in
  exists key df,
    [((2015, "NY"), out)] = [(key, df)]
    /\ contains df "operating_datetime_utc" = true
    /\ contains df "facility_id" = true
    /\ contains df "unit_id_epa" = true
    /\ contains df "gross_load_mw" = true
    /\ contains df "op_date" = false
    /\ contains df "op_hour" = false
    /\ contains df "op_datetime_naive" = false
    /\ contains df "utc_offset" = false.
Proof.
  intros out.
  apply (transform_yields_uniform_frames Z sample_timezone sample_utcoffset
           [] (Z * string)
           [mkPlant (Some 3) (Some "UTC")]
           [[((2015, "NY"),
              mkDataFrame 1
                [("plant_id_eia", int64 [3]);
                 ("op_date", object [Some "01-01-2015"]);
                 ("op_hour", int64 [0]);
                 ("gross_load_mw", int64 [10])])]]).
  vm_compute. left. reflexivity.
Defined.

(** ** Stages that do not meet *)

Lemma frame_eq (a b : DataFrame) :
  nrows a = nrows b -> columns a = columns b -> a = b.
Proof. destruct a, b. cbn. now intros -> ->. Qed.

Lemma replace_app_found (c : string) (s : Series)
    (cols more : list (string * Series)) :
  lookup c cols <> None ->
  replace c s (cols ++ more) = replace c s cols ++ more.
Proof.
  induction cols as [|[k s0] cols IH]; cbn [lookup app replace]; [congruence|].
  destruct (String.eqb k c); [reflexivity|].
  intros H. cbn [app]. now rewrite IH.
Qed.

Lemma harmonize_setitem (df : DataFrame) (c : string) (s s0 : Series) :
  c <> "facility_id" -> c <> "unit_id_epa" ->
  lookup c (columns df) = Some s0 ->
  add_facility_id_unit_id_epa (setitem df c s) =
  setitem (add_facility_id_unit_id_epa df) c s.
Proof.
  intros Hf Hu Hc. apply frame_eq.
  - now rewrite harmonized_nrows, !nrows_setitem, harmonized_nrows.
  - rewrite harmonized_columns.
    rewrite !contains_setitem_other by congruence.
    unfold na_col. rewrite nrows_setitem.
    unfold setitem at 2.
    assert (Hin : contains (add_facility_id_unit_id_epa df) c = true).
    { now rewrite contains_lookup, harmonized_lookup, Hc. }
    rewrite Hin. cbn [columns]. rewrite harmonized_columns.
    rewrite replace_app_found by congruence.
    unfold setitem. rewrite contains_lookup, Hc. reflexivity.
Qed.

(** X16.  The last two stages do not meet: correcting the gross load of a
    harmonized frame gives the same result, or the same exception, as
    harmonizing the corrected frame. *)
Theorem correct_gross_load_mw_harmonize_commute (df : DataFrame) :
  correct_gross_load_mw (add_facility_id_unit_id_epa df) =
  match correct_gross_load_mw df with
  | Ok out => Ok (add_facility_id_unit_id_epa out)
  | Raise e => Raise e
  end.
Proof.
  destruct (lookup "gross_load_mw" (columns df)) as [s|] eqn:E.
  - assert (E' : lookup "gross_load_mw"
                   (columns (add_facility_id_unit_id_epa df)) = Some s)
      by now rewrite harmonized_lookup, E.
    destruct s as [l|l| | | |];
      try (unfold correct_gross_load_mw, getitem; rewrite E, E'; reflexivity).
    + unfold correct_gross_load_mw, getitem. rewrite E, E'. cbn [bind].
      destruct (existsb _ _); [|reflexivity].
      f_equal. symmetry. now apply (harmonize_setitem df _ _ (int64 l)).
    + rewrite (correct_gross_load_mw_run _ l E'),
        (correct_gross_load_mw_run _ l E).
      f_equal. symmetry. now apply (harmonize_setitem df _ _ (float64 l)).
  - assert (E' : lookup "gross_load_mw"
                   (columns (add_facility_id_unit_id_epa df)) = None)
      by now rewrite harmonized_lookup, E.
    unfold correct_gross_load_mw, getitem. now rewrite E, E'.
Qed.

(** * The cached tables of [PudlTabl] *)

Lemma dict_get_set_same {V : Type} (k : string) (v : V) (d : dict V) :
  dict_get k (dict_set k v d) = Some v.
Proof.
  induction d as [|[k' v'] d IH]; cbn [dict_set dict_get].
  - now rewrite String.eqb_refl.
  - destruct (String.eqb k' k) eqn:E; cbn [dict_get]; now rewrite E.
Qed.

Lemma dict_get_set_other {V : Type} (k k' : string) (v : V) (d : dict V) :
  k' <> k -> dict_get k' (dict_set k v d) = dict_get k' d.
Proof.
  intros Hne. induction d as [|[k0 v0] d IH]; cbn [dict_set dict_get].
  - destruct (String.eqb k k') eqn:E; [|reflexivity].
    apply String.eqb_eq in E. congruence.
  - destruct (String.eqb k0 k) eqn:E; cbn [dict_get].
    + apply String.eqb_eq in E. subst k0.
      destruct (String.eqb k k') eqn:E'; [|reflexivity].
      apply String.eqb_eq in E'. congruence.
    + destruct (String.eqb k0 k'); [reflexivity | exact IH].
Qed.

Section Cached.

Import Pudltabl.

Variable k : string.

Lemma cached_hit pull self df :
  dict_get k (_dfs self) = Some (Some df) ->
  cached k pull self false = (Return df, self).
Proof. intros H. unfold cached. now rewrite H. Qed.

Lemma cached_pull pull self update :
  update = true \/ dict_get k (_dfs self) = Some None ->
  cached k pull self update =
  match pull self with
  | (Return df, self') => (Return df, set_dfs self' k df)
  | (Except e, self') => (Except e, self')
  end.
Proof.
  intros H. unfold cached.
  assert (Hstale : (if update then Return true
                    else match dict_get k (_dfs self) with
                         | None => Except (KeyError_ k)
                         | Some None => Return true
                         | Some (Some _) => Return false
                         end) = Return true).
  { destruct H as [->| ->]; [reflexivity | now destruct update]. }
  rewrite Hstale. destruct (pull self) as [[df|e] self']; [|reflexivity].
  cbn [set_dfs _dfs]. now rewrite dict_get_set_same.
Qed.

Lemma cached_Return pull self update df self1 :
  cached k pull self update = (Return df, self1) ->
  dict_get k (_dfs self1) = Some (Some df).
Proof.
  unfold cached.
  destruct (if update then Return true
            else match dict_get k (_dfs self) with
                 | None => Except (KeyError_ k)
                 | Some None => Return true
                 | Some (Some _) => Return false
                 end) as [[|]|e] eqn:Hstale.
  - destruct (pull self) as [[df'|e] self']; [|discriminate].
    cbn [set_dfs _dfs]. rewrite dict_get_set_same.
    intros [= <- <-]. cbn [_dfs]. apply dict_get_set_same.
  - destruct (dict_get k (_dfs self)) as [[df'|]|] eqn:E; try discriminate.
    intros [= <- <-]. exact E.
  - discriminate.
Qed.

Lemma cached_memo pull pull' self df self1 update :
  cached k pull self update = (Return df, self1) ->
  cached k pull' self1 false = (Return df, self1).
Proof. intros H. apply cached_hit. exact (cached_Return _ _ _ _ _ H). Qed.

Lemma cached_isolated (source : PudlTabl -> outcome DataFrame)
    self update r self1 :
  cached k (fun self => (source self, self)) self update = (r, self1) ->
  freq self1 = freq self /\ testing self1 = testing self
  /\ start_date self1 = start_date self /\ end_date self1 = end_date self
  /\ (forall k', k' <> k -> dict_get k' (_dfs self1) = dict_get k' (_dfs self))
  /\ (forall e, r = Except e -> self1 = self).
Proof.
  unfold cached.
  destruct (if update then Return true
            else match dict_get k (_dfs self) with
                 | None => Except (KeyError_ k)
                 | Some None => Return true
                 | Some (Some _) => Return false
                 end) as [[|]|e] eqn:Hstale.
  - destruct (source self) as [df|e].
    + cbn [set_dfs _dfs]. rewrite dict_get_set_same. intros [= <- <-].
      cbn. repeat split; try discriminate.
      intros k' Hk'. now apply dict_get_set_other.
    + intros [= <- <-]. now repeat split.
  - destruct (dict_get k (_dfs self)) as [[df'|]|]; intros [= <- <-];
      now repeat split.
  - intros [= <- <-]. now repeat split.
Qed.

End Cached.

Section Tables.

Import Pudltabl.

Variable world : Type.
Variable eia860_plants_utils_eia860 : world -> Z -> Z -> bool -> outcome DataFrame.
Variable ferc1_plants_utils_ferc1 : world -> bool -> outcome DataFrame.
Variable eia860_utilities_eia860 : world -> Z -> Z -> bool -> outcome DataFrame.
Variable eia860_boiler_generator_assn_eia860 :
  world -> Z -> Z -> bool -> outcome DataFrame.
Variable eia860_plants_eia860 : world -> Z -> Z -> bool -> outcome DataFrame.
Variable eia860_generators_eia860 : world -> Z -> Z -> bool -> outcome DataFrame.
Variable eia860_ownership_eia860 : world -> Z -> Z -> bool -> outcome DataFrame.
Variable eia923_generation_fuel_eia923 :
  world -> option string -> Z -> Z -> bool -> outcome DataFrame.
Variable eia923_fuel_receipts_costs_eia923 :
  world -> option string -> Z -> Z -> bool -> outcome DataFrame.
Variable eia923_boiler_fuel_eia923 :
  world -> option string -> Z -> Z -> bool -> outcome DataFrame.
Variable eia923_generation_eia923 :
  world -> option string -> Z -> Z -> bool -> outcome DataFrame.
Variable ferc1_plants_steam_ferc1 : world -> bool -> outcome DataFrame.
Variable ferc1_fuel_ferc1 : world -> bool -> outcome DataFrame.
Variable glue_boiler_generator_assn : world -> Z -> Z -> bool -> outcome DataFrame.
Variable mcoe_heat_rate_by_gen :
  world -> PudlTabl -> bool -> outcome DataFrame * PudlTabl.
Variable mcoe_heat_rate_by_unit :
  world -> PudlTabl -> bool -> outcome DataFrame * PudlTabl.
Variable mcoe_fuel_cost :
  world -> PudlTabl -> bool -> outcome DataFrame * PudlTabl.
Variable mcoe_capacity_factor :
  world -> PudlTabl -> bool -> outcome DataFrame * PudlTabl.
Variable mcoe_mcoe :
  world -> PudlTabl -> bool -> float -> float -> float -> float ->
  outcome DataFrame * PudlTabl.

Local Abbreviation outputs :=
  (output_methods world eia860_plants_utils_eia860 ferc1_plants_utils_ferc1
     eia860_utilities_eia860 eia860_boiler_generator_assn_eia860
     eia860_plants_eia860 eia860_generators_eia860 eia860_ownership_eia860
     eia923_generation_fuel_eia923 eia923_fuel_receipts_costs_eia923
     eia923_boiler_fuel_eia923 eia923_generation_eia923
     ferc1_plants_steam_ferc1 ferc1_fuel_ferc1 glue_boiler_generator_assn).
Local Abbreviation analyses :=
  (analysis_methods world mcoe_heat_rate_by_gen mcoe_heat_rate_by_unit
     mcoe_fuel_cost mcoe_capacity_factor mcoe_mcoe).

(** Every method is [cached] at its key, for some way to pull the table. *)
Lemma method_cached (k : string) (m : method world) :
  In (k, m) (outputs ++ analyses) ->
  forall w x, exists pull, forall self update,
    m w x self update = cached k pull self update.
Proof.
  intros H w x. cbn [output_methods analysis_methods app] in H.
  repeat (destruct H as [H|H];
          [injection H as <- <-; eexists; intros; reflexivity|]).
  destruct H.
Qed.

Lemma output_cached (k : string) (m : method world) :
  In (k, m) outputs ->
  forall w x, exists source, forall self update,
    m w x self update = cached k (fun self => (source self, self)) self update.
Proof.
  intros H w x. cbn [output_methods] in H.
  repeat (destruct H as [H|H];
          [injection H as <- <-; eexists; intros; reflexivity|]).
  destruct H.
Qed.

(** X17.  Every table method of [PudlTabl] memoizes: once a call has
    returned a frame, a later call without [update] returns that frame and
    leaves the object as it is, whatever the databases hold by then and
    whatever other arguments it is given ([verbose]; for [mcoe], other
    bounds). *)
Theorem pudltabl_methods_memoize (k : string) (m : method world)
    (w1 w2 : world) (x1 x2 : extra) (update : bool)
    (self self1 : PudlTabl) (df : DataFrame) :
  In (k, m) (outputs ++ analyses) ->
  m w1 x1 self update = (Return df, self1) ->
  m w2 x2 self1 false = (Return df, self1).
Proof.
  intros Hin H.
  destruct (method_cached k m Hin w1 x1) as [pull1 H1].
  destruct (method_cached k m Hin w2 x2) as [pull2 H2].
  rewrite H1 in H. rewrite H2. exact (cached_memo k pull1 pull2 _ _ _ _ H).
Qed.

(** X18.  A method that pulls from pudl.output touches nothing but its own
    entry: after a call, [freq], [testing], the dates and the entries of
    [_dfs] under the other keys are as before; and when the pull raises,
    the object is as before altogether. *)
Theorem pudltabl_output_methods_isolated (k : string) (m : method world)
    (w : world) (x : extra) (update : bool)
    (self self1 : PudlTabl) (r : outcome DataFrame) :
  In (k, m) outputs ->
  m w x self update = (r, self1) ->
  freq self1 = freq self /\ testing self1 = testing self
  /\ start_date self1 = start_date self /\ end_date self1 = end_date self
  /\ (forall k', k' <> k -> dict_get k' (_dfs self1) = dict_get k' (_dfs self))
  /\ (forall e, r = Except e -> self1 = self).
Proof.
  intros Hin H. destruct (output_cached k m Hin w x) as [source Hm].
  rewrite Hm in H. exact (cached_isolated k source _ _ _ _ H).
Qed.

(** X19.  With [update] a method pulls whatever is cached: the outcome of a
    method that pulls from pudl.output does not depend on [_dfs], and a
    frame it returns is what the entry holds afterwards. *)
Theorem pudltabl_update_refreshes (k : string) (m : method world)
    (w : world) (x : extra) (self : PudlTabl) (dfs : dict (option DataFrame)) :
  In (k, m) outputs ->
  fst (m w x (mkPudlTabl (freq self) (testing self) (start_date self)
                (end_date self) dfs) true)
  = fst (m w x self true)
  /\ (forall df self1, m w x self true = (Return df, self1) ->
        dict_get k (_dfs self1) = Some (Some df)).
Proof.
  intros Hin. split.
  - cbn [output_methods] in Hin.
    repeat (destruct Hin as [Hin|Hin];
            [injection Hin as <- <-;
             match goal with
             | |- fst (?f _ _ _ ?s true) = _ => unfold f
             end;
             rewrite !cached_pull by (now left); cbn [freq testing start_date end_date];
             match goal with
             | |- context [match ?o with Return _ => _ | Except _ => _ end] =>
                 destruct o
             end; reflexivity|]).
    destruct Hin.
  - intros df self1 H.
    destruct (output_cached k m Hin w x) as [source Hm].
    rewrite Hm in H. exact (cached_Return k _ _ _ _ _ H).
Qed.

End Tables.

Lemma pudltabl_methods_memoize_witness :
  let pull := fun (w : Z) (self : Pudltabl.PudlTabl) (_ : bool)
                  (_ _ _ _ : float) => (Return (sample_table w), self) in
  let self1 := Pudltabl.set_dfs sample_object "mcoe" (sample_table 1) in
  Pudltabl.mcoe Z pull 1 sample_object false
    5.5%float 0%float 0%float 1.5%float false
  = (Return (sample_table 1), self1)
  /\ Pudltabl.mcoe Z pull 2 self1 false 9%float 9%float 9%float 9%float true
     = (Return (sample_table 1), self1).
Proof.
  intros pull self1.
  assert (H1 : Pudltabl.mcoe Z pull 1 sample_object false
                 5.5%float 0%float 0%float 1.5%float false
               = (Return (sample_table 1), self1))
    by (vm_compute; reflexivity).
  split; [exact H1|].
  assert (Hin : In ("mcoe",
                    (fun w x self update =>
                       Pudltabl.mcoe Z pull w self update (x_min_heat_rate x)
                         (x_min_fuel_cost_per_mwh x) (x_min_cap_fact x)
                         (x_max_cap_fact x) (x_verbose x)) : method Z)
                  (sample_outputs ++ sample_analyses)).
  { apply in_or_app. right. do 4 right. left. reflexivity. }
  exact (pudltabl_methods_memoize Z _ _ _ _ _ _ _ _ _ _ _ _ _ _ _ _ _ _ _
           "mcoe" _ 1 2 sample_extra (mkExtra true 9%float 9%float 9%float 9%float)
           false sample_object self1 (sample_table 1) Hin H1).
Defined.

Lemma pudltabl_output_methods_isolated_witness :
  let self := Pudltabl.set_dfs sample_object "bga" (sample_table 0) in
  let self1 := Pudltabl.set_dfs self "gf_eia923" (sample_table 7) in
  Pudltabl.gf_eia923 Z (fun w _ _ _ _ => Return (sample_table w)) 7 self false
  = (Return (sample_table 7), self1)
  /\ dict_get "bga" (Pudltabl._dfs self1) = Some (Some (sample_table 0))
  /\ Pudltabl.start_date self1 = utc 2009 1 1 0 0 0.
Proof.
  intros self self1.
  assert (H1 : Pudltabl.gf_eia923 Z (fun w _ _ _ _ => Return (sample_table w))
                 7 self false = (Return (sample_table 7), self1))
    by (vm_compute; reflexivity).
  split; [exact H1|].
  assert (Hin : In ("gf_eia923",
                    (fun w _ =>
                       Pudltabl.gf_eia923 Z
                         (fun w _ _ _ _ => Return (sample_table w)) w)
                    : method Z) sample_outputs).
  { do 7 right. left. reflexivity. }
  destruct (pudltabl_output_methods_isolated Z _ _ _ _ _ _ _ _ _ _ _ _ _ _
              "gf_eia923" _ 7 sample_extra false self self1 _ Hin H1)
    as (_ & _ & Hstart & _ & Hother & _).
  split.
  - rewrite Hother by discriminate. reflexivity.
  - rewrite Hstart. reflexivity.
Defined.

Lemma pudltabl_update_refreshes_witness :
  let stale := Pudltabl.set_dfs sample_object "pu_ferc1" (sample_table 1) in
  fst (Pudltabl.pu_ferc1 Z (fun w _ => Return (sample_table w)) 2 stale true)
  = Return (sample_table 2).
Proof.
  intros stale.
  assert (Hin : In ("pu_ferc1",
                    (fun w _ =>
                       Pudltabl.pu_ferc1 Z (fun w _ => Return (sample_table w)) w)
                    : method Z) sample_outputs).
  { right. left. reflexivity. }
  destruct (pudltabl_update_refreshes Z _ _ _ _ _ _ _ _ _ _ _ _ _ _
              "pu_ferc1" _ 2 sample_extra sample_object
              (Pudltabl._dfs stale) Hin) as [H _].
  exact H.
Defined.

(** * A new [PudlTabl] *)

Section Fresh.

Import Pudltabl.

Variable to_datetime_str : string -> outcome Z.
Variable working_years_eia923 : list Z.

Variable world : Type.
Variable eia860_plants_utils_eia860 : world -> Z -> Z -> bool -> outcome DataFrame.
Variable ferc1_plants_utils_ferc1 : world -> bool -> outcome DataFrame.
Variable eia860_utilities_eia860 : world -> Z -> Z -> bool -> outcome DataFrame.
Variable eia860_boiler_generator_assn_eia860 :
  world -> Z -> Z -> bool -> outcome DataFrame.
Variable eia860_plants_eia860 : world -> Z -> Z -> bool -> outcome DataFrame.
Variable eia860_generators_eia860 : world -> Z -> Z -> bool -> outcome DataFrame.
Variable eia860_ownership_eia860 : world -> Z -> Z -> bool -> outcome DataFrame.
Variable eia923_generation_fuel_eia923 :
  world -> option string -> Z -> Z -> bool -> outcome DataFrame.
Variable eia923_fuel_receipts_costs_eia923 :
  world -> option string -> Z -> Z -> bool -> outcome DataFrame.
Variable eia923_boiler_fuel_eia923 :
  world -> option string -> Z -> Z -> bool -> outcome DataFrame.
Variable eia923_generation_eia923 :
  world -> option string -> Z -> Z -> bool -> outcome DataFrame.
Variable ferc1_plants_steam_ferc1 : world -> bool -> outcome DataFrame.
Variable ferc1_fuel_ferc1 : world -> bool -> outcome DataFrame.
Variable glue_boiler_generator_assn : world -> Z -> Z -> bool -> outcome DataFrame.
Variable mcoe_heat_rate_by_gen :
  world -> PudlTabl -> bool -> outcome DataFrame * PudlTabl.
Variable mcoe_heat_rate_by_unit :
  world -> PudlTabl -> bool -> outcome DataFrame * PudlTabl.
Variable mcoe_fuel_cost :
  world -> PudlTabl -> bool -> outcome DataFrame * PudlTabl.
Variable mcoe_capacity_factor :
  world -> PudlTabl -> bool -> outcome DataFrame * PudlTabl.
Variable mcoe_mcoe :
  world -> PudlTabl -> bool -> float -> float -> float -> float ->
  outcome DataFrame * PudlTabl.

Local Abbreviation init := (__init__ to_datetime_str working_years_eia923).
Local Abbreviation outputs :=
  (output_methods world eia860_plants_utils_eia860 ferc1_plants_utils_ferc1
     eia860_utilities_eia860 eia860_boiler_generator_assn_eia860
     eia860_plants_eia860 eia860_generators_eia860 eia860_ownership_eia860
     eia923_generation_fuel_eia923 eia923_fuel_receipts_costs_eia923
     eia923_boiler_fuel_eia923 eia923_generation_eia923
     ferc1_plants_steam_ferc1 ferc1_fuel_ferc1 glue_boiler_generator_assn).
Local Abbreviation analyses :=
  (analysis_methods world mcoe_heat_rate_by_gen mcoe_heat_rate_by_unit
     mcoe_fuel_cost mcoe_capacity_factor mcoe_mcoe).

Lemma init_dfs freq testing start_date end_date self :
  init freq testing start_date end_date = Return self ->
  _dfs self = empty_dfs.
Proof.
  unfold __init__, obind.
  destruct (match start_date with
            | None => _
            | Some d => _
            end); [|discriminate].
  destruct (match end_date with
            | None => _
            | Some d => _
            end); [|discriminate].
  now intros [= <-].
Qed.

Lemma method_key_fresh (k : string) (m : method world) :
  In (k, m) (outputs ++ analyses) -> dict_get k empty_dfs = Some None.
Proof.
  intros H. cbn [output_methods analysis_methods app] in H.
  repeat (destruct H as [H|H]; [injection H as <- _; reflexivity|]).
  destruct H.
Qed.

(** X20.  Nothing is cached in a new object: on the object [__init__]
    returns, every table method pulls its table at the first call, with or
    without [update]; and every key the methods use is in [_dfs], so that
    no method raises KeyError. *)
Theorem pudltabl_new_object_pulls (k : string) (m : method world)
    (freq : option string) (testing : bool)
    (start_date end_date : option date_arg) (self : PudlTabl)
    (w : world) (x : extra) :
  init freq testing start_date end_date = Return self ->
  In (k, m) (outputs ++ analyses) ->
  dict_get k (_dfs self) = Some None
  /\ m w x self false = m w x self true.
Proof.
  intros Hinit Hin.
  assert (Hk : dict_get k (_dfs self) = Some None).
  { rewrite (init_dfs _ _ _ _ _ Hinit). exact (method_key_fresh k m Hin). }
  split; [exact Hk|].
  destruct (method_cached world
              eia860_plants_utils_eia860 ferc1_plants_utils_ferc1
              eia860_utilities_eia860 eia860_boiler_generator_assn_eia860
              eia860_plants_eia860 eia860_generators_eia860
              eia860_ownership_eia860 eia923_generation_fuel_eia923
              eia923_fuel_receipts_costs_eia923 eia923_boiler_fuel_eia923
              eia923_generation_eia923 ferc1_plants_steam_ferc1
              ferc1_fuel_ferc1 glue_boiler_generator_assn
              mcoe_heat_rate_by_gen mcoe_heat_rate_by_unit mcoe_fuel_cost
              mcoe_capacity_factor mcoe_mcoe k m Hin w x) as [pull Hm].
  rewrite !Hm, !cached_pull; auto.
Qed.

Lemma fold_min_spec (l : list Z) (x : Z) :
  let lo := fold_left Z.min l x in
  In lo (x :: l) /\ forall y, In y (x :: l) -> lo <= y.
Proof.
  revert x. induction l as [|a l IH]; intros x; cbn [fold_left].
  - split; [now left|]. intros y [<-|[]]. lia.
  - destruct (IH (Z.min x a)) as [Hin Hle]. split.
    + destruct Hin as [Hin|Hin]; [|now right; right].
      rewrite <- Hin. destruct (Z.min_spec x a) as [[_ ->]|[_ ->]];
        [now left | now right; left].
    + intros y [<-|[<-|Hy]].
      * etransitivity; [apply Hle; now left | apply Z.le_min_l].
      * etransitivity; [apply Hle; now left | apply Z.le_min_r].
      * apply Hle. now right.
Qed.

Lemma fold_max_spec (l : list Z) (x : Z) :
  let hi := fold_left Z.max l x in
  In hi (x :: l) /\ forall y, In y (x :: l) -> y <= hi.
Proof.
  revert x. induction l as [|a l IH]; intros x; cbn [fold_left].
  - split; [now left|]. intros y [<-|[]]. lia.
  - destruct (IH (Z.max x a)) as [Hin Hle]. split.
    + destruct Hin as [Hin|Hin]; [|now right; right].
      rewrite <- Hin. destruct (Z.max_spec x a) as [[_ ->]|[_ ->]];
        [now right; left | now left].
    + intros y [<-|[<-|Hy]].
      * etransitivity; [apply Z.le_max_l | apply Hle; now left].
      * etransitivity; [apply Z.le_max_r | apply Hle; now left].
      * apply Hle. now right.
Qed.

(** X21.  Without dates, [__init__] takes the window from the working years
    of EIA 923, wherever they stand in the list: it asks [pd.to_datetime]
    for the first of January of the earliest and the 31st of December of
    the latest, and raises ValueError when there are no working years. *)
Theorem pudltabl_default_window (freq : option string) (testing : bool) :
  (working_years_eia923 = [] ->
   exists msg, init freq testing None None = Except (ValueError msg))
  /\ (working_years_eia923 <> [] ->
      exists lo hi,
        In lo working_years_eia923 /\ In hi working_years_eia923
        /\ (forall y, In y working_years_eia923 -> lo <= y <= hi)
        /\ init freq testing None None =
           (start <~ to_datetime_str (format_int lo ++ "-01-01") ;;
            stop <~ to_datetime_str (format_int hi ++ "-12-31") ;;
            Return (mkPudlTabl freq testing start stop empty_dfs))).
Proof.
  unfold __init__. split.
  - intros ->. eexists. reflexivity.
  - destruct working_years_eia923 as [|y0 l]; [congruence|]. intros _.
    destruct (fold_min_spec l y0) as [Hlo Hle].
    destruct (fold_max_spec l y0) as [Hhi Hge].
    exists (fold_left Z.min l y0), (fold_left Z.max l y0).
    split; [exact Hlo|]. split; [exact Hhi|]. split.
    + intros y Hy. split; [now apply Hle | now apply Hge].
    + reflexivity.
Qed.

End Fresh.

Lemma pudltabl_new_object_pulls_witness :
  Pudltabl.bga Z (fun w _ _ _ => Return (sample_table w)) 4 sample_object false
  = Pudltabl.bga Z (fun w _ _ _ => Return (sample_table w)) 4 sample_object true.
Proof.
  assert (Hin : In ("bga",
                    (fun w _ =>
                       Pudltabl.bga Z (fun w _ _ _ => Return (sample_table w)) w)
                    : method Z) (sample_outputs ++ sample_analyses)).
  { apply in_or_app. left. do 13 right. left. reflexivity. }
  assert (Hinit : Pudltabl.__init__ sample_to_datetime [2011; 2009; 2016; 2010]
                    None false None None = Return sample_object)
    by (vm_compute; reflexivity).
  exact (proj2 (pudltabl_new_object_pulls sample_to_datetime
                  [2011; 2009; 2016; 2010]
                  Z _ _ _ _ _ _ _ _ _ _ _ _ _ _ _ _ _ _ _
                  "bga" _ None false None None sample_object 4 sample_extra
                  Hinit Hin)).
Defined.

Lemma pudltabl_default_window_witness :
  Pudltabl.__init__ sample_to_datetime [2011; 2009; 2016; 2010]
    (Some "MS") true None None
  = Return (Pudltabl.mkPudlTabl (Some "MS") true (utc 2009 1 1 0 0 0)
              (utc 2016 12 31 0 0 0) Pudltabl.empty_dfs).
Proof.
  destruct (pudltabl_default_window sample_to_datetime [2011; 2009; 2016; 2010]
              (Some "MS") true) as [_ H].
  destruct H as (lo & hi & Hlo & Hhi & Hbounds & Hinit); [discriminate|].
  vm_compute. reflexivity.
Defined.

(** * The update script *)

Section Script.

Import UpdateDatastore.

Variable data_years : dict (list Z).

Local Abbreviation lookup_years := (lookup_years data_years).
Local Abbreviation comprehension := (comprehension data_years).
Local Abbreviation years_by_source := (years_by_source data_years).
Local Abbreviation main := (main data_years).

Lemma mem_In (n : Z) (l : list Z) : mem n l = true <-> In n l.
Proof.
  unfold mem. rewrite existsb_exists. split.
  - intros (y & Hy & E). apply Z.eqb_eq in E. now subst.
  - intros H. exists n. split; [exact H | apply Z.eqb_refl].
Qed.

Lemma comprehension_In (keep : bool) (src : string) (years : list string)
    (l : list Z) :
  comprehension keep src years = Return l ->
  forall y, In y l ->
    exists s valid,
      In s years /\ int s = Return y
      /\ dict_get src data_years = Some valid /\ mem y valid = keep.
Proof.
  revert l. induction years as [|yr rest IH]; intros l; cbn [UpdateDatastore.comprehension].
  - intros [= <-] y [].
  - destruct (int yr) as [n|] eqn:En; cbn [obind]; [|discriminate].
    unfold UpdateDatastore.lookup_years.
    destruct (dict_get src data_years) as [valid|] eqn:Ev; cbn [obind];
      [|discriminate].
    destruct (Bool.eqb (mem n valid) keep) eqn:Ek.
    + cbn [obind].
      destruct (comprehension keep src rest) as [tail|] eqn:Et; cbn [obind];
        [|discriminate].
      intros [= <-] y [<-|Hy].
      * exists yr, valid. split; [now left|]. split; [exact En|].
        split; [reflexivity|]. now apply Bool.eqb_prop.
      * destruct (IH tail eq_refl y Hy) as (s & v & Hs & Hrest).
        exists s, v. split; [now right | exact Hrest].
    + intros H y Hy. destruct (IH l H y Hy) as (s & v & Hs & Hrest).
      exists s, v. split; [now right | exact Hrest].
Qed.

Lemma comprehension_run (keep : bool) (src : string) (years : list string)
    (numbers valid : list Z) :
  map int years = map Return numbers ->
  dict_get src data_years = Some valid ->
  comprehension keep src years =
  Return (filter (fun n => Bool.eqb (mem n valid) keep) numbers).
Proof.
  intros Hparse Hvalid. revert numbers Hparse.
  induction years as [|yr rest IH]; intros [|n numbers] Hparse;
    try discriminate; cbn [UpdateDatastore.comprehension filter];
    [reflexivity|].
  cbn [map] in Hparse. injection Hparse as Hn Hrest.
  rewrite Hn. cbn [obind]. unfold UpdateDatastore.lookup_years.
  rewrite Hvalid. cbn [obind].
  destruct (Bool.eqb (mem n valid) keep).
  - cbn [obind]. now rewrite (IH numbers Hrest).
  - now apply IH.
Qed.

Lemma comprehension_first_error (keep : bool) (src : string)
    (good : list string) (bad : string) (rest : list string) (e : exception) :
  (forall s, In s good -> exists n, int s = Return n) ->
  good = [] \/ dict_get src data_years <> None ->
  int bad = Except e ->
  comprehension keep src (good ++ bad :: rest) = Except e.
Proof.
  intros Hgood Hsrc Hbad. induction good as [|g good IH];
    cbn [app UpdateDatastore.comprehension].
  - now rewrite Hbad.
  - destruct Hsrc as [Hnil|Hsrc]; [discriminate|].
    destruct (Hgood g (or_introl eq_refl)) as [n Hn]. rewrite Hn.
    cbn [obind]. unfold UpdateDatastore.lookup_years.
    destruct (dict_get src data_years) as [valid|]; [|congruence].
    cbn [obind].
    assert (IH' : comprehension keep src (good ++ bad :: rest) = Except e).
    { apply IH; [intros; apply Hgood; now right | right; congruence]. }
    destruct (Bool.eqb (mem n valid) keep); [|exact IH'].
    cbn [obind]. now rewrite IH'.
Qed.

(** What the first loop leaves in [yrs_by_src]: the entries that were there,
    and for the sources it went through, years of that source. *)
Lemma years_by_source_inv (args : arguments) (srcs : list string)
    (d d' : dict (list Z)) (printed printed' : list event) :
  years_by_source args srcs d printed = (printed', Return d') ->
  forall src yrs, dict_get src d' = Some yrs ->
    dict_get src d = Some yrs
    \/ (In src srcs
        /\ exists valid,
             dict_get src data_years = Some valid
             /\ forall y, In y yrs -> In y valid).
Proof.
  revert d printed. induction srcs as [|s srcs IH]; intros d printed;
    cbn [UpdateDatastore.years_by_source].
  - intros [= _ <-] src yrs H. now left.
  - assert (Hstep : forall l pr,
              (exists valid, dict_get s data_years = Some valid
                             /\ forall y, In y l -> In y valid) ->
              years_by_source args srcs (dict_set s l d) pr
              = (printed', Return d') ->
              forall src yrs, dict_get src d' = Some yrs ->
                dict_get src d = Some yrs
                \/ (In src (s :: srcs)
                    /\ exists valid,
                         dict_get src data_years = Some valid
                         /\ forall y, In y yrs -> In y valid)).
    { intros l pr Hl Hrun src yrs Hget.
      destruct (IH _ _ Hrun src yrs Hget) as [Hold|[Hin Hgood]].
      - destruct (String.eqb s src) eqn:E.
        + apply String.eqb_eq in E. subst src.
          rewrite dict_get_set_same in Hold. injection Hold as <-.
          right. split; [now left | exact Hl].
        + apply String.eqb_neq in E.
          rewrite dict_get_set_other in Hold by congruence. now left.
      - right. split; [now right | exact Hgood]. }
    destruct (years args) as [|y0 ys] eqn:Ey.
    + unfold UpdateDatastore.lookup_years.
      destruct (dict_get s data_years) as [valid|] eqn:Ev; [|discriminate].
      apply Hstep. now exists valid.
    + destruct (comprehension true s (y0 :: ys)) as [yrs0|] eqn:Ec;
        [|discriminate].
      destruct (comprehension false s (y0 :: ys)) as [bad|]; [|discriminate].
      apply Hstep.
      destruct (dict_get s data_years) as [valid|] eqn:Ev.
      * exists valid. split; [reflexivity|]. intros y Hy.
        destruct (comprehension_In true s (y0 :: ys) yrs0 Ec y Hy)
          as (_ & valid' & _ & _ & Hv & Hm).
        rewrite Ev in Hv. injection Hv as <-. now apply mem_In.
      * exfalso. cbn [UpdateDatastore.comprehension] in Ec.
        destruct (int y0); cbn [obind] in Ec; [|discriminate].
        unfold UpdateDatastore.lookup_years in Ec. rewrite Ev in Ec.
        discriminate.
Qed.

Lemma years_by_source_keys (args : arguments) (srcs : list string)
    (d d' : dict (list Z)) (printed printed' : list event) :
  years_by_source args srcs d printed = (printed', Return d') ->
  forall src, In src srcs \/ dict_get src d <> None ->
    dict_get src d' <> None.
Proof.
  revert d printed. induction srcs as [|s srcs IH]; intros d printed;
    cbn [UpdateDatastore.years_by_source].
  - intros [= _ <-] src [[]|H]. exact H.
  - assert (Hstep : forall l pr,
              years_by_source args srcs (dict_set s l d) pr
              = (printed', Return d') ->
              forall src, In src (s :: srcs) \/ dict_get src d <> None ->
                dict_get src d' <> None).
    { intros l pr Hrun src Hsrc. apply (IH _ _ Hrun).
      destruct (String.eqb s src) eqn:E.
      - apply String.eqb_eq in E. subst src. right.
        rewrite dict_get_set_same. discriminate.
      - apply String.eqb_neq in E. destruct Hsrc as [[Heq|Hin]|Hold].
        + congruence.
        + now left.
        + right. rewrite dict_get_set_other by congruence. exact Hold. }
    destruct (years args) as [|y0 ys].
    + destruct (lookup_years s); [|discriminate]. apply Hstep.
    + destruct (comprehension true s (y0 :: ys)); [|discriminate].
      destruct (comprehension false s (y0 :: ys)); [|discriminate].
      apply Hstep.
Qed.

(** The first loop prints and submits nothing. *)
Lemma years_by_source_prints (args : arguments) (srcs : list string)
    (d : dict (list Z)) (printed : list event) :
  (forall ev, In ev printed -> exists src bad, ev = Print src bad) ->
  forall ev, In ev (fst (years_by_source args srcs d printed)) ->
    exists src bad, ev = Print src bad.
Proof.
  revert d printed. induction srcs as [|s srcs IH]; intros d printed Hpr;
    cbn [UpdateDatastore.years_by_source]; [exact Hpr|].
  destruct (years args) as [|y0 ys].
  - destruct (lookup_years s); [now apply IH | exact Hpr].
  - destruct (comprehension true s (y0 :: ys)); [|exact Hpr].
    destruct (comprehension false s (y0 :: ys)) as [bad|]; [|exact Hpr].
    apply IH. destruct (_ && _); [|exact Hpr].
    intros ev Hev. apply in_app_or in Hev. destruct Hev as [Hev|[<-|[]]].
    + now apply Hpr.
    + now exists s, bad.
Qed.

Lemma submit_all_In (args : arguments) (srcs : list string)
    (d : dict (list Z)) (ev : event) :
  In ev (fst (submit_all args srcs d)) ->
  exists src yr yrs,
    In src srcs /\ dict_get src d = Some yrs /\ In yr yrs
    /\ ev = Submit src yr (states args) (clobber args) (unzip args)
              (verbose args) (datadir args) (no_download args).
Proof.
  induction srcs as [|s srcs IH]; cbn [submit_all fst]; [intros []|].
  destruct (dict_get s d) as [yrs|] eqn:E; cbn [fst]; [|intros []].
  intros H. apply in_app_or in H. destruct H as [H|H].
  - apply in_map_iff in H. destruct H as (yr & <- & Hyr).
    exists s, yr, yrs. repeat split; auto. now left.
  - destruct (IH H) as (src & yr & yrs' & Hsrc & Hrest).
    exists src, yr, yrs'. split; [now right | exact Hrest].
Qed.

Lemma submit_all_ok (args : arguments) (srcs : list string)
    (d : dict (list Z)) :
  (forall src, In src srcs -> dict_get src d <> None) ->
  snd (submit_all args srcs d) = None.
Proof.
  induction srcs as [|s srcs IH]; intros H; cbn [submit_all snd];
    [reflexivity|].
  destruct (dict_get s d) eqn:E.
  - cbn [snd]. apply IH. intros; apply H; now right.
  - exfalso. now apply (H s (or_introl eq_refl)).
Qed.

(** X22.  [main] never asks for a year a source does not have: every call
    of [pudl.datastore.update] it submits is for one of the requested
    sources and a year in [pc.data_years] of that source, and carries the
    options of the command line; this holds also when [main] raises. *)
Theorem main_submits_valid_years (args : arguments)
    (src : string) (yr : Z) (st : list string) (c u v : bool)
    (dir : string) (n : bool) :
  In (Submit src yr st c u v dir n) (fst (main args)) ->
  In src (sources args)
  /\ (exists valid, dict_get src data_years = Some valid /\ In yr valid)
  /\ st = states args /\ c = clobber args /\ u = unzip args
  /\ v = verbose args /\ dir = datadir args /\ n = no_download args.
Proof.
  unfold UpdateDatastore.main.
  destruct (years_by_source args (sources args) [] []) as [printed [d'|e]] eqn:E.
  - pose proof (years_by_source_prints args (sources args) [] []
                  (fun ev (H : In ev []) => match H with end)) as Hpr.
    rewrite E in Hpr. cbn [fst] in Hpr |- *.
    intros H. apply in_app_or in H. destruct H as [H|H].
    + destruct (Hpr _ H) as (s & b & Habs). discriminate.
    + destruct (submit_all_In _ _ _ _ H) as (src' & yr' & yrs & Hsrc & Hget & Hyr & Heq).
      injection Heq as -> -> -> -> -> -> -> ->.
      split; [exact Hsrc|]. split; [|now repeat split].
      destruct (years_by_source_inv _ _ _ _ _ _ E src' yrs Hget)
        as [Hold|[_ (valid & Hv & Hall)]]; [discriminate|].
      exists valid. split; [exact Hv | now apply Hall].
  - pose proof (years_by_source_prints args (sources args) [] []
                  (fun ev (H : In ev []) => match H with end)) as Hpr.
    rewrite E in Hpr. cbn [fst] in Hpr |- *.
    intros H. destruct (Hpr _ H) as (s & b & Habs). discriminate.
Qed.

(** X23.  [main] submits all or nothing: when it raises, no call of
    [pudl.datastore.update] has been submitted; at most lines have been
    printed. *)
Theorem main_all_or_nothing (args : arguments) (e : exception) (ev : event) :
  snd (main args) = Some e ->
  In ev (fst (main args)) ->
  exists src bad_yrs, ev = Print src bad_yrs.
Proof.
  unfold UpdateDatastore.main.
  pose proof (years_by_source_prints args (sources args) [] []
                (fun ev (H : In ev []) => match H with end)) as Hpr.
  destruct (years_by_source args (sources args) [] []) as [printed [d'|e']] eqn:E;
    cbn [fst snd] in *.
  - rewrite submit_all_ok; [discriminate|].
    intros src Hsrc. apply (years_by_source_keys _ _ _ _ _ _ E). now left.
  - intros _. apply Hpr.
Qed.

(** X24.  A year that is no integer literal stops [main] at once: when the
    years before it on the command line are literals and the first source
    is known, [main] raises the ValueError of [int] and has neither
    printed nor submitted anything. *)
Theorem main_bad_year (args : arguments) (src : string) (more : list string)
    (good : list string) (bad : string) (rest : list string) (e : exception) :
  sources args = src :: more ->
  years args = good ++ bad :: rest ->
  (forall s, In s good -> exists n, int s = Return n) ->
  good = [] \/ dict_get src data_years <> None ->
  int bad = Except e ->
  main args = ([], Some e).
Proof.
  intros Hsrc Hyears Hgood Hknown Hbad.
  unfold UpdateDatastore.main. rewrite Hsrc.
  cbn [UpdateDatastore.years_by_source]. rewrite Hyears.
  rewrite (comprehension_first_error true src good bad rest e Hgood Hknown Hbad).
  now destruct good.
Qed.

Lemma fold_set_get (f : string -> list Z) (srcs : list string)
    (d : dict (list Z)) (src : string) :
  dict_get src (fold_left (fun d s => dict_set s (f s) d) srcs d) =
  if existsb (String.eqb src) srcs then Some (f src) else dict_get src d.
Proof.
  revert d. induction srcs as [|s srcs IH]; intros d; cbn [fold_left existsb];
    [reflexivity|].
  rewrite IH. destruct (existsb (String.eqb src) srcs).
  - now rewrite orb_true_r.
  - rewrite orb_false_r. destruct (String.eqb src s) eqn:E.
    + apply String.eqb_eq in E. subst s. apply dict_get_set_same.
    + apply String.eqb_neq in E. now apply dict_get_set_other.
Qed.

Lemma years_by_source_run (args : arguments) (numbers : list Z)
    (valid : string -> list Z) (srcs : list string)
    (d : dict (list Z)) (printed : list event) :
  map int (years args) = map Return numbers ->
  (forall src, In src srcs -> dict_get src data_years = Some (valid src)) ->
  years_by_source args srcs d printed =
  (printed ++ flat_map (fun src => warning args src numbers (valid src)) srcs,
   Return (fold_left
             (fun d src => dict_set src (wanted args numbers (valid src)) d)
             srcs d)).
Proof.
  intros Hparse. revert d printed.
  induction srcs as [|s srcs IH]; intros d printed Hvalid;
    cbn [UpdateDatastore.years_by_source flat_map fold_left].
  - now rewrite List.app_nil_r.
  - pose proof (Hvalid s (or_introl eq_refl)) as Hs.
    assert (Hrest : forall src, In src srcs ->
              dict_get src data_years = Some (valid src))
      by (intros; apply Hvalid; now right).
    unfold warning, wanted, ignored.
    destruct (years args) as [|y0 ys] eqn:Ey.
    + unfold UpdateDatastore.lookup_years. rewrite Hs.
      rewrite (IH _ _ Hrest). unfold warning, wanted, ignored.
      now rewrite Ey.
    + rewrite (comprehension_run true s (y0 :: ys) numbers (valid s) Hparse Hs).
      rewrite (comprehension_run false s (y0 :: ys) numbers (valid s) Hparse Hs).
      rewrite (IH _ _ Hrest). unfold warning, wanted, ignored. rewrite Ey.
      assert (Hkeep : filter (fun n => Bool.eqb (mem n (valid s)) true) numbers
                      = filter (fun n => mem n (valid s)) numbers).
      { apply filter_ext. intros n. now destruct (mem n (valid s)). }
      assert (Hdrop : filter (fun n => Bool.eqb (mem n (valid s)) false) numbers
                      = filter (fun n => negb (mem n (valid s))) numbers).
      { apply filter_ext. intros n. now destruct (mem n (valid s)). }
      rewrite Hkeep, Hdrop. f_equal.
      destruct (filter (fun n => negb (mem n (valid s))) numbers) as [|b bs].
      * cbn. now rewrite andb_false_r.
      * cbn [List.length Nat.eqb negb]. rewrite andb_true_r.
        destruct (verbose args); cbn [app].
        -- now rewrite <- List.app_assoc.
        -- reflexivity.
Qed.

Lemma submit_all_run (args : arguments) (f : string -> list Z)
    (srcs : list string) (d : dict (list Z)) :
  (forall src, In src srcs -> dict_get src d = Some (f src)) ->
  submit_all args srcs d =
  (flat_map (fun src => submissions args src (f src)) srcs, None).
Proof.
  induction srcs as [|s srcs IH]; intros H; cbn [submit_all flat_map];
    [reflexivity|].
  rewrite (H s (or_introl eq_refl)), IH by (intros; apply H; now right).
  reflexivity.
Qed.

(** X25.  On a command line whose years are all integer literals and whose
    sources are all in [pc.data_years], [main] does not raise.  It first
    prints, source by source and only when verbose, the requested years the
    source does not have; it then submits, source by source in the order
    requested, the requested years the source has, in the order of the
    command line, or all the years of the source when none was
    requested. *)
Theorem main_on_sound_arguments (args : arguments) (numbers : list Z)
    (valid : string -> list Z) :
  map int (years args) = map Return numbers ->
  (forall src, In src (sources args) ->
     dict_get src data_years = Some (valid src)) ->
  main args =
  (flat_map (fun src => warning args src numbers (valid src)) (sources args)
   ++ flat_map
        (fun src => submissions args src (wanted args numbers (valid src)))
        (sources args),
   None).
Proof.
  intros Hparse Hvalid. unfold UpdateDatastore.main.
  rewrite (years_by_source_run args numbers valid (sources args) [] []
             Hparse Hvalid).
  cbn [app].
  rewrite (submit_all_run args (fun src => wanted args numbers (valid src))).
  - reflexivity.
  - intros src Hsrc. rewrite fold_set_get.
    assert (Hex : existsb (String.eqb src) (sources args) = true).
    { apply existsb_exists. exists src. split; [exact Hsrc|].
      apply String.eqb_refl. }
    now rewrite Hex.
Qed.

End Script.

Lemma main_submits_valid_years_witness :
  let data_years := [("eia923", [2009; 2010; 2011]);
                     ("epacems", [2010; 2011; 2012])] in
  let args := UpdateDatastore.mkArguments true true false "/data"
                ["eia923"; "epacems"] ["2012"; "2011"; "1999"] false ["CO"] in
  In "epacems" (UpdateDatastore.sources args)
  /\ exists valid, dict_get "epacems" data_years = Some valid /\ In 2012 valid.
Proof.
  intros data_years args.
  destruct (main_submits_valid_years data_years args
              "epacems" 2012 ["CO"] false true true "/data" false)
    as (Hsrc & Hvalid & _).
  - vm_compute. do 3 right. left. reflexivity.
  - split; [exact Hsrc | exact Hvalid].
Defined.

Lemma main_all_or_nothing_witness :
  let data_years := [("eia923", [2009; 2010; 2011])] in
  let args := UpdateDatastore.mkArguments true true false "/data"
                ["eia923"; "ferc1"] ["2011"; "1999"] false ["CO"] in
  UpdateDatastore.main data_years args
  = ([UpdateDatastore.Print "eia923" [1999]], Some (KeyError_ "ferc1"))
  /\ exists src bad_yrs,
       UpdateDatastore.Print "eia923" [1999]
       = UpdateDatastore.Print src bad_yrs.
Proof.
  intros data_years args. split; [vm_compute; reflexivity|].
  apply (main_all_or_nothing data_years args (KeyError_ "ferc1")).
  - vm_compute. reflexivity.
  - vm_compute. left. reflexivity.
Defined.

Lemma main_bad_year_witness :
  UpdateDatastore.main [("eia923", [2009; 2010; 2011])]
    (UpdateDatastore.mkArguments true true false "/data"
       ["eia923"; "epacems"] ["2011"; "2O12"; "x"] false ["CO"])
  = ([], Some (ValueError "2O12")).
Proof.
  apply (main_bad_year _ _ "eia923" ["epacems"] ["2011"] "2O12" ["x"]).
  - reflexivity.
  - reflexivity.
  - intros s [<-|[]]. eexists. vm_compute. reflexivity.
  - right. discriminate.
  - vm_compute. reflexivity.
Defined.

Lemma main_on_sound_arguments_witness :
  UpdateDatastore.main
    [("eia923", [2009; 2010; 2011]); ("epacems", [2010; 2011; 2012])]
    (UpdateDatastore.mkArguments true true false "/data"
       ["epacems"; "eia923"] ["2012"; " 2011"; "1999"] true ["CO"; "NY"])
  = ([UpdateDatastore.Print "epacems" [1999];
      UpdateDatastore.Print "eia923" [2012; 1999];
      UpdateDatastore.Submit "epacems" 2012 ["CO"; "NY"] false true true
        "/data" true;
      UpdateDatastore.Submit "epacems" 2011 ["CO"; "NY"] false true true
        "/data" true;
      UpdateDatastore.Submit "eia923" 2011 ["CO"; "NY"] false true true
        "/data" true],
     None).
Proof.
  rewrite (main_on_sound_arguments
             [("eia923", [2009; 2010; 2011]); ("epacems", [2010; 2011; 2012])]
             (UpdateDatastore.mkArguments true true false "/data"
                ["epacems"; "eia923"] ["2012"; " 2011"; "1999"] true
                ["CO"; "NY"])
             [2012; 2011; 1999]
             (fun src => if String.eqb src "eia923" then [2009; 2010; 2011]
                         else [2010; 2011; 2012])).
  - vm_compute. reflexivity.
  - vm_compute. reflexivity.
  - intros src [<-|[<-|[]]]; reflexivity.
Defined.
